(** * sshctl: a client for the OpenSSH ControlMaster multiplexing protocol

    A shallow embedding of [mux.go] (packet framing, message codec,
    handshake, exit-status reader) and of the [Session] API built on it,
    followed by the properties proved about them.

    Conventions.
    - Go's [int] is the 64-bit one: [mux.go] compares an [int] with the
      untyped constant [0x80000008], which only compiles where [int] has
      64 bits.  A [uint32] converted to [int] therefore keeps its value, and
      an [int] converted to [uint32] is reduced modulo [2^32].
    - [[]byte] is [list byte]; a Go [string] is a [string], marshalled as
      its bytes.
    - A Go function returning [error] is a state transformer whose result
      is [Ret] (nil error), [Err e], or [Block] when the call never returns
      (blocked for ever on a read or on a channel operation). *)

From Stdlib Require Import ZArith List Bool String Lia.
From Stdlib Require Import DecimalString.
From coqutil Require Import Byte.
From Equations Require Import Equations.
From Equations.Prop Require Import Logic.
Import ListNotations.

Local Open Scope Z_scope.
Local Open Scope list_scope.

(* ===================================================================== *)
(** * Integers and byte order *)
(* ===================================================================== *)

(** [uint32(x)] for an [int] x *)
Definition uint32 (x : Z) : Z := x mod 2 ^ 32.

(** [int(x)] for a [uint32] x: the value is kept (64-bit [int]). *)
Definition int_of_uint32 (x : Z) : Z := x.

(** [b[i]] on a byte slice.  Go panics when [i] is out of range; every use
    below is guarded by a length test, so the default is never returned. *)
Definition index (b : list byte) (i : nat) : byte := nth i b Byte.x00.

Module BigEndian.

(** [binary.BigEndian.Uint32]:
    [uint32(b[3]) | uint32(b[2])<<8 | uint32(b[1])<<16 | uint32(b[0])<<24] *)
Definition Uint32 (b : list byte) : Z :=
  Z.lor (Z.lor (Z.lor (byte.unsigned (index b 3))
                      (Z.shiftl (byte.unsigned (index b 2)) 8))
               (Z.shiftl (byte.unsigned (index b 1)) 16))
        (Z.shiftl (byte.unsigned (index b 0)) 24).

(** [binary.BigEndian.PutUint32] on a fresh 4-byte prefix:
    [b[0] = byte(v >> 24); b[1] = byte(v >> 16); b[2] = byte(v >> 8);
     b[3] = byte(v)] *)
Definition PutUint32 (v : Z) : list byte :=
  [ byte.of_Z (Z.shiftr v 24); byte.of_Z (Z.shiftr v 16);
    byte.of_Z (Z.shiftr v 8); byte.of_Z v ].

End BigEndian.

(** [len(b)] as an [int] *)
Definition len {A : Type} (b : list A) : Z := Z.of_nat (List.length b).

(* ===================================================================== *)
(** * Exit outcome and errors *)
(* ===================================================================== *)

(** [Waitmsg] stores the information about an exited remote command. *)
Record Waitmsg : Type := mkWaitmsg {
  status : Z;
  signal : string;
  msg    : string;
  lang   : string
}.

Definition ExitStatus (w : Waitmsg) : Z := status w.
Definition Signal (w : Waitmsg) : string := signal w.
Definition Msg (w : Waitmsg) : string := msg w.
Definition Lang (w : Waitmsg) : string := lang w.

Definition set_status (v : Z) (w : Waitmsg) : Waitmsg :=
  mkWaitmsg v (signal w) (msg w) (lang w).
Definition set_msg (m : string) (w : Waitmsg) : Waitmsg :=
  mkWaitmsg (status w) (signal w) m (lang w).

(** The error values the package builds.  The formatted texts of
    [fmt.Errorf] are kept as constructors with their arguments. *)
Inductive error : Type :=
| ErrReadCtrl                       (* "Unable to read from control socket: %v" *)
| ErrWriteCtrl                      (* the error of ctrlconn.Write *)
| ErrBufferTooShort                 (* "buffer too short" *)
| ErrIncompatibleHello              (* "Incompatible Hello packet received" *)
| ErrExpectedAlive (got : Z)        (* "Expected ALIVE, got: 0x%x" *)
| ErrExpectedSessionOpened (got : Z)(* "Expected muxSessionOpened, got: 0x%x" *)
| ErrOutOfSequence (got : Z)        (* "out of sequence reply: 0x%x" *)
| ErrDial                           (* net.ResolveUnixAddr / net.DialUnix failed *)
| ErrPipe                           (* os.Pipe failed *)
| ErrMakeRaw                        (* "MakeRaw err: %v" *)
| ErrMakeRawState                   (* "MakeRaw state was %v expected %v" *)
| ErrAlreadyStarted                 (* "ssh: session already started" *)
| ErrNotStarted                     (* "ssh: session not started" *)
| ErrSessionAborted                 (* "Session aborted" *)
| ErrCopy (n : nat)                 (* an error of one of the io.Copy tasks *)
| ExitMissingError                  (* &ExitMissingError{} *)
| ExitError (wm : Waitmsg)          (* &ExitError{wm} *)
| PanicNilDeref.                    (* run-time panic: nil pointer dereference *)

(** A run-time panic is no error value: no [if err != nil] sees it, it
    unwinds the calls of its goroutine and ends the program. *)
Definition is_panic (e : error) : bool :=
  match e with
  | PanicNilDeref => true
  | _ => false
  end.

(* ===================================================================== *)
(** * The control connection *)
(* ===================================================================== *)

Definition fd := nat.

(** What follows the bytes the master has sent so far: the stream ends
    (end of file or a transport error: reads fail), or the master stays
    silent (reads block for ever). *)
Inductive tail : Type := Eof | Silent.

(** The state of a [*net.UnixConn] as the client sees it. *)
Record conn : Type := mkConn {
  incoming   : list byte;           (* bytes still to be read *)
  peer       : tail;                (* what follows them *)
  written    : list (list byte);    (* one entry per successful Write call, oldest first *)
  write_errs : list bool;           (* outcome of the next Write calls, true = error; [] = success *)
  fds_sent   : list (option fd);    (* descriptors passed as ancillary data, oldest first *)
  closed     : bool                 (* Close has been called *)
}.

Definition set_incoming (v : list byte) (c : conn) : conn :=
  mkConn v (peer c) (written c) (write_errs c) (fds_sent c) (closed c).
Definition set_written (v : list (list byte)) (c : conn) : conn :=
  mkConn (incoming c) (peer c) v (write_errs c) (fds_sent c) (closed c).
Definition set_write_errs (v : list bool) (c : conn) : conn :=
  mkConn (incoming c) (peer c) (written c) v (fds_sent c) (closed c).
Definition set_fds_sent (v : list (option fd)) (c : conn) : conn :=
  mkConn (incoming c) (peer c) (written c) (write_errs c) v (closed c).
Definition set_closed (v : bool) (c : conn) : conn :=
  mkConn (incoming c) (peer c) (written c) (write_errs c) (fds_sent c) v.

(** Outcome of one blocking call on the connection. *)
Inductive io (A : Type) : Type :=
| IoOk (a : A) (c : conn)
| IoErr (c : conn)
| IoBlock (c : conn).
Arguments IoOk {A} a c.
Arguments IoErr {A} c.
Arguments IoBlock {A} c.

Module Conn.

(** [io.ReadAtLeast(c, buf, n)] with [len(buf) = n].  For [n = 0] it
    returns at once without reading.  Otherwise: the next [n] bytes, or an
    error when the stream ends first (what was left is consumed), or no
    return when the master stays silent; a closed connection fails the
    read. *)
Definition ReadAtLeast (n : Z) (c : conn) : io (list byte) :=
  if n <=? 0 then IoOk [] c
  else if closed c then IoErr c
  else if n <=? len (incoming c)
  then IoOk (firstn (Z.to_nat n) (incoming c))
            (set_incoming (skipn (Z.to_nat n) (incoming c)) c)
  else match peer c with
       | Eof => IoErr (set_incoming [] c)
       | Silent => IoBlock (set_incoming [] c)
       end.

(** [c.Write(msg)]: one write call; a failed call leaves no trace in
    [written]. *)
Definition Write (m : list byte) (c : conn) : io unit :=
  if closed c then IoErr c
  else match write_errs c with
       | true :: rest => IoErr (set_write_errs rest c)
       | false :: rest => IoOk tt (set_write_errs rest (set_written (written c ++ [m]) c))
       | [] => IoOk tt (set_written (written c ++ [m]) c)
       end.

(** [c.Close()], called while no [Read] of another goroutine is parked on
    the connection: it returns at once and later reads and writes fail.
    It does not abort a [Read] that is already parked in the kernel (the
    comment in [Wait] says so); with such a read in flight the call waits
    for it, and that case is not described by this function. *)
Definition Close (c : conn) : conn := set_closed true c.

(** [fd.Put(c, f)]: queues one descriptor as ancillary data; its error
    is ignored by the caller. *)
Definition Put (f : option fd) (c : conn) : conn :=
  set_fds_sent (fds_sent c ++ [f]) c.

End Conn.

(* ===================================================================== *)
(** * Protocol constants and the message codec *)
(* ===================================================================== *)

Definition muxVersion : Z := 4.
Definition muxMsgHello : Z := 1.
Definition muxNewSession : Z := 0x10000002.
Definition muxAliveCheck : Z := 0x10000004.
Definition muxIsAlive : Z := 0x80000005.
Definition muxSessionOpened : Z := 0x80000006.
Definition muxTtyAllocFail : Z := 0x80000008.
Definition muxExitMessage : Z := 0x80000004.

Record muxNewSessionMsg : Type := mkNewSessionMsg {
  nm_Request       : Z;
  nm_RequestId     : Z;
  nm_ReservedStr   : string;
  nm_TtyFlags      : Z;
  nm_ForwardX11    : Z;
  nm_ForwardAgent  : Z;
  nm_SubSystemFlag : Z;
  nm_EscapeChar    : Z;
  nm_Term          : string;
  nm_Command       : string
}.

Record muxMsg : Type := mkMuxMsg {
  mm_Request : Z;
  mm_Param   : Z
}.

(** [ssh.Marshal] of golang.org/x/crypto/ssh, on the two message shapes
    used here: the fields in declaration order, a [uint32] as 4 big-endian
    bytes, a [string] as its 4-byte big-endian length followed by its
    bytes. *)
Module Marshal.

Definition u32 (v : Z) : list byte := BigEndian.PutUint32 v.

Definition str (s : string) : list byte :=
  let b := list_byte_of_string s in
  BigEndian.PutUint32 (uint32 (len b)) ++ b.

Definition muxMsg (m : muxMsg) : list byte :=
  u32 (mm_Request m) ++ u32 (mm_Param m).

Definition muxNewSessionMsg (m : muxNewSessionMsg) : list byte :=
  u32 (nm_Request m) ++ u32 (nm_RequestId m) ++ str (nm_ReservedStr m) ++
  u32 (nm_TtyFlags m) ++ u32 (nm_ForwardX11 m) ++ u32 (nm_ForwardAgent m) ++
  u32 (nm_SubSystemFlag m) ++ u32 (nm_EscapeChar m) ++
  str (nm_Term m) ++ str (nm_Command m).

End Marshal.

(** [packetPopInt(buf *[]byte) (int, error)]: the value, the error, and
    the buffer as the call leaves it. *)
Definition packetPopInt (buf : list byte) : Z * option error * list byte :=
  if len buf <? 4
  then (-1, Some ErrBufferTooShort, buf)
  else let res := BigEndian.Uint32 buf in
       (int_of_uint32 res, None, skipn 4 buf).

(** The loop of [recvInts]:
    [for ; count > 0; count-- { msg, err = packetPopInt(&packet); ... }] *)
Fixpoint popInts (count : nat) (packet : list byte) (msgs : list Z)
  : list Z + error :=
  match count with
  | O => inl msgs
  | S count' =>
      match packetPopInt packet with
      | (_, Some err, _) => inr err
      | (m, None, packet') => popInts count' packet' (msgs ++ [m])
      end
  end.

(* ===================================================================== *)
(** * The Session and the part of the process it touches *)
(* ===================================================================== *)

(** An [io.Reader] / [io.Writer] interface value held in [Stdin], [Stdout]
    or [Stderr]. *)
Inductive stream : Type :=
| NoStream                  (* the nil interface *)
| OsFile (f : fd)           (* an *os.File *)
| UserStream (id : nat)     (* any other implementation (a buffer, a pipe, ...) *)
| Discard.                  (* ioutil.Discard *)

(** Where the stdin copy task reads from: [new(bytes.Buffer)] or the read
    end of the [io.Pipe] fed from [s.Stdin]. *)
Inductive stdin_source : Type := EmptyBuffer | PipeReader.

(** The closures appended to [copyFuncs]. *)
Inductive copyFunc : Type :=
| CopyStdin (src : stdin_source)   (* io.Copy(s.lmuxStdin, stdin); s.lmuxStdin.Close() *)
| CopyStdout                       (* io.Copy(s.Stdout, s.lmuxStdout) *)
| CopyStderr.                      (* io.Copy(s.Stderr, s.lmuxStderr) *)

(** A channel made by [make(chan T, cap)]; a nil channel is [None]. *)
Record chan (A : Type) : Type := mkChan {
  cap : nat;
  buf : list A
}.
Arguments mkChan {A} cap buf.
Arguments cap {A} c.
Arguments buf {A} c.

Definition make_chan {A : Type} (n : nat) : option (chan A) := Some (mkChan n []).

Record Session : Type := mkSession {
  Stdin  : stream;
  Stdout : stream;
  Stderr : stream;
  (* Local files of a mux session *)
  lmuxStdin  : option fd;
  lmuxStdout : option fd;
  lmuxStderr : option fd;
  (* Remote files of a mux session, passed to the ssh process *)
  rmuxStdin  : option fd;
  rmuxStdout : option fd;
  rmuxStderr : option fd;
  copyFuncs : list copyFunc;
  errors    : option (chan (option error));   (* one send per copyFunc *)
  sshctlpath : string;
  ctrlconn   : option conn;
  ctrlReqid  : Z;
  ctrlSessid : Z;
  term       : string;
  started    : bool;
  stdinpipe  : bool;
  stdoutpipe : bool;
  stderrpipe : bool;
  stdinPipeWriter : option bool;   (* the io.Pipe writer, with its closed flag *)
  exitStatus : option (chan (option error));
  aborted    : option (chan bool)
}.

Definition set_Stdin (v : stream) (s : Session) : Session :=
  mkSession v (Stdout s) (Stderr s) (lmuxStdin s) (lmuxStdout s)
    (lmuxStderr s) (rmuxStdin s) (rmuxStdout s) (rmuxStderr s) (copyFuncs s)
    (errors s) (sshctlpath s) (ctrlconn s) (ctrlReqid s) (ctrlSessid s)
    (term s) (started s) (stdinpipe s) (stdoutpipe s) (stderrpipe s)
    (stdinPipeWriter s) (exitStatus s) (aborted s).
Definition set_Stdout (v : stream) (s : Session) : Session :=
  mkSession (Stdin s) v (Stderr s) (lmuxStdin s) (lmuxStdout s)
    (lmuxStderr s) (rmuxStdin s) (rmuxStdout s) (rmuxStderr s) (copyFuncs s)
    (errors s) (sshctlpath s) (ctrlconn s) (ctrlReqid s) (ctrlSessid s)
    (term s) (started s) (stdinpipe s) (stdoutpipe s) (stderrpipe s)
    (stdinPipeWriter s) (exitStatus s) (aborted s).
Definition set_Stderr (v : stream) (s : Session) : Session :=
  mkSession (Stdin s) (Stdout s) v (lmuxStdin s) (lmuxStdout s)
    (lmuxStderr s) (rmuxStdin s) (rmuxStdout s) (rmuxStderr s) (copyFuncs s)
    (errors s) (sshctlpath s) (ctrlconn s) (ctrlReqid s) (ctrlSessid s)
    (term s) (started s) (stdinpipe s) (stdoutpipe s) (stderrpipe s)
    (stdinPipeWriter s) (exitStatus s) (aborted s).
Definition set_lmuxStdin (v : option fd) (s : Session) : Session :=
  mkSession (Stdin s) (Stdout s) (Stderr s) v (lmuxStdout s) (lmuxStderr s)
    (rmuxStdin s) (rmuxStdout s) (rmuxStderr s) (copyFuncs s) (errors s)
    (sshctlpath s) (ctrlconn s) (ctrlReqid s) (ctrlSessid s) (term s)
    (started s) (stdinpipe s) (stdoutpipe s) (stderrpipe s)
    (stdinPipeWriter s) (exitStatus s) (aborted s).
Definition set_lmuxStdout (v : option fd) (s : Session) : Session :=
  mkSession (Stdin s) (Stdout s) (Stderr s) (lmuxStdin s) v (lmuxStderr s)
    (rmuxStdin s) (rmuxStdout s) (rmuxStderr s) (copyFuncs s) (errors s)
    (sshctlpath s) (ctrlconn s) (ctrlReqid s) (ctrlSessid s) (term s)
    (started s) (stdinpipe s) (stdoutpipe s) (stderrpipe s)
    (stdinPipeWriter s) (exitStatus s) (aborted s).
Definition set_lmuxStderr (v : option fd) (s : Session) : Session :=
  mkSession (Stdin s) (Stdout s) (Stderr s) (lmuxStdin s) (lmuxStdout s) v
    (rmuxStdin s) (rmuxStdout s) (rmuxStderr s) (copyFuncs s) (errors s)
    (sshctlpath s) (ctrlconn s) (ctrlReqid s) (ctrlSessid s) (term s)
    (started s) (stdinpipe s) (stdoutpipe s) (stderrpipe s)
    (stdinPipeWriter s) (exitStatus s) (aborted s).
Definition set_rmuxStdin (v : option fd) (s : Session) : Session :=
  mkSession (Stdin s) (Stdout s) (Stderr s) (lmuxStdin s) (lmuxStdout s)
    (lmuxStderr s) v (rmuxStdout s) (rmuxStderr s) (copyFuncs s) (errors s)
    (sshctlpath s) (ctrlconn s) (ctrlReqid s) (ctrlSessid s) (term s)
    (started s) (stdinpipe s) (stdoutpipe s) (stderrpipe s)
    (stdinPipeWriter s) (exitStatus s) (aborted s).
Definition set_rmuxStdout (v : option fd) (s : Session) : Session :=
  mkSession (Stdin s) (Stdout s) (Stderr s) (lmuxStdin s) (lmuxStdout s)
    (lmuxStderr s) (rmuxStdin s) v (rmuxStderr s) (copyFuncs s) (errors s)
    (sshctlpath s) (ctrlconn s) (ctrlReqid s) (ctrlSessid s) (term s)
    (started s) (stdinpipe s) (stdoutpipe s) (stderrpipe s)
    (stdinPipeWriter s) (exitStatus s) (aborted s).
Definition set_rmuxStderr (v : option fd) (s : Session) : Session :=
  mkSession (Stdin s) (Stdout s) (Stderr s) (lmuxStdin s) (lmuxStdout s)
    (lmuxStderr s) (rmuxStdin s) (rmuxStdout s) v (copyFuncs s) (errors s)
    (sshctlpath s) (ctrlconn s) (ctrlReqid s) (ctrlSessid s) (term s)
    (started s) (stdinpipe s) (stdoutpipe s) (stderrpipe s)
    (stdinPipeWriter s) (exitStatus s) (aborted s).
Definition set_copyFuncs (v : list copyFunc) (s : Session) : Session :=
  mkSession (Stdin s) (Stdout s) (Stderr s) (lmuxStdin s) (lmuxStdout s)
    (lmuxStderr s) (rmuxStdin s) (rmuxStdout s) (rmuxStderr s) v (errors s)
    (sshctlpath s) (ctrlconn s) (ctrlReqid s) (ctrlSessid s) (term s)
    (started s) (stdinpipe s) (stdoutpipe s) (stderrpipe s)
    (stdinPipeWriter s) (exitStatus s) (aborted s).
Definition set_errors (v : option (chan (option error))) (s : Session) : Session :=
  mkSession (Stdin s) (Stdout s) (Stderr s) (lmuxStdin s) (lmuxStdout s)
    (lmuxStderr s) (rmuxStdin s) (rmuxStdout s) (rmuxStderr s) (copyFuncs s)
    v (sshctlpath s) (ctrlconn s) (ctrlReqid s) (ctrlSessid s) (term s)
    (started s) (stdinpipe s) (stdoutpipe s) (stderrpipe s)
    (stdinPipeWriter s) (exitStatus s) (aborted s).
Definition set_sshctlpath (v : string) (s : Session) : Session :=
  mkSession (Stdin s) (Stdout s) (Stderr s) (lmuxStdin s) (lmuxStdout s)
    (lmuxStderr s) (rmuxStdin s) (rmuxStdout s) (rmuxStderr s) (copyFuncs s)
    (errors s) v (ctrlconn s) (ctrlReqid s) (ctrlSessid s) (term s)
    (started s) (stdinpipe s) (stdoutpipe s) (stderrpipe s)
    (stdinPipeWriter s) (exitStatus s) (aborted s).
Definition set_ctrlconn (v : option conn) (s : Session) : Session :=
  mkSession (Stdin s) (Stdout s) (Stderr s) (lmuxStdin s) (lmuxStdout s)
    (lmuxStderr s) (rmuxStdin s) (rmuxStdout s) (rmuxStderr s) (copyFuncs s)
    (errors s) (sshctlpath s) v (ctrlReqid s) (ctrlSessid s) (term s)
    (started s) (stdinpipe s) (stdoutpipe s) (stderrpipe s)
    (stdinPipeWriter s) (exitStatus s) (aborted s).
Definition set_ctrlReqid (v : Z) (s : Session) : Session :=
  mkSession (Stdin s) (Stdout s) (Stderr s) (lmuxStdin s) (lmuxStdout s)
    (lmuxStderr s) (rmuxStdin s) (rmuxStdout s) (rmuxStderr s) (copyFuncs s)
    (errors s) (sshctlpath s) (ctrlconn s) v (ctrlSessid s) (term s)
    (started s) (stdinpipe s) (stdoutpipe s) (stderrpipe s)
    (stdinPipeWriter s) (exitStatus s) (aborted s).
Definition set_ctrlSessid (v : Z) (s : Session) : Session :=
  mkSession (Stdin s) (Stdout s) (Stderr s) (lmuxStdin s) (lmuxStdout s)
    (lmuxStderr s) (rmuxStdin s) (rmuxStdout s) (rmuxStderr s) (copyFuncs s)
    (errors s) (sshctlpath s) (ctrlconn s) (ctrlReqid s) v (term s)
    (started s) (stdinpipe s) (stdoutpipe s) (stderrpipe s)
    (stdinPipeWriter s) (exitStatus s) (aborted s).
Definition set_term (v : string) (s : Session) : Session :=
  mkSession (Stdin s) (Stdout s) (Stderr s) (lmuxStdin s) (lmuxStdout s)
    (lmuxStderr s) (rmuxStdin s) (rmuxStdout s) (rmuxStderr s) (copyFuncs s)
    (errors s) (sshctlpath s) (ctrlconn s) (ctrlReqid s) (ctrlSessid s) v
    (started s) (stdinpipe s) (stdoutpipe s) (stderrpipe s)
    (stdinPipeWriter s) (exitStatus s) (aborted s).
Definition set_started (v : bool) (s : Session) : Session :=
  mkSession (Stdin s) (Stdout s) (Stderr s) (lmuxStdin s) (lmuxStdout s)
    (lmuxStderr s) (rmuxStdin s) (rmuxStdout s) (rmuxStderr s) (copyFuncs s)
    (errors s) (sshctlpath s) (ctrlconn s) (ctrlReqid s) (ctrlSessid s)
    (term s) v (stdinpipe s) (stdoutpipe s) (stderrpipe s)
    (stdinPipeWriter s) (exitStatus s) (aborted s).
Definition set_stdinpipe (v : bool) (s : Session) : Session :=
  mkSession (Stdin s) (Stdout s) (Stderr s) (lmuxStdin s) (lmuxStdout s)
    (lmuxStderr s) (rmuxStdin s) (rmuxStdout s) (rmuxStderr s) (copyFuncs s)
    (errors s) (sshctlpath s) (ctrlconn s) (ctrlReqid s) (ctrlSessid s)
    (term s) (started s) v (stdoutpipe s) (stderrpipe s) (stdinPipeWriter s)
    (exitStatus s) (aborted s).
Definition set_stdoutpipe (v : bool) (s : Session) : Session :=
  mkSession (Stdin s) (Stdout s) (Stderr s) (lmuxStdin s) (lmuxStdout s)
    (lmuxStderr s) (rmuxStdin s) (rmuxStdout s) (rmuxStderr s) (copyFuncs s)
    (errors s) (sshctlpath s) (ctrlconn s) (ctrlReqid s) (ctrlSessid s)
    (term s) (started s) (stdinpipe s) v (stderrpipe s) (stdinPipeWriter s)
    (exitStatus s) (aborted s).
Definition set_stderrpipe (v : bool) (s : Session) : Session :=
  mkSession (Stdin s) (Stdout s) (Stderr s) (lmuxStdin s) (lmuxStdout s)
    (lmuxStderr s) (rmuxStdin s) (rmuxStdout s) (rmuxStderr s) (copyFuncs s)
    (errors s) (sshctlpath s) (ctrlconn s) (ctrlReqid s) (ctrlSessid s)
    (term s) (started s) (stdinpipe s) (stdoutpipe s) v (stdinPipeWriter s)
    (exitStatus s) (aborted s).
Definition set_stdinPipeWriter (v : option bool) (s : Session) : Session :=
  mkSession (Stdin s) (Stdout s) (Stderr s) (lmuxStdin s) (lmuxStdout s)
    (lmuxStderr s) (rmuxStdin s) (rmuxStdout s) (rmuxStderr s) (copyFuncs s)
    (errors s) (sshctlpath s) (ctrlconn s) (ctrlReqid s) (ctrlSessid s)
    (term s) (started s) (stdinpipe s) (stdoutpipe s) (stderrpipe s) v
    (exitStatus s) (aborted s).
Definition set_exitStatus (v : option (chan (option error))) (s : Session) : Session :=
  mkSession (Stdin s) (Stdout s) (Stderr s) (lmuxStdin s) (lmuxStdout s)
    (lmuxStderr s) (rmuxStdin s) (rmuxStdout s) (rmuxStderr s) (copyFuncs s)
    (errors s) (sshctlpath s) (ctrlconn s) (ctrlReqid s) (ctrlSessid s)
    (term s) (started s) (stdinpipe s) (stdoutpipe s) (stderrpipe s)
    (stdinPipeWriter s) v (aborted s).
Definition set_aborted (v : option (chan bool)) (s : Session) : Session :=
  mkSession (Stdin s) (Stdout s) (Stderr s) (lmuxStdin s) (lmuxStdout s)
    (lmuxStderr s) (rmuxStdin s) (rmuxStdout s) (rmuxStderr s) (copyFuncs s)
    (errors s) (sshctlpath s) (ctrlconn s) (ctrlReqid s) (ctrlSessid s)
    (term s) (started s) (stdinpipe s) (stdoutpipe s) (stderrpipe s)
    (stdinPipeWriter s) (exitStatus s) v.

(** [NewSession(path)]: [&Session{sshctlpath: path}], every other field at
    its zero value. *)
Definition NewSession (path : string) : Session :=
  mkSession NoStream NoStream NoStream None None None None None None
    [] None path None 0 0 EmptyString false false false false
    None None None.

(** Goroutines launched by [go] statements. *)
Inductive goroutine : Type :=
| GoWait                    (* s.exitStatus <- s.wait() *)
| GoFeedStdin               (* io.Copy(w, s.Stdin); w.CloseWithError(err) *)
| GoCopy (fn : copyFunc).   (* s.errors <- fn() *)

(** The operating-system side: what dialing the control path yields, the
    descriptor table, the terminal layer, and the goroutines started. *)
Record OS : Type := mkOS {
  master       : option conn;   (* the connection DialUnix returns; None: the dial fails *)
  pipe_errs    : list bool;     (* outcome of the next os.Pipe calls, true = error; [] = success *)
  next_fd      : fd;            (* the next unused descriptor *)
  closed_files : list fd;       (* descriptors closed so far, latest first *)
  tty_state    : option Z;      (* terminal.GetState: the state, or an error *)
  tty_makeraw  : option Z;      (* terminal.MakeRaw: the previous state, or an error *)
  goroutines   : list goroutine (* in launch order *)
}.

Definition set_master (v : option conn) (o : OS) : OS :=
  mkOS v (pipe_errs o) (next_fd o) (closed_files o) (tty_state o)
    (tty_makeraw o) (goroutines o).
Definition set_pipe_errs (v : list bool) (o : OS) : OS :=
  mkOS (master o) v (next_fd o) (closed_files o) (tty_state o)
    (tty_makeraw o) (goroutines o).
Definition set_next_fd (v : fd) (o : OS) : OS :=
  mkOS (master o) (pipe_errs o) v (closed_files o) (tty_state o)
    (tty_makeraw o) (goroutines o).
Definition set_closed_files (v : list fd) (o : OS) : OS :=
  mkOS (master o) (pipe_errs o) (next_fd o) v (tty_state o) (tty_makeraw o)
    (goroutines o).
Definition set_tty_state (v : option Z) (o : OS) : OS :=
  mkOS (master o) (pipe_errs o) (next_fd o) (closed_files o) v
    (tty_makeraw o) (goroutines o).
Definition set_tty_makeraw (v : option Z) (o : OS) : OS :=
  mkOS (master o) (pipe_errs o) (next_fd o) (closed_files o) (tty_state o) v
    (goroutines o).
Definition set_goroutines (v : list goroutine) (o : OS) : OS :=
  mkOS (master o) (pipe_errs o) (next_fd o) (closed_files o) (tty_state o)
    (tty_makeraw o) v.

(* ===================================================================== *)
(** * Calls: return, error, or no return *)
(* ===================================================================== *)

Inductive res (S A : Type) : Type :=
| Ret (a : A) (s : S)        (* the call returns a, with a nil error *)
| Err (e : error) (s : S)    (* the call returns the error e *)
| Block (s : S).             (* the call never returns *)
Arguments Ret {S A} a s.
Arguments Err {S A} e s.
Arguments Block {S A} s.

Definition M (S A : Type) : Type := S -> res S A.

Definition ret {S A : Type} (a : A) : M S A := fun s => Ret a s.
Definition fail {S A : Type} (e : error) : M S A := fun s => Err e s.
Definition bind {S A B : Type} (m : M S A) (k : A -> M S B) : M S B :=
  fun s => match m s with
           | Ret a s' => k a s'
           | Err e s' => Err e s'
           | Block s' => Block s'
           end.
Definition get {S : Type} : M S S := fun s => Ret s s.
Definition modify {S : Type} (f : S -> S) : M S unit := fun s => Ret tt (f s).

Declare Scope go_scope.
Delimit Scope go_scope with go.
Notation "x <- m ;; k" := (bind m (fun x => k))
  (at level 61, m at next level, right associativity) : go_scope.
Notation "m ;; k" := (bind m (fun _ => k))
  (at level 61, right associativity) : go_scope.
Local Open Scope go_scope.

(** The state left behind by a call, whatever its outcome. *)
Definition final {S A : Type} (r : res S A) : S :=
  match r with Ret _ s => s | Err _ s => s | Block s => s end.

(** A method of [*Session] run on the session of a process. *)
Definition onSession {A : Type} (m : M Session A) : M (Session * OS) A :=
  fun w => match m (fst w) with
           | Ret a s' => Ret a (s', snd w)
           | Err e s' => Err e (s', snd w)
           | Block s' => Block (s', snd w)
           end.
Definition onOS (f : OS -> OS) : M (Session * OS) unit :=
  fun w => Ret tt (fst w, f (snd w)).

(* ===================================================================== *)
(** * Packet transport (mux.go) *)
(* ===================================================================== *)

(** [io.ReadAtLeast(s.ctrlconn, buf, n)] followed by the wrapping of its
    error into "Unable to read from control socket".  On a nil
    [*net.UnixConn] the call of [Read] dereferences the nil pointer and
    panics (with [n = 0] nothing is read and [Read] is not called). *)
Definition ctrlRead (n : Z) : M Session (list byte) :=
  fun s =>
    match ctrlconn s with
    | None => if n <=? 0 then Ret [] s else Err PanicNilDeref s
    | Some c =>
        match Conn.ReadAtLeast n c with
        | IoOk b c' => Ret b (set_ctrlconn (Some c') s)
        | IoErr c' => Err ErrReadCtrl (set_ctrlconn (Some c') s)
        | IoBlock c' => Block (set_ctrlconn (Some c') s)
        end
    end.

(** [s.ctrlconn.Write(msg)]; on a nil [*net.UnixConn] the call panics. *)
Definition ctrlWrite (m : list byte) : M Session unit :=
  fun s =>
    match ctrlconn s with
    | None => Err PanicNilDeref s
    | Some c =>
        match Conn.Write m c with
        | IoOk _ c' => Ret tt (set_ctrlconn (Some c') s)
        | IoErr c' => Err ErrWriteCtrl (set_ctrlconn (Some c') s)
        | IoBlock c' => Block (set_ctrlconn (Some c') s)
        end
    end.

(** [s.ctrlconn.Close()], its error ignored.  Both callers have a
    connection at hand: [Close] tests it for nil, and [wait] gets there
    only after it has read an exit message from it. *)
Definition ctrlClose (s : Session) : Session :=
  match ctrlconn s with
  | None => s
  | Some c => set_ctrlconn (Some (Conn.Close c)) s
  end.

Definition readPacket : M Session (list byte) :=
  lenbuf <- ctrlRead 4 ;;
  let len := BigEndian.Uint32 lenbuf in
  packet <- ctrlRead (int_of_uint32 len) ;;
  ret packet.

Definition writePacket (req : list byte) : M Session unit :=
  let msg := BigEndian.PutUint32 (uint32 (len req)) ++ req in
  ctrlWrite msg.

Definition recvInts (count : Z) : M Session (list Z) :=
  packet <- readPacket ;;
  match popInts (Z.to_nat count) packet [] with
  | inr err => fail err
  | inl msgs => ret msgs
  end.

(** [msgs[i]]; [recvInts(n)] returns exactly [n] values, so the uses
    below stay in range. *)
Definition elem (msgs : list Z) (i : nat) : Z := nth i msgs 0.

(* ===================================================================== *)
(** * Handshake (mux.go) *)
(* ===================================================================== *)

Definition sshMuxHello : M Session unit :=
  msgs <- recvInts 2 ;;
  if negb (elem msgs 0 =? muxMsgHello) || negb (elem msgs 1 =? muxVersion)
  then fail ErrIncompatibleHello
  else
    let m := mkMuxMsg muxMsgHello muxVersion in
    let buf := Marshal.muxMsg m in
    writePacket buf.

Definition sshMuxAliveCheck : M Session unit :=
  s <- get ;;
  let m := mkMuxMsg muxAliveCheck (uint32 (ctrlReqid s)) in
  let buf := Marshal.muxMsg m in
  writePacket buf ;;
  msgs <- recvInts 3 ;;
  s <- get ;;
  if negb (elem msgs 0 =? muxIsAlive)
  then fail (ErrExpectedAlive (elem msgs 0))
  else if negb (elem msgs 1 =? ctrlReqid s)
  then fail (ErrOutOfSequence (elem msgs 0))
  else modify (fun s => set_ctrlReqid (ctrlReqid s + 1) s).

(** The message [sshMuxNewSession] builds from the session and [cmd]. *)
Definition newSessionMsg (s : Session) (cmd : string) : muxNewSessionMsg :=
  let tty := negb (String.eqb (term s) EmptyString) in
  mkNewSessionMsg
    (uint32 muxNewSession)
    (uint32 (ctrlReqid s))
    EmptyString
    (if tty then uint32 1 else uint32 0)
    0
    0
    0
    (uint32 0xffffffff)
    (if tty then term s else EmptyString)
    cmd.

Definition sshMuxNewSession (cmd : string) : M Session unit :=
  s <- get ;;
  let nms := newSessionMsg s cmd in
  let buf := Marshal.muxNewSessionMsg nms in
  writePacket buf.

(** [os.Pipe()]: two fresh descriptors (read end, write end), or an error
    with both results nil. *)
Definition os_Pipe (o : OS) : option (fd * fd) * OS :=
  match pipe_errs o with
  | true :: rest => (None, set_pipe_errs rest o)
  | false :: rest =>
      (Some (next_fd o, S (next_fd o)),
       set_next_fd (S (S (next_fd o))) (set_pipe_errs rest o))
  | [] =>
      (Some (next_fd o, S (next_fd o)), set_next_fd (S (S (next_fd o))) o)
  end.

(** [f.Close()] on an [*os.File], its error ignored *)
Definition os_Close (f : fd) (o : OS) : OS :=
  set_closed_files (f :: closed_files o) o.

(** [fd.Put(s.ctrlconn, f)], its error ignored.  (On a nil connection the
    call panics; the state is the one in which the read that follows
    panics, which is where that panic is reported.) *)
Definition fdPut (f : option fd) (s : Session) : Session :=
  match ctrlconn s with
  | None => s
  | Some c => set_ctrlconn (Some (Conn.Put f c)) s
  end.

(** The three descriptor choices of [sshMuxPassFileDescriptors]. *)
Definition pickStdin : M (Session * OS) unit :=
  fun w =>
    let (s, o) := w in
    match Stdin s with
    | OsFile sf => Ret tt (set_stdinpipe true (set_rmuxStdin (Some sf) s), o)
    | _ =>
        match lmuxStdin s with
        | Some _ => Ret tt w
        | None =>
            match os_Pipe o with
            | (Some (r, wr), o') =>
                Ret tt (set_lmuxStdin (Some wr) (set_rmuxStdin (Some r) s), o')
            | (None, o') =>
                Err ErrPipe (set_lmuxStdin None (set_rmuxStdin None s), o')
            end
        end
    end.

Definition pickStdout : M (Session * OS) unit :=
  fun w =>
    let (s, o) := w in
    match Stdout s with
    | OsFile sf => Ret tt (set_stdoutpipe true (set_rmuxStdout (Some sf) s), o)
    | _ =>
        match lmuxStdout s with
        | Some _ => Ret tt w
        | None =>
            match os_Pipe o with
            | (Some (r, wr), o') =>
                Ret tt (set_rmuxStdout (Some wr) (set_lmuxStdout (Some r) s), o')
            | (None, o') =>
                Err ErrPipe (set_rmuxStdout None (set_lmuxStdout None s), o')
            end
        end
    end.

Definition pickStderr : M (Session * OS) unit :=
  fun w =>
    let (s, o) := w in
    match Stderr s with
    | OsFile sf => Ret tt (set_stderrpipe true (set_rmuxStderr (Some sf) s), o)
    | _ =>
        match lmuxStderr s with
        | Some _ => Ret tt w
        | None =>
            match os_Pipe o with
            | (Some (r, wr), o') =>
                Ret tt (set_rmuxStderr (Some wr) (set_lmuxStderr (Some r) s), o')
            | (None, o') =>
                Err ErrPipe (set_rmuxStderr None (set_lmuxStderr None s), o')
            end
        end
    end.

Definition sshMuxPassFileDescriptors : M (Session * OS) unit :=
  pickStdin ;;
  pickStdout ;;
  pickStderr ;;
  onSession (modify (fun s => fdPut (rmuxStdin s) s)) ;;
  onSession (modify (fun s => fdPut (rmuxStdout s) s)) ;;
  onSession (modify (fun s => fdPut (rmuxStderr s) s)) ;;
  msgs <- onSession (recvInts 3) ;;
  s <- onSession get ;;
  if negb (elem msgs 0 =? muxSessionOpened)
  then fail (ErrExpectedSessionOpened (elem msgs 0))
  else if negb (elem msgs 1 =? ctrlReqid s)
  then fail (ErrOutOfSequence (elem msgs 0))
  else
    onSession (modify (set_ctrlSessid (elem msgs 2))) ;;
    onSession (modify (fun s => set_ctrlReqid (ctrlReqid s + 1) s)).

(** [makeRawTerm]: [GetState] then [MakeRaw] on the descriptor of
    [rmuxStdin].  Only the error of [MakeRaw] is tested; the two states
    are then compared as [*st != *raw], which dereferences the nil state
    of a failed [GetState]. *)
Definition makeRawTerm : M (Session * OS) unit :=
  fun w =>
    let o := snd w in
    match tty_makeraw o with
    | None => Err ErrMakeRaw w
    | Some raw =>
        match tty_state o with
        | None => Err PanicNilDeref w
        | Some st => if negb (st =? raw) then Err ErrMakeRawState w else Ret tt w
        end
    end.

(** [if f != nil { g.Close() }] for the three remote ends *)
Definition closeRemote (l r : Session -> option fd) : M (Session * OS) unit :=
  fun w =>
    let (s, o) := w in
    match l s with
    | None => Ret tt w
    | Some _ =>
        match r s with
        | Some f => Ret tt (s, os_Close f o)
        | None => Ret tt w
        end
    end.

Definition requestMuxSession (cmd : string) : M (Session * OS) unit :=
  onSession (modify (set_ctrlReqid 0)) ;;
  onSession sshMuxHello ;;
  onSession sshMuxAliveCheck ;;
  onSession (sshMuxNewSession cmd) ;;
  sshMuxPassFileDescriptors ;;
  s <- onSession get ;;
  (if negb (String.eqb (term s) EmptyString) then makeRawTerm else ret tt) ;;
  closeRemote lmuxStdin rmuxStdin ;;
  closeRemote lmuxStdout rmuxStdout ;;
  closeRemote lmuxStderr rmuxStderr.

(* ===================================================================== *)
(** * The exit-status reader (mux.go, wait) *)
(* ===================================================================== *)

(** [%d] of [fmt.Sprintf] *)
Definition itoa (z : Z) : string := NilZero.string_of_int (Z.to_int z).

(** [fmt.Sprintf("unknown session id: myid %d theirs %d", myid, theirs)] *)
Definition unknownSessionId (myid theirs : Z) : string :=
  ("unknown session id: myid " ++ itoa myid ++ " theirs " ++ itoa theirs)%string.

(** The [switch mtype] of the reader loop, on the rest [buf] of the packet.
    A [break] inside a [switch] leaves the [switch] only, so every branch
    ends with the loop going on; the branch yields the new [wm] and
    [exit_seen].  ([sid] and [err] are overwritten before their next use
    and are not read after the loop.) *)
Definition dispatch (ctrlSessid : Z) (mtype : Z) (buf : list byte)
    (wm : Waitmsg) (exit_seen : bool) : Waitmsg * bool :=
  if mtype =? muxTtyAllocFail then
    match packetPopInt buf with
    | (_, Some _, _) => (wm, exit_seen)
    | (sid, None, _) =>
        if negb (sid =? ctrlSessid)
        then (set_msg (unknownSessionId ctrlSessid sid) wm, exit_seen)
        else (wm, exit_seen)
    end
  else if mtype =? muxExitMessage then
    match packetPopInt buf with
    | (_, Some _, _) => (wm, exit_seen)
    | (sid, None, buf1) =>
        if negb (sid =? ctrlSessid)
        then (set_msg (unknownSessionId ctrlSessid sid) wm, exit_seen)
        else if exit_seen
        then (set_msg "exit seen twice" wm, exit_seen)
        else
          match packetPopInt buf1 with
          | (v, Some _, _) => (set_status v wm, exit_seen)
          | (v, None, _) => (set_status v wm, true)
          end
    end
  else (wm, exit_seen).

(** Bytes the master has sent and the client has not read yet. *)
Definition unread (s : Session) : nat :=
  match ctrlconn s with
  | None => O
  | Some c => List.length (incoming c)
  end.

(** The [for] loop of [wait]: it ends when [readPacket] returns an error
    or when the packet has no leading type code; its result is [wm] and
    [exit_seen] as the loop leaves them.  A panic in [readPacket] is not
    caught by the loop. *)
Equations? wait_loop (s : Session) (wm : Waitmsg) (exit_seen : bool)
  : res Session (Waitmsg * bool) by wf (unread s) lt :=
  wait_loop s wm exit_seen with inspect (readPacket s) := {
    | exist _ (Block s1) _ => Block s1
    | exist _ (Err e s1) _ =>
        if is_panic e then Err e s1 else Ret (wm, exit_seen) s1
    | exist _ (Ret buf s1) Hread with packetPopInt buf := {
        | (_, Some _, _) => Ret (wm, exit_seen) s1
        | (mtype, None, buf1) =>
            wait_loop s1
              (fst (dispatch (ctrlSessid s1) mtype buf1 wm exit_seen))
              (snd (dispatch (ctrlSessid s1) mtype buf1 wm exit_seen)) } }.
Proof.
  clear wait_loop.
  assert (Hrd : forall n c b c', Conn.ReadAtLeast n c = IoOk b c' ->
            n <= len (incoming c) /\
            List.length (incoming c') =
              (List.length (incoming c) - Z.to_nat n)%nat).
  { intros n c b c'. unfold Conn.ReadAtLeast.
    destruct (Z.leb_spec n 0) as [H0|H0].
    { intros H; injection H as _ <-. unfold len. split; lia. }
    destruct (closed c); [discriminate|].
    destruct (n <=? len (incoming c)) eqn:Hn;
      [|destruct (peer c); discriminate].
    intros H; injection H as _ <-. apply Z.leb_le in Hn.
    split; [exact Hn | apply length_skipn]. }
  unfold readPacket, bind, ctrlRead, ret in Hread.
  unfold unread.
  destruct (ctrlconn s) as [c|]; [|discriminate].
  destruct (Conn.ReadAtLeast 4 c) as [lenbuf c1| |] eqn:H1; try discriminate.
  cbn [ctrlconn set_ctrlconn] in Hread.
  destruct (Conn.ReadAtLeast _ c1) as [p c2| |] eqn:H2; try discriminate.
  injection Hread as _ <-.
  cbn [ctrlconn set_ctrlconn].
  apply Hrd in H1. apply Hrd in H2. unfold len in *. lia.
Qed.

Definition wait : M Session unit :=
  let wm := mkWaitmsg (-1) EmptyString EmptyString EmptyString in
  r <- (fun s => wait_loop s wm false) ;;
  let wm := fst r in
  if status wm =? 0 then ret tt
  else if status wm =? -1 then fail ExitMissingError
  else
    modify ctrlClose ;;
    fail (ExitError wm).

(* ===================================================================== *)
(** * Channels and goroutines *)
(* ===================================================================== *)

(** [ch <- v].  A send on a nil channel blocks for ever; a send on a
    channel whose buffer is full blocks until a receive makes room (no
    result here); otherwise the value is buffered and the send returns. *)
Definition chan_send {A : Type} (v : A) (ch : option (chan A))
  : option (option (chan A)) :=
  match ch with
  | None => None
  | Some c =>
      if (List.length (buf c) <? cap c)%nat
      then Some (Some (mkChan (cap c) (buf c ++ [v])))
      else None
  end.

(** [<-ch] when a value is buffered; a nil or empty channel is not ready. *)
Definition chan_recv {A : Type} (ch : option (chan A))
  : option (A * option (chan A)) :=
  match ch with
  | None => None
  | Some c =>
      match buf c with
      | [] => None
      | v :: rest => Some (v, Some (mkChan (cap c) rest))
      end
  end.

(** [go f()] *)
Definition go (g : goroutine) : M (Session * OS) unit :=
  onOS (fun o => set_goroutines (goroutines o ++ [g]) o).

(** The value of type [error] a call returns, nil being [None]. *)
Definition errorOf {S A : Type} (r : res S A) : option (option error) :=
  match r with
  | Ret _ _ => Some None
  | Err e _ => Some (Some e)
  | Block _ => None
  end.

(** A panic among the outcomes of a call. *)
Definition panicked (outcome : option error) : bool :=
  match outcome with
  | Some e => is_panic e
  | None => false
  end.

(** The goroutine [func() { s.exitStatus <- s.wait() }()]; when [wait]
    panics nothing is sent. *)
Definition readerTask : M Session unit :=
  fun s =>
    match errorOf (wait s) with
    | None => Block (final (wait s))
    | Some outcome =>
        let s1 := final (wait s) in
        if panicked outcome then Err PanicNilDeref s1
        else
          match chan_send outcome (exitStatus s1) with
          | Some ch => Ret tt (set_exitStatus ch s1)
          | None => Block s1
          end
    end.

(* ===================================================================== *)
(** * The Session API *)
(* ===================================================================== *)

Definition openCtrlConn : M (Session * OS) unit :=
  fun w =>
    let (s, o) := w in
    match master o with
    | None => Err ErrDial (set_ctrlconn None s, o)
    | Some c => Ret tt (set_ctrlconn (Some c) s, o)
    end.

Definition stdin : M (Session * OS) unit :=
  s <- onSession get ;;
  if stdinpipe s then ret tt
  else
    match Stdin s with
    | NoStream =>
        onSession (modify (fun s => set_copyFuncs (copyFuncs s ++ [CopyStdin EmptyBuffer]) s))
    | _ =>
        go GoFeedStdin ;;
        onSession (modify (set_stdinPipeWriter (Some false))) ;;
        onSession (modify (fun s => set_copyFuncs (copyFuncs s ++ [CopyStdin PipeReader]) s))
    end.

Definition stdout : M (Session * OS) unit :=
  s <- onSession get ;;
  if stdoutpipe s then ret tt
  else
    (match Stdout s with
     | NoStream => onSession (modify (set_Stdout Discard))
     | _ => ret tt
     end) ;;
    onSession (modify (fun s => set_copyFuncs (copyFuncs s ++ [CopyStdout]) s)).

Definition stderr : M (Session * OS) unit :=
  s <- onSession get ;;
  if stderrpipe s then ret tt
  else
    (match Stderr s with
     | NoStream => onSession (modify (set_Stderr Discard))
     | _ => ret tt
     end) ;;
    onSession (modify (fun s => set_copyFuncs (copyFuncs s ++ [CopyStderr]) s)).

Fixpoint goAll (fns : list copyFunc) : M (Session * OS) unit :=
  match fns with
  | [] => ret tt
  | fn :: rest => go (GoCopy fn) ;; goAll rest
  end.

Definition start : M (Session * OS) unit :=
  onSession (modify (set_started true)) ;;
  stdin ;;
  stdout ;;
  stderr ;;
  onSession (modify (fun s => set_errors (make_chan (List.length (copyFuncs s))) s)) ;;
  s <- onSession get ;;
  goAll (copyFuncs s).

Definition Start (cmd : string) : M (Session * OS) unit :=
  s <- onSession get ;;
  if started s then fail ErrAlreadyStarted
  else
    openCtrlConn ;;
    requestMuxSession cmd ;;
    onSession (modify (set_exitStatus (make_chan 1))) ;;
    onSession (modify (set_aborted (make_chan 1))) ;;
    go GoWait ;;
    start.

Definition sendAborted (v : bool) : M Session unit :=
  fun s =>
    match chan_send v (aborted s) with
    | Some ch => Ret tt (set_aborted ch s)
    | None => Block s
    end.

(** [Close]: the control connection and the local ends of the two output
    relays are closed where they exist, then [true] is sent on [aborted].
    The connection is closed as [Conn.Close] describes, with no read of
    the reader goroutine in flight. *)
Definition Close : M (Session * OS) unit :=
  s <- onSession get ;;
  (match ctrlconn s with
   | Some _ => onSession (modify ctrlClose)
   | None => ret tt
   end) ;;
  (match lmuxStderr s with
   | Some f => onOS (os_Close f)
   | None => ret tt
   end) ;;
  (match lmuxStdout s with
   | Some f => onOS (os_Close f)
   | None => ret tt
   end) ;;
  onSession (sendAborted true) ;;
  ret tt.

Definition RequestPty (term : string) : M Session unit :=
  modify (set_term term) ;;
  ret tt.

Definition Shell : M (Session * OS) unit :=
  s <- onSession get ;;
  if started s then fail ErrAlreadyStarted
  else
    openCtrlConn ;;
    requestMuxSession EmptyString ;;
    onSession (modify (set_exitStatus (make_chan 1))) ;;
    go GoWait ;;
    start.

(** The [select] of [Wait] over [s.exitStatus] and [s.aborted], taken once
    the goroutines have delivered what they will deliver: the ready case
    runs; when both are ready Go picks either ([pickAborted]); when none
    is ready the select does not return. *)
Definition selectExit (pickAborted : bool) : M Session (option error) :=
  fun s =>
    match chan_recv (exitStatus s), chan_recv (aborted s) with
    | Some (waitErr, ch), None => Ret waitErr (set_exitStatus ch s)
    | None, Some (_, ch) => Ret (Some ErrSessionAborted) (set_aborted ch s)
    | Some (waitErr, ch), Some (_, ch') =>
        if pickAborted
        then Ret (Some ErrSessionAborted) (set_aborted ch' s)
        else Ret waitErr (set_exitStatus ch s)
    | None, None => Block s
    end.

(** [for _ = range s.copyFuncs { if err := <-s.errors; err != nil &&
    copyError == nil { copyError = err } }] *)
Fixpoint drainErrors (fns : list copyFunc) (copyError : option error)
  : M Session (option error) :=
  match fns with
  | [] => ret copyError
  | _ :: rest =>
      fun s =>
        match chan_recv (errors s) with
        | None => Block s
        | Some (err, ch) =>
            drainErrors rest
              (match err, copyError with
               | Some _, None => err
               | _, _ => copyError
               end)
              (set_errors ch s)
        end
  end.

Definition Wait (pickAborted : bool) : M Session unit :=
  s <- get ;;
  if negb (started s) then fail ErrNotStarted
  else
    waitErr <- selectExit pickAborted ;;
    s <- get ;;
    (match stdinPipeWriter s with
     | Some _ => modify (set_stdinPipeWriter (Some true))
     | None => ret tt
     end) ;;
    s <- get ;;
    copyError <- drainErrors (copyFuncs s) None ;;
    match waitErr with
    | Some e => fail e
    | None =>
        match copyError with
        | Some e => fail e
        | None => ret tt
        end
    end.

(* ===================================================================== *)
(** * Notions used to state the properties *)
(* ===================================================================== *)

(** The number a byte sequence denotes, most significant byte first. *)
Definition bigEndianValue (bs : list byte) : Z :=
  fold_left (fun acc b => acc * 256 + byte.unsigned b) bs 0.

(** The first [n] 4-byte fields of a payload, as big-endian numbers. *)
Fixpoint fields (n : nat) (p : list byte) : list Z :=
  match n with
  | O => []
  | S n' => bigEndianValue (firstn 4 p) :: fields n' (skipn 4 p)
  end.

(** Length-prefixed framing round-trips on the payload [p]: on a usable
    connection [writePacket p] makes one write, a 4-byte prefix whose
    big-endian value is the length of [p] followed by [p], and [readPacket]
    on a connection delivering exactly these bytes returns [p]. *)
Definition framed_round_trip (p : list byte) : Prop :=
  forall s c,
    ctrlconn s = Some c -> closed c = false -> hd false (write_errs c) = false ->
    exists prefix c',
      writePacket p s = Ret tt (set_ctrlconn (Some c') s) /\
      written c' = written c ++ [prefix ++ p] /\
      List.length prefix = 4%nat /\
      bigEndianValue prefix = len p /\
      forall r cr,
        ctrlconn r = Some cr -> closed cr = false ->
        incoming cr = prefix ++ p ->
        readPacket r = Ret p (set_ctrlconn (Some (set_incoming [] cr)) r).

(** A payload of [2^32] zero bytes. *)
Definition payload4GiB : list byte := repeat Byte.x00 (Z.to_nat 4294967296).

(** What the master puts on the wire: a packet with payload [p], and a
    payload made of [uint32] fields. *)
Definition frame (p : list byte) : list byte :=
  BigEndian.PutUint32 (uint32 (len p)) ++ p.

Definition uint32s (l : list Z) : list byte := flat_map BigEndian.PutUint32 l.

(** A fresh connection on which the master sends [bytes] and then closes
    ([Eof]) or stays silent. *)
Definition masterSends (bytes : list byte) (t : tail) : conn :=
  mkConn bytes t [] [] [] false.

(** A session attached to the connection [c], with remote session id
    [sid]. *)
Definition attached (c : conn) (sid : Z) : Session :=
  set_ctrlSessid sid (set_ctrlconn (Some c) (NewSession EmptyString)).

(** The [Waitmsg] the reader starts from. *)
Definition wm0 : Waitmsg := mkWaitmsg (-1) EmptyString EmptyString EmptyString.

(** Applying a change of state to the state a call leaves behind. *)
Definition map_final {S A : Type} (f : S -> S) (r : res S A) : res S A :=
  match r with
  | Ret a s => Ret a (f s)
  | Err e s => Err e (f s)
  | Block s => Block (f s)
  end.

(** The three dispatch rules as the specification words them, for the
    packet [buf] that [readPacket] has just returned (leaving the session
    in [s1]): an exit message with the session's id and no exit seen so far
    records the status and ends the loop there; a packet with any other
    type code ends the loop there; a tty-allocation failure with the
    session's id lets the loop go on. *)
Definition exit_message_stops_loop : Prop :=
  forall s buf s1 v rest wm,
    readPacket s = Ret buf s1 ->
    0 <= ctrlSessid s < 2 ^ 32 -> 0 <= v < 2 ^ 32 ->
    buf = uint32s [muxExitMessage; ctrlSessid s; v] ++ rest ->
    wait_loop s wm false = Ret (set_status v wm, true) s1.

Definition unknown_type_stops_loop : Prop :=
  forall s buf s1 mtype rest wm seen,
    readPacket s = Ret buf s1 ->
    0 <= mtype < 2 ^ 32 ->
    mtype <> muxTtyAllocFail -> mtype <> muxExitMessage ->
    buf = uint32s [mtype] ++ rest ->
    wait_loop s wm seen = Ret (wm, seen) s1.

Definition tty_alloc_fail_continues : Prop :=
  forall s buf s1 rest wm seen,
    readPacket s = Ret buf s1 ->
    0 <= ctrlSessid s < 2 ^ 32 ->
    buf = uint32s [muxTtyAllocFail; ctrlSessid s] ++ rest ->
    wait_loop s wm seen = wait_loop s1 wm seen.

Definition dispatch_as_specified : Prop :=
  exit_message_stops_loop /\ unknown_type_stops_loop /\ tty_alloc_fail_continues.

(** A method that only touches the connection. *)
Definition conn_only {A : Type} (m : M Session A) : Prop :=
  forall s, exists oc, final (m s) = set_ctrlconn oc s.

(** The status is -1 exactly as long as no exit message was recorded. *)
Definition status_tracks_exit (wm : Waitmsg) (seen : bool) : Prop :=
  (seen = false /\ status wm = -1) \/ (seen = true /\ 0 <= status wm < 2 ^ 32).

(** [wait] never assigns the signal and the language tag. *)
Definition no_signal_no_lang (wm : Waitmsg) (seen : bool) : Prop :=
  signal wm = EmptyString /\ lang wm = EmptyString.

(** The copy tasks deliver nil or errors of [io.Copy] on [s.errors]. *)
Definition copy_errors_only (s : Session) : Prop :=
  forall ch e, errors s = Some ch -> In (Some e) (buf ch) -> exists n, e = ErrCopy n.

(** The packets written on the session's connection so far. *)
Definition writes_of (s : Session) : list (list byte) :=
  match ctrlconn s with
  | Some c => written c
  | None => []
  end.

(** The session is about to read [bytes] from an open connection. *)
Definition reading (s : Session) (bytes : list byte) : Prop :=
  exists c, ctrlconn s = Some c /\ closed c = false /\ incoming c = bytes.

(** A call seen through its three outcomes. *)
Definition wp {S A : Type} (m : M S A) (s : S)
    (Qret : A -> S -> Prop) (Qerr : error -> S -> Prop) (Qblock : S -> Prop)
  : Prop :=
  match m s with
  | Ret a s' => Qret a s'
  | Err e s' => Qerr e s'
  | Block s' => Qblock s'
  end.

(** The three packets a client writes during one handshake, in order:
    the hello reply, the alive check with request id 0, and the session
    request with request id 1. *)
Definition handshake_requests (term cmd : string) : list (list byte) :=
  [ frame (uint32s [muxMsgHello; muxVersion]);
    frame (uint32s [muxAliveCheck; 0]);
    frame (Marshal.muxNewSessionMsg
             (mkNewSessionMsg muxNewSession 1 EmptyString
                (if String.eqb term EmptyString then 0 else 1)
                0 0 0 0xffffffff term cmd)) ].

(** What a step keeps: the packets written grow by [l], and the terminal
    type stays. *)
Definition grows (l : list (list byte)) (s s' : Session) : Prop :=
  writes_of s' = writes_of s ++ l /\ term s' = term s.

(** Written packets during a call whose requests are [l]: all of [l] when
    it returns, a prefix of [l] otherwise. *)
Definition sends {S A : Type} (proj : S -> Session) (m : M S A) (s : S)
    (l : list (list byte)) (Q : S -> Prop) : Prop :=
  wp m s
     (fun _ s' => grows l (proj s) (proj s') /\ Q s')
     (fun _ s' => exists k, grows (firstn k l) (proj s) (proj s'))
     (fun s' => exists k, grows (firstn k l) (proj s) (proj s')).

(** A step of the process that writes nothing and keeps the terminal
    type and the request id. *)
Definition quiet {A : Type} (m : M (Session * OS) A) : Prop :=
  forall w,
    grows [] (fst w) (fst (final (m w))) /\
    ctrlReqid (fst (final (m w))) = ctrlReqid (fst w).

(** A payload that fits a frame and starts with the [uint32] fields [vs]. *)
Definition carries (p : list byte) (vs : list Z) : Prop :=
  len p < 2 ^ 32 /\ Forall (fun v => 0 <= v < 2 ^ 32) vs /\
  exists extra, p = uint32s vs ++ extra.

(** The session [s'] is [s] with another connection state. *)
Definition same_but_conn (s s' : Session) : Prop :=
  exists oc, s' = set_ctrlconn oc s.

(** Steps of the process that leave what the session reads and its request
    id alone, and can only fail on [os.Pipe]. *)
Definition keeps_reading (m : M (Session * OS) unit) : Prop :=
  forall w bytes,
    reading (fst w) bytes ->
    wp m w
       (fun _ w' => reading (fst w') bytes /\
                    ctrlReqid (fst w') = ctrlReqid (fst w))
       (fun e _ => e = ErrPipe) (fun _ => False).

(** What a well-behaved master sends during one handshake: its hello, the
    alive reply to request 0, and the session-opened reply to request 1
    announcing the session id [sid]. *)
Definition master_script (sid : Z) : list byte :=
  frame (uint32s [muxMsgHello; muxVersion]) ++
  frame (uint32s [muxIsAlive; 0; 4242]) ++
  frame (uint32s [muxSessionOpened; 1; sid]).

(** A process with descriptors 0 to 2 in use, no terminal, no goroutine
    started yet, in which dialing the control path yields [c]. *)
Definition process0 (c : conn) : OS := mkOS (Some c) [] 3%nat [] None None [].

(** The session and the process after the closing part of [Close]: the
    control connection and the local ends of the two output relays are
    closed when they exist. *)
Definition torn_down (w : Session * OS) : Session * OS :=
  let s := fst w in
  let o := snd w in
  let o1 := match lmuxStderr s with Some f => os_Close f o | None => o end in
  let o2 := match lmuxStdout s with Some f => os_Close f o1 | None => o1 end in
  (ctrlClose s, o2).

(** A step that leaves the abort channel of the session as it is. *)
Definition keeps_aborted {A : Type} (m : M (Session * OS) A) : Prop :=
  forall w, aborted (fst (final (m w))) = aborted (fst w).

(** A method whose course does not depend on the terminal type: run on a
    session with another terminal type it does the same, and leaves that
    terminal type in place. *)
Definition ignores_term {A : Type} (m : M Session A) : Prop :=
  forall t s, m (set_term t s) = map_final (set_term t) (m s).

(* ===================================================================== *)
(** * Further parts of the package *)
(* ===================================================================== *)

(** [func (w Waitmsg) String() string] *)
Definition Waitmsg_String (w : Waitmsg) : string :=
  let str := ("Process exited with status " ++ itoa (status w))%string in
  let str :=
    if negb (String.eqb (signal w) EmptyString)
    then (str ++ " from signal " ++ signal w)%string
    else str in
  let str :=
    if negb (String.eqb (msg w) EmptyString)
    then (str ++ ". Reason was: " ++ msg w)%string
    else str in
  str.

(** [func (e *ExitError) Error() string] *)
Definition ExitError_Error (wm : Waitmsg) : string := Waitmsg_String wm.

(** The errors of the pipe accessors: "ssh: Stdin already set", ...,
    "ssh: StdinPipe after process started", ... *)
Inductive pipeError : Type :=
| ErrStdinSet
| ErrStdoutSet
| ErrStderrSet
| ErrStdinPipeStarted
| ErrStdoutPipeStarted
| ErrStderrPipeStarted.

(** [StdinPipe() (io.WriteCloser, error)]: the pipe end handed to the
    caller, the error, and the state left.  The error of [os.Pipe] is
    dropped: on a failed [os.Pipe] both ends are nil and the call still
    returns a nil error. *)
Definition StdinPipe (w : Session * OS)
  : option fd * option pipeError * (Session * OS) :=
  let (s, o) := w in
  match Stdin s with
  | NoStream =>
      if started s then (None, Some ErrStdinPipeStarted, w)
      else
        let s1 := set_stdinpipe true s in
        match os_Pipe o with
        | (Some (r, wr), o') =>
            (Some wr, None, (set_lmuxStdin (Some wr) (set_rmuxStdin (Some r) s1), o'))
        | (None, o') =>
            (None, None, (set_lmuxStdin None (set_rmuxStdin None s1), o'))
        end
  | _ => (None, Some ErrStdinSet, w)
  end.

(** [StdoutPipe() (io.Reader, error)] *)
Definition StdoutPipe (w : Session * OS)
  : option fd * option pipeError * (Session * OS) :=
  let (s, o) := w in
  match Stdout s with
  | NoStream =>
      if started s then (None, Some ErrStdoutPipeStarted, w)
      else
        let s1 := set_stdoutpipe true s in
        match os_Pipe o with
        | (Some (r, wr), o') =>
            (Some r, None, (set_rmuxStdout (Some wr) (set_lmuxStdout (Some r) s1), o'))
        | (None, o') =>
            (None, None, (set_rmuxStdout None (set_lmuxStdout None s1), o'))
        end
  | _ => (None, Some ErrStdoutSet, w)
  end.

(** [StderrPipe() (io.Reader, error)] *)
Definition StderrPipe (w : Session * OS)
  : option fd * option pipeError * (Session * OS) :=
  let (s, o) := w in
  match Stderr s with
  | NoStream =>
      if started s then (None, Some ErrStderrPipeStarted, w)
      else
        let s1 := set_stderrpipe true s in
        match os_Pipe o with
        | (Some (r, wr), o') =>
            (Some r, None, (set_rmuxStderr (Some wr) (set_lmuxStderr (Some r) s1), o'))
        | (None, o') =>
            (None, None, (set_rmuxStderr None (set_lmuxStderr None s1), o'))
        end
  | _ => (None, Some ErrStderrSet, w)
  end.

(** The goroutine [func(fn func() error) { s.errors <- fn() }(fn)], for a
    copy function that returns [result]. *)
Definition copyTask (result : option error) : M Session unit :=
  fun s =>
    match chan_send result (errors s) with
    | Some ch => Ret tt (set_errors ch s)
    | None => Block s
    end.

(** The copy goroutines, one after the other. *)
Fixpoint copyTasks (results : list (option error)) : M Session unit :=
  match results with
  | [] => ret tt
  | r :: rest => copyTask r ;; copyTasks rest
  end.

(* ===================================================================== *)
(** * Further notions used to state the properties *)
(* ===================================================================== *)

(** The first error in a list of results, nil when there is none. *)
Fixpoint firstError (results : list (option error)) : option error :=
  match results with
  | [] => None
  | Some e :: _ => Some e
  | None :: rest => firstError rest
  end.

(** The descriptors passed to the master on the session's connection. *)
Definition fds_of (s : Session) : list (option fd) :=
  match ctrlconn s with
  | Some c => fds_sent c
  | None => []
  end.

(** What the handshake leaves alone: the streams, the copy tasks and
    their channel, the control path, the terminal type, the started flag,
    the stdin pipe writer and the two signalling channels. *)
Definition untouched (s s' : Session) : Prop :=
  Stdin s' = Stdin s /\ Stdout s' = Stdout s /\ Stderr s' = Stderr s /\
  copyFuncs s' = copyFuncs s /\ errors s' = errors s /\
  sshctlpath s' = sshctlpath s /\ term s' = term s /\
  started s' = started s /\ stdinPipeWriter s' = stdinPipeWriter s /\
  exitStatus s' = exitStatus s /\ aborted s' = aborted s.

(** The same as one value, with the goroutines of the process. *)
Definition rest_of (w : Session * OS) :=
  (Stdin (fst w), Stdout (fst w), Stderr (fst w), copyFuncs (fst w),
   errors (fst w), sshctlpath (fst w), term (fst w), started (fst w),
   stdinPipeWriter (fst w), exitStatus (fst w), aborted (fst w),
   goroutines (snd w)).

(** The three flags that say a stream needs no copy task. *)
Definition flags_of (w : Session * OS) : bool * bool * bool :=
  (stdinpipe (fst w), stdoutpipe (fst w), stderrpipe (fst w)).

(** A step that keeps a view [proj] of the session and the process,
    whatever its outcome. *)
Definition keeps {T A : Type} (proj : Session * OS -> T)
    (m : M (Session * OS) A) : Prop :=
  forall w, proj (final (m w)) = proj w.

(** A stream needs no copy task when the caller took a pipe for it or
    handed in an [*os.File], which goes to the master as it is. *)
Definition direct (flag : bool) (st : stream) : bool :=
  flag || match st with OsFile _ => true | _ => false end.

(** The copy tasks [start] adds for a session. *)
Definition copyTasksFor (s : Session) : list copyFunc :=
  (if stdinpipe s then []
   else [CopyStdin (match Stdin s with NoStream => EmptyBuffer | _ => PipeReader end)]) ++
  (if stdoutpipe s then [] else [CopyStdout]) ++
  (if stderrpipe s then [] else [CopyStderr]).

(** The goroutine [stdin] starts to feed the [io.Pipe] from [s.Stdin]. *)
Definition feeder (s : Session) : list goroutine :=
  if stdinpipe s then []
  else match Stdin s with NoStream => [] | _ => [GoFeedStdin] end.

(** [s.Stdout] and [s.Stderr] as [start] leaves them: a nil writer is
    replaced by [ioutil.Discard] unless the stream goes to a pipe. *)
Definition orDiscard (piped : bool) (w : stream) : stream :=
  if piped then w else match w with NoStream => Discard | _ => w end.

(** What the set-up steps of [start] leave alone besides the streams they
    prepare. *)
Definition setup_keeps (s s' : Session) : Prop :=
  Stdin s' = Stdin s /\
  stdinpipe s' = stdinpipe s /\ stdoutpipe s' = stdoutpipe s /\
  stderrpipe s' = stderrpipe s /\
  started s' = started s /\ errors s' = errors s /\
  ctrlconn s' = ctrlconn s /\ exitStatus s' = exitStatus s /\
  aborted s' = aborted s.

(** The session is about to read [bytes] from an open connection on which
    every write succeeds. *)
Definition healthy (s : Session) (bytes : list byte) : Prop :=
  exists c, ctrlconn s = Some c /\ closed c = false /\ write_errs c = [] /\
            incoming c = bytes.

(* ===================================================================== *)
(** * Properties: byte order and the message codec *)
(* ===================================================================== *)

Section Bytes.

Lemma len_app {A} (a b : list A) : len (a ++ b) = len a + len b.
Proof. unfold len. rewrite length_app. lia. Qed.

Lemma len_nonneg {A} (a : list A) : 0 <= len a.
Proof. unfold len. lia. Qed.

Lemma lor_shiftl_add lo hi k :
  0 <= k -> 0 <= lo < 2 ^ k -> Z.lor lo (Z.shiftl hi k) = lo + hi * 2 ^ k.
Proof.
  intros Hk Hlo.
  assert (Hdisj : Z.land lo (Z.shiftl hi k) = 0).
  { apply Z.bits_inj'; intros n Hn.
    rewrite Z.land_spec, Z.bits_0.
    destruct (Z.ltb_spec n k) as [Hlt|Hge].
    - rewrite Z.shiftl_spec_low by assumption. apply andb_false_r.
    - rewrite <- (Z.mod_small lo (2 ^ k)) by assumption.
      rewrite Z.mod_pow2_bits_high by lia. reflexivity. }
  rewrite <- Z.lxor_lor by assumption.
  rewrite <- Z.add_nocarry_lxor by assumption.
  rewrite Z.shiftl_mul_pow2 by assumption. reflexivity.
Qed.

Lemma Uint32_cons4 b0 b1 b2 b3 rest :
  BigEndian.Uint32 (b0 :: b1 :: b2 :: b3 :: rest) =
  bigEndianValue [b0; b1; b2; b3].
Proof.
  unfold BigEndian.Uint32, bigEndianValue, index. cbn [nth fold_left].
  pose proof (byte.unsigned_range b0). pose proof (byte.unsigned_range b1).
  pose proof (byte.unsigned_range b2). pose proof (byte.unsigned_range b3).
  rewrite (lor_shiftl_add _ _ 8) by lia.
  rewrite (lor_shiftl_add _ _ 16) by lia.
  rewrite (lor_shiftl_add _ _ 24) by lia.
  lia.
Qed.

Lemma bigEndianValue4_range b0 b1 b2 b3 :
  0 <= bigEndianValue [b0; b1; b2; b3] < 2 ^ 32.
Proof.
  unfold bigEndianValue. cbn [fold_left].
  pose proof (byte.unsigned_range b0). pose proof (byte.unsigned_range b1).
  pose proof (byte.unsigned_range b2). pose proof (byte.unsigned_range b3).
  lia.
Qed.

Lemma bigEndianValue_PutUint32 v :
  bigEndianValue (BigEndian.PutUint32 v) = v mod 2 ^ 32.
Proof.
  unfold bigEndianValue, BigEndian.PutUint32. cbn [fold_left].
  rewrite !byte.unsigned_of_Z. unfold byte.wrap.
  rewrite !Z.shiftr_div_pow2 by lia.
  change (2 ^ 8) with 256. change (2 ^ 24) with 16777216.
  change (2 ^ 16) with 65536. change (2 ^ 32) with 4294967296.
  Z.div_mod_to_equations. lia.
Qed.

(** A slice of at least four bytes, split at its fourth byte. *)
Lemma four_bytes (buf : list byte) :
  4 <= len buf ->
  exists b0 b1 b2 b3 rest, buf = b0 :: b1 :: b2 :: b3 :: rest.
Proof.
  unfold len. intros H.
  destruct buf as [|b0 [|b1 [|b2 [|b3 rest]]]]; cbn in H; try lia.
  now exists b0, b1, b2, b3, rest.
Qed.

Lemma length4_inv (l : list byte) :
  List.length l = 4%nat -> exists b0 b1 b2 b3, l = [b0; b1; b2; b3].
Proof.
  destruct l as [|b0 [|b1 [|b2 [|b3 [|? ?]]]]]; cbn; try discriminate.
  intros _. now exists b0, b1, b2, b3.
Qed.

Lemma packetPopInt_short buf :
  len buf < 4 -> packetPopInt buf = (-1, Some ErrBufferTooShort, buf).
Proof.
  intros H. unfold packetPopInt.
  destruct (Z.ltb_spec (len buf) 4); [reflexivity | lia].
Qed.

Lemma packetPopInt_cons4 b0 b1 b2 b3 rest :
  packetPopInt (b0 :: b1 :: b2 :: b3 :: rest) =
  (bigEndianValue [b0; b1; b2; b3], None, rest).
Proof.
  unfold packetPopInt, int_of_uint32.
  rewrite Uint32_cons4.
  destruct (Z.ltb_spec (len (b0 :: b1 :: b2 :: b3 :: rest)) 4) as [H|_];
    [unfold len in H; cbn [List.length] in H; lia | reflexivity].
Qed.

Lemma packetPopInt_long buf :
  4 <= len buf ->
  packetPopInt buf = (bigEndianValue (firstn 4 buf), None, skipn 4 buf).
Proof.
  intros H. destruct (four_bytes buf H) as (b0 & b1 & b2 & b3 & rest & ->).
  apply packetPopInt_cons4.
Qed.

Lemma popInts_fields count : forall packet msgs,
  4 * Z.of_nat count <= len packet ->
  popInts count packet msgs = inl (msgs ++ fields count packet).
Proof.
  induction count as [|n IH]; intros packet msgs H.
  - cbn. now rewrite app_nil_r.
  - cbn [popInts fields].
    rewrite packetPopInt_long by lia.
    rewrite IH.
    + now rewrite <- app_assoc.
    + unfold len in *. rewrite length_skipn. lia.
Qed.

Lemma popInts_short count : forall packet msgs,
  len packet < 4 * Z.of_nat count ->
  popInts count packet msgs = inr ErrBufferTooShort.
Proof.
  induction count as [|n IH]; intros packet msgs H.
  - pose proof (len_nonneg packet). lia.
  - cbn [popInts].
    destruct (Z.ltb_spec (len packet) 4) as [Hs|Hl].
    + now rewrite packetPopInt_short.
    + rewrite packetPopInt_long by assumption.
      apply IH. unfold len in *. rewrite length_skipn. lia.
Qed.

End Bytes.

(* ===================================================================== *)
(** * Properties: packet transport *)
(* ===================================================================== *)

Section Transport.

Lemma firstn_len_app {A} (a b : list A) : firstn (Z.to_nat (len a)) (a ++ b) = a.
Proof.
  unfold len. rewrite Nat2Z.id, firstn_app, Nat.sub_diag, firstn_all.
  cbn. apply app_nil_r.
Qed.

Lemma skipn_len_app {A} (a b : list A) : skipn (Z.to_nat (len a)) (a ++ b) = b.
Proof.
  unfold len. rewrite Nat2Z.id, skipn_app, Nat.sub_diag, skipn_all.
  reflexivity.
Qed.

Lemma ctrlRead_ok s c n :
  ctrlconn s = Some c -> closed c = false -> n <= len (incoming c) ->
  ctrlRead n s =
  Ret (firstn (Z.to_nat n) (incoming c))
      (set_ctrlconn (Some (set_incoming (skipn (Z.to_nat n) (incoming c)) c)) s).
Proof.
  intros Hc Hcl Hn. unfold ctrlRead, Conn.ReadAtLeast.
  rewrite Hc, Hcl.
  destruct (Z.leb_spec n 0) as [H0|H0].
  - replace (Z.to_nat n) with 0%nat by lia. destruct c; reflexivity.
  - destruct (Z.leb_spec n (len (incoming c))); [reflexivity | lia].
Qed.

(** Reading one frame: a 4-byte prefix announcing the body that follows. *)
Lemma readPacket_frame s c prefix body rest :
  ctrlconn s = Some c -> closed c = false ->
  incoming c = prefix ++ body ++ rest ->
  List.length prefix = 4%nat ->
  bigEndianValue prefix = len body ->
  readPacket s = Ret body (set_ctrlconn (Some (set_incoming rest c)) s).
Proof.
  intros Hc Hcl Hin Hp Hv.
  destruct (length4_inv prefix Hp) as (b0 & b1 & b2 & b3 & ->).
  unfold readPacket, bind.
  rewrite (ctrlRead_ok s c 4 Hc Hcl)
    by (rewrite Hin, len_app; pose proof (len_nonneg (body ++ rest));
        unfold len at 1; cbn [List.length]; lia).
  rewrite Hin. change (Z.to_nat 4) with 4%nat. cbn [app firstn skipn].
  unfold int_of_uint32. rewrite Uint32_cons4, Hv.
  erewrite ctrlRead_ok; [ | reflexivity | exact Hcl | ].
  - cbn [incoming set_incoming]. rewrite firstn_len_app, skipn_len_app.
    reflexivity.
  - cbn [incoming set_incoming]. rewrite len_app.
    pose proof (len_nonneg rest). lia.
Qed.

Lemma writePacket_ok s c req :
  ctrlconn s = Some c -> closed c = false -> hd false (write_errs c) = false ->
  writePacket req s =
  Ret tt (set_ctrlconn
            (Some (set_write_errs (tl (write_errs c))
                     (set_written
                        (written c ++ [BigEndian.PutUint32 (uint32 (len req)) ++ req]) c)))
            s).
Proof.
  intros Hc Hcl Hw. unfold writePacket, ctrlWrite, Conn.Write.
  rewrite Hc, Hcl.
  destruct (write_errs c) as [|[|] rest] eqn:E; cbn in Hw; try discriminate.
  - destruct c; cbn in *; subst; reflexivity.
  - reflexivity.
Qed.

End Transport.

(** C7: for every payload buffer, [packetPopInt] fails with the
    short-buffer error (returning -1 and leaving the buffer as it is)
    whenever fewer than 4 bytes remain; otherwise it returns the big-endian
    value of the first 4 bytes and consumes exactly those 4 bytes.  Hence
    [recvInts count] fails with the short-buffer error on a packet shorter
    than [4 * count] bytes, and otherwise returns its first [count]
    fields. *)
Theorem packetPopInt_decodes (buf : list byte) :
  (len buf < 4 -> packetPopInt buf = (-1, Some ErrBufferTooShort, buf)) /\
  (4 <= len buf ->
   packetPopInt buf = (bigEndianValue (firstn 4 buf), None, skipn 4 buf) /\
   List.length (firstn 4 buf) = 4%nat /\
   buf = firstn 4 buf ++ skipn 4 buf) /\
  (forall count s s',
     readPacket s = Ret buf s' ->
     (len buf < 4 * count -> recvInts count s = Err ErrBufferTooShort s') /\
     (4 * count <= len buf ->
      recvInts count s = Ret (fields (Z.to_nat count) buf) s')).
Proof.
  split; [apply packetPopInt_short|].
  split.
  - intros H. split; [now apply packetPopInt_long|].
    split; [|symmetry; apply firstn_skipn].
    rewrite length_firstn. unfold len in H. lia.
  - intros count s s' Hread. unfold recvInts, bind. rewrite Hread.
    split; intros H.
    + rewrite popInts_short; [reflexivity|].
      pose proof (len_nonneg buf). lia.
    + rewrite popInts_fields; [reflexivity|].
      destruct (Z.le_gt_cases 0 count).
      * rewrite Z2Nat.id by assumption. exact H.
      * replace (Z.to_nat count) with 0%nat by lia.
        pose proof (len_nonneg buf). lia.
Qed.

Lemma packetPopInt_decodes_witness :
  packetPopInt [Byte.x01; Byte.x02] =
    (-1, Some ErrBufferTooShort, [Byte.x01; Byte.x02]) /\
  packetPopInt [Byte.x80; Byte.x00; Byte.x00; Byte.x04; Byte.x07] =
    (0x80000004, None, [Byte.x07]).
Proof.
  split.
  - apply (proj1 (packetPopInt_decodes [Byte.x01; Byte.x02])).
    reflexivity.
  - apply (proj1 (proj2 (packetPopInt_decodes
             [Byte.x80; Byte.x00; Byte.x00; Byte.x04; Byte.x07]))).
    vm_compute. discriminate.
Defined.

(** C8, as amended: for every payload [p] shorter than [2^32] bytes,
    [writePacket p] makes a single write of the 4-byte big-endian length of
    [p] followed by [p], and [readPacket] on exactly these bytes returns
    [p]. *)
Theorem framing_round_trip (p : list byte) :
  len p < 2 ^ 32 -> framed_round_trip p.
Proof.
  intros Hp s c Hc Hcl Hw.
  exists (BigEndian.PutUint32 (uint32 (len p))).
  eexists. split; [apply (writePacket_ok s c p Hc Hcl Hw)|].
  split; [reflexivity|].
  split; [reflexivity|].
  assert (Hv : bigEndianValue (BigEndian.PutUint32 (uint32 (len p))) = len p).
  { rewrite bigEndianValue_PutUint32. unfold uint32.
    pose proof (len_nonneg p). rewrite Z.mod_mod by lia.
    apply Z.mod_small. lia. }
  split; [exact Hv|].
  intros r cr Hr Hrcl Hin.
  apply (readPacket_frame r cr (BigEndian.PutUint32 (uint32 (len p))) p []);
    try assumption.
  - now rewrite app_nil_r.
  - reflexivity.
Qed.

Lemma framing_round_trip_witness :
  len [Byte.x6c; Byte.x73] < 2 ^ 32 /\ framed_round_trip [Byte.x6c; Byte.x73].
Proof.
  split; [reflexivity|].
  apply (framing_round_trip [Byte.x6c; Byte.x73]). reflexivity.
Defined.

(** What [writePacket] and [readPacket] do on a payload of [2^32] bytes:
    the length prefix wraps to zero, and the reader returns an empty
    packet. *)
Lemma framing_wraps (p : list byte) :
  len p = 4294967296 ->
  let c := mkConn [] Eof [] [] [] false in
  let s := set_ctrlconn (Some c) (NewSession EmptyString) in
  let m := [Byte.x00; Byte.x00; Byte.x00; Byte.x00] ++ p in
  writePacket p s = Ret tt (set_ctrlconn (Some (set_written [m] c)) s) /\
  readPacket (set_ctrlconn (Some (set_incoming m c)) s) =
    Ret [] (set_ctrlconn (Some (set_incoming p c)) s).
Proof.
  intros Hlen c s m. split.
  - unfold writePacket, ctrlWrite, Conn.Write.
    cbn [ctrlconn s set_ctrlconn closed c write_errs written app].
    rewrite Hlen. reflexivity.
  - rewrite (readPacket_frame _ (set_incoming m c)
               [Byte.x00; Byte.x00; Byte.x00; Byte.x00] [] p);
      reflexivity.
Qed.

Lemma len_payload4GiB : len payload4GiB = 4294967296.
Proof.
  unfold len, payload4GiB. rewrite repeat_length.
  apply Z2Nat.id. discriminate.
Qed.

Lemma framing_4GiB :
  let c := mkConn [] Eof [] [] [] false in
  let s := set_ctrlconn (Some c) (NewSession EmptyString) in
  let m := [Byte.x00; Byte.x00; Byte.x00; Byte.x00] ++ payload4GiB in
  writePacket payload4GiB s = Ret tt (set_ctrlconn (Some (set_written [m] c)) s) /\
  readPacket (set_ctrlconn (Some (set_incoming m c)) s) =
    Ret [] (set_ctrlconn (Some (set_incoming payload4GiB c)) s).
Proof. exact (framing_wraps payload4GiB len_payload4GiB). Qed.

(** C8, as stated, fails: no 4-byte prefix denotes the length of a payload
    of [2^32] bytes. *)
Lemma framing_round_trip_4GiB_fails : ~ framed_round_trip payload4GiB.
Proof.
  intros H.
  destruct (H (set_ctrlconn (Some (mkConn [] Eof [] [] [] false))
                 (NewSession EmptyString))
              (mkConn [] Eof [] [] [] false) eq_refl eq_refl eq_refl)
    as (prefix & c' & _ & _ & Hp & Hv & _).
  destruct (length4_inv prefix Hp) as (b0 & b1 & b2 & b3 & ->).
  pose proof (bigEndianValue4_range b0 b1 b2 b3) as Hr.
  rewrite Hv, len_payload4GiB in Hr. lia.
Qed.

(* ===================================================================== *)
(** * Properties: the exit-status reader *)
(* ===================================================================== *)

Section Reader.

Lemma wait_loop_step s wm seen :
  wait_loop s wm seen =
  match readPacket s with
  | Block s1 => Block s1
  | Err e s1 => if is_panic e then Err e s1 else Ret (wm, seen) s1
  | Ret buf s1 =>
      match packetPopInt buf with
      | (_, Some _, _) => Ret (wm, seen) s1
      | (mtype, None, buf1) =>
          wait_loop s1
            (fst (dispatch (ctrlSessid s1) mtype buf1 wm seen))
            (snd (dispatch (ctrlSessid s1) mtype buf1 wm seen))
      end
  end.
Proof.
  simp wait_loop.
  remember (inspect (readPacket s)) as i eqn:Hi. clear Hi.
  destruct i as [[buf s1|e s1|s1] Hr].
  - simp wait_loop.
    destruct (packetPopInt buf) as [[mtype [e|]] buf1] eqn:Hp;
      simp wait_loop; rewrite Hr, Hp; simp wait_loop; reflexivity.
  - simp wait_loop. rewrite Hr. reflexivity.
  - simp wait_loop. rewrite Hr. reflexivity.
Qed.

Lemma set_ctrlconn_same s : set_ctrlconn (ctrlconn s) s = s.
Proof. destruct s; reflexivity. Qed.

Lemma ctrlRead_conn_only n : conn_only (ctrlRead n).
Proof.
  intros s. unfold ctrlRead.
  destruct (ctrlconn s) as [c|] eqn:Hc.
  - destruct (Conn.ReadAtLeast n c); eexists; reflexivity.
  - exists None. rewrite <- Hc.
    destruct (n <=? 0); symmetry; apply set_ctrlconn_same.
Qed.

Lemma bind_conn_only {A B} (m : M Session A) (k : A -> M Session B) :
  conn_only m -> (forall a, conn_only (k a)) -> conn_only (bind m k).
Proof.
  intros Hm Hk s. unfold bind.
  destruct (Hm s) as [oc Hoc].
  destruct (m s) as [a s1|e s1|s1]; cbn in Hoc; subst.
  - destruct (Hk a (set_ctrlconn oc s)) as [oc' ->]. now exists oc'.
  - now exists oc.
  - now exists oc.
Qed.

Lemma ret_conn_only {A} (a : A) : conn_only (ret a).
Proof. intros s. exists (ctrlconn s). symmetry. apply set_ctrlconn_same. Qed.

Lemma fail_conn_only {A} e : conn_only (@fail Session A e).
Proof. intros s. exists (ctrlconn s). symmetry. apply set_ctrlconn_same. Qed.

Lemma readPacket_conn_only : conn_only readPacket.
Proof.
  unfold readPacket.
  apply bind_conn_only; [apply ctrlRead_conn_only|]. intros lenbuf.
  apply bind_conn_only; [apply ctrlRead_conn_only|]. intros p.
  apply ret_conn_only.
Qed.

Lemma readPacket_ctrlSessid s buf s1 :
  readPacket s = Ret buf s1 -> ctrlSessid s1 = ctrlSessid s.
Proof.
  intros H. destruct (readPacket_conn_only s) as [oc Hoc].
  rewrite H in Hoc. cbn in Hoc. now subst.
Qed.

Lemma ReadAtLeast_ok n c b c' :
  Conn.ReadAtLeast n c = IoOk b c' ->
  n <= len (incoming c) /\
  b = firstn (Z.to_nat n) (incoming c) /\
  c' = set_incoming (skipn (Z.to_nat n) (incoming c)) c.
Proof.
  unfold Conn.ReadAtLeast.
  destruct (Z.leb_spec n 0) as [H0|H0].
  { intros Heq; injection Heq as <- <-.
    replace (Z.to_nat n) with 0%nat by lia.
    pose proof (len_nonneg (incoming c)).
    repeat split; [lia | now destruct c]. }
  destruct (closed c); [discriminate|].
  destruct (Z.leb_spec n (len (incoming c)));
    [|destruct (peer c); discriminate].
  intros Heq; injection Heq as <- <-. auto.
Qed.

Lemma readPacket_unread s buf s1 :
  readPacket s = Ret buf s1 -> (unread s1 < unread s)%nat.
Proof.
  unfold readPacket, bind, ctrlRead, ret, unread.
  destruct (ctrlconn s) as [c|]; [|discriminate].
  destruct (Conn.ReadAtLeast 4 c) as [lenbuf c1| |] eqn:H1; try discriminate.
  cbn [ctrlconn set_ctrlconn].
  destruct (Conn.ReadAtLeast _ c1) as [p c2| |] eqn:H2; try discriminate.
  intros H; injection H as _ <-. cbn [ctrlconn set_ctrlconn].
  apply ReadAtLeast_ok in H1 as (H4 & _ & ->).
  apply ReadAtLeast_ok in H2 as (_ & _ & ->).
  cbn [incoming set_incoming]. unfold len in H4.
  rewrite !length_skipn. lia.
Qed.

(** Induction along the iterations of the reader loop. *)
Lemma wait_loop_ind
    (P : Session -> Waitmsg -> bool -> res Session (Waitmsg * bool) -> Prop) :
  (forall s wm seen s1, readPacket s = Block s1 -> P s wm seen (Block s1)) ->
  (forall s wm seen e s1,
     readPacket s = Err e s1 ->
     P s wm seen (if is_panic e then Err e s1 else Ret (wm, seen) s1)) ->
  (forall s wm seen buf s1 v e b,
     readPacket s = Ret buf s1 -> packetPopInt buf = (v, Some e, b) ->
     P s wm seen (Ret (wm, seen) s1)) ->
  (forall s wm seen buf s1 mtype buf1,
     readPacket s = Ret buf s1 -> packetPopInt buf = (mtype, None, buf1) ->
     let d := dispatch (ctrlSessid s1) mtype buf1 wm seen in
     P s1 (fst d) (snd d) (wait_loop s1 (fst d) (snd d)) ->
     P s wm seen (wait_loop s1 (fst d) (snd d))) ->
  forall s wm seen, P s wm seen (wait_loop s wm seen).
Proof.
  intros Hblock Herr Hshort Hstep s.
  remember (unread s) as n eqn:Hn. revert s Hn.
  induction n as [n IH] using (well_founded_induction lt_wf).
  intros s Hn wm seen. rewrite wait_loop_step.
  destruct (readPacket s) as [buf s1|e s1|s1] eqn:Hr.
  - destruct (packetPopInt buf) as [[mtype [e|]] buf1] eqn:Hp.
    + eapply Hshort; eassumption.
    + eapply Hstep; try eassumption.
      eapply IH; [|reflexivity]. subst n. eapply readPacket_unread; eassumption.
  - eapply Herr; eassumption.
  - now apply Hblock.
Qed.

Lemma packetPopInt_cases buf :
  packetPopInt buf = (-1, Some ErrBufferTooShort, buf) \/
  exists v, 0 <= v < 2 ^ 32 /\ packetPopInt buf = (v, None, skipn 4 buf).
Proof.
  destruct (Z.lt_ge_cases (len buf) 4) as [H|H].
  - left. now apply packetPopInt_short.
  - right. destruct (four_bytes buf H) as (b0 & b1 & b2 & b3 & rest & ->).
    exists (bigEndianValue [b0; b1; b2; b3]).
    split; [apply bigEndianValue4_range | apply packetPopInt_cons4].
Qed.

(** An invariant of [wm] and [exit_seen] that every branch of the switch
    keeps holds when the loop ends. *)
Lemma wait_loop_invariant (I : Waitmsg -> bool -> Prop) :
  (forall sid mtype buf wm seen,
     I wm seen ->
     I (fst (dispatch sid mtype buf wm seen)) (snd (dispatch sid mtype buf wm seen))) ->
  forall s wm seen r s',
    I wm seen -> wait_loop s wm seen = Ret r s' -> I (fst r) (snd r).
Proof.
  intros Hd s wm seen.
  apply (wait_loop_ind (fun s wm seen out =>
           forall r s', I wm seen -> out = Ret r s' -> I (fst r) (snd r))).
  - discriminate.
  - intros ? ? ? e ? _ r s' HI H.
    destruct (is_panic e); [discriminate|]. injection H as <- _. exact HI.
  - intros ? ? ? ? ? ? ? ? _ _ r s' HI H. injection H as <- _. exact HI.
  - intros ? ? ? ? ? ? ? _ _ d IH r s' HI H.
    apply (IH r s'); [apply Hd; exact HI | exact H].
Qed.

Lemma dispatch_status_tracks_exit sid mtype buf wm seen :
  status_tracks_exit wm seen ->
  status_tracks_exit (fst (dispatch sid mtype buf wm seen))
                     (snd (dispatch sid mtype buf wm seen)).
Proof.
  intros HI. unfold dispatch.
  destruct (mtype =? muxTtyAllocFail).
  { destruct (packetPopInt buf) as [[sid' [e|]] b]; [exact HI|].
    destruct (negb (sid' =? sid)); exact HI. }
  destruct (mtype =? muxExitMessage); [|exact HI].
  destruct (packetPopInt buf) as [[sid' [e|]] b]; [exact HI|].
  destruct (negb (sid' =? sid)); [exact HI|].
  destruct seen; [exact HI|].
  destruct (packetPopInt_cases b) as [->|(v & Hv & ->)]; cbn.
  - left. auto.
  - right. auto.
Qed.

Lemma dispatch_no_signal_no_lang sid mtype buf wm seen :
  no_signal_no_lang wm seen ->
  no_signal_no_lang (fst (dispatch sid mtype buf wm seen))
                    (snd (dispatch sid mtype buf wm seen)).
Proof.
  intros HI. unfold dispatch.
  destruct (mtype =? muxTtyAllocFail).
  { destruct (packetPopInt buf) as [[sid' [e|]] b]; [exact HI|].
    destruct (negb (sid' =? sid)); exact HI. }
  destruct (mtype =? muxExitMessage); [|exact HI].
  destruct (packetPopInt buf) as [[sid' [e|]] b]; [exact HI|].
  destruct (negb (sid' =? sid)); [exact HI|].
  destruct seen; [exact HI|].
  destruct (packetPopInt b) as [[v [e|]] b']; exact HI.
Qed.

(** The loop itself returns no error: what it hands on is a panic. *)
Lemma wait_loop_Err s wm seen e s' :
  wait_loop s wm seen = Err e s' -> is_panic e = true.
Proof.
  apply (wait_loop_ind (fun _ _ _ out => out = Err e s' -> is_panic e = true));
    try discriminate.
  - intros ? ? ? e0 ? _ H. destruct (is_panic e0) eqn:Hp; [|discriminate].
    now injection H as <- _.
  - intros ? ? ? ? ? ? ? _ _ d IH. exact IH.
Qed.

Lemma wait_loop_conn_only wm seen : conn_only (fun s => wait_loop s wm seen).
Proof.
  intros s.
  apply (wait_loop_ind (fun s wm seen out => exists oc, final out = set_ctrlconn oc s)).
  - intros s0 ? ? s1 H. pose proof (readPacket_conn_only s0) as [oc Hoc].
    rewrite H in Hoc. now exists oc.
  - intros s0 ? ? e s1 H. pose proof (readPacket_conn_only s0) as [oc Hoc].
    rewrite H in Hoc. destruct (is_panic e); now exists oc.
  - intros s0 ? ? buf s1 ? ? ? H _. pose proof (readPacket_conn_only s0) as [oc Hoc].
    rewrite H in Hoc. now exists oc.
  - intros s0 ? ? buf s1 ? ? H _ d [oc' IH].
    pose proof (readPacket_conn_only s0) as [oc Hoc].
    rewrite H in Hoc. cbn in Hoc. subst s1. exists oc'. exact IH.
Qed.

End Reader.

(** Closes [a <= c < b] on numerals. *)
Ltac in_range :=
  vm_compute; split; [intros Hcmp; discriminate Hcmp | reflexivity].

Section ReaderOutcome.

Lemma packetPopInt_PutUint32 v rest :
  packetPopInt (BigEndian.PutUint32 v ++ rest) = (v mod 2 ^ 32, None, rest).
Proof.
  rewrite <- bigEndianValue_PutUint32.
  unfold BigEndian.PutUint32. cbn [app]. apply packetPopInt_cons4.
Qed.

Lemma packetPopInt_uint32s v l rest :
  0 <= v < 2 ^ 32 ->
  packetPopInt (uint32s (v :: l) ++ rest) = (v, None, uint32s l ++ rest).
Proof.
  intros Hv. unfold uint32s. cbn [flat_map]. rewrite <- app_assoc.
  rewrite packetPopInt_PutUint32, Z.mod_small by assumption. reflexivity.
Qed.

(** One iteration on a packet that carries a type code. *)
Lemma wait_loop_packet s buf s1 mtype rest wm seen :
  readPacket s = Ret buf s1 -> 0 <= mtype < 2 ^ 32 ->
  buf = uint32s [mtype] ++ rest ->
  wait_loop s wm seen =
  wait_loop s1 (fst (dispatch (ctrlSessid s) mtype rest wm seen))
               (snd (dispatch (ctrlSessid s) mtype rest wm seen)).
Proof.
  intros Hr Hm ->. rewrite wait_loop_step, Hr.
  rewrite packetPopInt_uint32s by assumption. cbn [uint32s flat_map app].
  now rewrite (readPacket_ctrlSessid s _ s1 Hr).
Qed.

Lemma wait_final s :
  wait s =
  match wait_loop s wm0 false with
  | Ret r s1 =>
      if status (fst r) =? 0 then Ret tt s1
      else if status (fst r) =? -1 then Err ExitMissingError s1
      else Err (ExitError (fst r)) (ctrlClose s1)
  | Err e s1 => Err e s1
  | Block s1 => Block s1
  end.
Proof.
  unfold wait, bind. fold wm0.
  destruct (wait_loop s wm0 false) as [r s1|e s1|s1]; try reflexivity.
  destruct (status (fst r) =? 0); [reflexivity|].
  destruct (status (fst r) =? -1); reflexivity.
Qed.

Lemma wait_conn_only : conn_only wait.
Proof.
  intros s. rewrite wait_final.
  destruct (wait_loop_conn_only wm0 false s) as [oc Hoc].
  destruct (wait_loop s wm0 false) as [r s1|e s1|s1]; cbn in Hoc; subst;
    try (now exists oc).
  destruct (status (fst r) =? 0); [now exists oc|].
  destruct (status (fst r) =? -1); [now exists oc|].
  cbn. unfold ctrlClose. cbn.
  destruct oc; eexists; reflexivity.
Qed.

Lemma wait_exitStatus s : exitStatus (final (wait s)) = exitStatus s.
Proof. destruct (wait_conn_only s) as [oc ->]. reflexivity. Qed.

(** The reader goroutine leaves the outcome of [wait] in the slot made by
    [Start] or [Shell]. *)
Lemma readerTask_Ret_aborted s s1 :
  readerTask s = Ret tt s1 -> aborted s1 = aborted s.
Proof.
  unfold readerTask. destruct (wait_conn_only s) as [oc Hoc].
  destruct (errorOf (wait s)) as [o|]; [|discriminate].
  destruct (panicked o); [discriminate|].
  destruct (chan_send o (exitStatus (final (wait s)))); [|discriminate].
  intros H. injection H as <-. rewrite Hoc. reflexivity.
Qed.

Lemma readerTask_delivers s o :
  exitStatus s = make_chan 1 -> errorOf (wait s) = Some o ->
  panicked o = false ->
  readerTask s = Ret tt (set_exitStatus (Some (mkChan 1 [o])) (final (wait s))).
Proof.
  intros Hch Ho Hp. unfold readerTask. rewrite Ho, Hp, wait_exitStatus, Hch.
  reflexivity.
Qed.

End ReaderOutcome.

(** C1: for every terminated run of the reader loop, the outcome [wait]
    hands over is determined by the recorded status: status 0 yields nil;
    status -1, which is the case exactly when no exit message was recorded
    before the loop ended, yields [ExitMissingError] (never nil); any other
    status yields an [ExitError] carrying the whole [Waitmsg].  The reader
    goroutine puts this outcome in the one-slot channel, and the [select]
    of [Wait] receives it from there unless an abort signal is waiting. *)
Theorem wait_outcome s wm seen s1 :
  wait_loop s wm0 false = Ret (wm, seen) s1 ->
  (status wm = 0 -> wait s = Ret tt s1) /\
  (status wm = -1 -> wait s = Err ExitMissingError s1) /\
  (status wm <> 0 -> status wm <> -1 ->
   wait s = Err (ExitError wm) (ctrlClose s1)) /\
  (seen = false <-> status wm = -1) /\
  (exitStatus s = make_chan 1 ->
   exists o s2,
     errorOf (wait s) = Some o /\ readerTask s = Ret tt s2 /\
     exitStatus s2 = Some (mkChan 1 [o]) /\
     (forall pickAborted,
        chan_recv (aborted s2) = None ->
        selectExit pickAborted s2 = Ret o (set_exitStatus (Some (mkChan 1 [])) s2))).
Proof.
  intros Hloop.
  assert (Hw := wait_final s). rewrite Hloop in Hw. cbn [fst] in Hw.
  assert (HI : status_tracks_exit wm seen).
  { apply (wait_loop_invariant status_tracks_exit
             dispatch_status_tracks_exit s wm0 false (wm, seen) s1);
      [left; split; reflexivity | exact Hloop]. }
  split; [intros H0; rewrite Hw, H0; reflexivity|].
  split; [intros H1; rewrite Hw, H1; reflexivity|].
  split.
  { intros H0 H1. rewrite Hw.
    destruct (Z.eqb_spec (status wm) 0); [contradiction|].
    destruct (Z.eqb_spec (status wm) (-1)); [contradiction|]. reflexivity. }
  split.
  { destruct HI as [[-> ->]|[-> Hs]]; split; intros; try reflexivity;
      try discriminate; lia. }
  intros Hch.
  assert (Hnp : forall o, errorOf (wait s) = Some o -> panicked o = false).
  { intros o Ho. rewrite Hw in Ho.
    destruct (status wm =? 0); [injection Ho as <-; reflexivity|].
    destruct (status wm =? -1); injection Ho as <-; reflexivity. }
  destruct (errorOf (wait s)) as [o|] eqn:Ho.
  - exists o. eexists. split; [reflexivity|].
    split; [apply readerTask_delivers; [exact Hch | exact Ho | now apply Hnp]|].
    split; [reflexivity|].
    intros pick Hab. unfold selectExit. rewrite Hab. reflexivity.
  - exfalso. rewrite Hw in Ho.
    destruct (status wm =? 0); [discriminate|].
    destruct (status wm =? -1); discriminate.
Qed.

Lemma wait_outcome_witness :
  wait (attached (masterSends (frame (uint32s [muxExitMessage; 7; 3])) Eof) 7) =
  Err (ExitError (mkWaitmsg 3 EmptyString EmptyString EmptyString))
      (ctrlClose (attached (masterSends [] Eof) 7)).
Proof.
  refine (proj1 (proj2 (proj2
    (wait_outcome
       (attached (masterSends (frame (uint32s [muxExitMessage; 7; 3])) Eof) 7)
       (mkWaitmsg 3 EmptyString EmptyString EmptyString) true
       (attached (masterSends [] Eof) 7) _))) _ _).
  - vm_compute. reflexivity.
  - discriminate.
  - discriminate.
Defined.

(** The master closes the connection without a word: the status is still
    unset and [wait] reports the missing exit status. *)
Lemma wait_connection_closed sid :
  wait (attached (masterSends [] Eof) sid) =
  Err ExitMissingError (attached (masterSends [] Eof) sid).
Proof. rewrite wait_final, wait_loop_step. reflexivity. Qed.

(** C3, as amended: when the reader dispatches one packet, an exit message
    with the session's id and no exit recorded so far makes it record the
    exit status and go on reading; a tty-allocation failure with the
    session's id makes it go on reading with nothing changed. *)
Theorem dispatch_one_packet s buf s1 :
  readPacket s = Ret buf s1 ->
  0 <= ctrlSessid s < 2 ^ 32 ->
  (forall v rest wm,
     0 <= v < 2 ^ 32 ->
     buf = uint32s [muxExitMessage; ctrlSessid s; v] ++ rest ->
     wait_loop s wm false = wait_loop s1 (set_status v wm) true) /\
  (forall rest wm seen,
     buf = uint32s [muxTtyAllocFail; ctrlSessid s] ++ rest ->
     wait_loop s wm seen = wait_loop s1 wm seen).
Proof.
  intros Hr Hsid. split.
  - intros v rest wm Hv ->.
    rewrite (wait_loop_packet s _ s1 muxExitMessage
               (uint32s [ctrlSessid s; v] ++ rest) wm false Hr);
      [|unfold muxExitMessage; lia|reflexivity].
    unfold dispatch.
    change (muxExitMessage =? muxTtyAllocFail) with false.
    change (muxExitMessage =? muxExitMessage) with true. cbv iota.
    rewrite packetPopInt_uint32s by assumption.
    rewrite Z.eqb_refl. cbn [negb].
    rewrite packetPopInt_uint32s by assumption. reflexivity.
  - intros rest wm seen ->.
    rewrite (wait_loop_packet s _ s1 muxTtyAllocFail
               (uint32s [ctrlSessid s] ++ rest) wm seen Hr);
      [|unfold muxTtyAllocFail; lia|reflexivity].
    unfold dispatch.
    change (muxTtyAllocFail =? muxTtyAllocFail) with true. cbv iota.
    rewrite packetPopInt_uint32s by assumption.
    rewrite Z.eqb_refl. reflexivity.
Qed.

Lemma dispatch_one_packet_witness :
  wait_loop
    (attached (masterSends (frame (uint32s [muxExitMessage; 7; 3]) ++
                            frame (uint32s [muxTtyAllocFail; 7])) Eof) 7)
    wm0 false =
  wait_loop
    (attached (masterSends (frame (uint32s [muxTtyAllocFail; 7])) Eof) 7)
    (set_status 3 wm0) true.
Proof.
  refine (proj1 (dispatch_one_packet
    (attached (masterSends (frame (uint32s [muxExitMessage; 7; 3]) ++
                            frame (uint32s [muxTtyAllocFail; 7])) Eof) 7)
    (uint32s [muxExitMessage; 7; 3])
    (attached (masterSends (frame (uint32s [muxTtyAllocFail; 7])) Eof) 7)
    _ _) 3 [] wm0 _ _).
  - vm_compute. reflexivity.
  - in_range.
  - in_range.
  - vm_compute. reflexivity.
Defined.

(** What the reader does with a second exit message: the first one did not
    end the loop, the second one is read and noted. *)
Lemma wait_exit_seen_twice :
  wait_loop
    (attached (masterSends (frame (uint32s [muxExitMessage; 7; 3]) ++
                            frame (uint32s [muxExitMessage; 7; 0])) Eof) 7)
    wm0 false =
  Ret (mkWaitmsg 3 EmptyString "exit seen twice" EmptyString, true)
      (attached (masterSends [] Eof) 7).
Proof. vm_compute. reflexivity. Qed.

(** C3, as stated, fails: after an exit message the loop reads on. *)
Lemma dispatch_as_specified_fails : ~ dispatch_as_specified.
Proof.
  intros [Hexit _].
  specialize (Hexit
    (attached (masterSends (frame (uint32s [muxExitMessage; 7; 3]) ++
                            frame (uint32s [muxExitMessage; 7; 0])) Eof) 7)
    (uint32s [muxExitMessage; 7; 3])
    (attached (masterSends (frame (uint32s [muxExitMessage; 7; 0])) Eof) 7)
    3 [] wm0).
  rewrite wait_exit_seen_twice in Hexit.
  assert (H : Ret (A := Waitmsg * bool)
                (mkWaitmsg 3 EmptyString "exit seen twice" EmptyString, true)
                (attached (masterSends [] Eof) 7) =
              Ret (set_status 3 wm0, true)
                (attached (masterSends (frame (uint32s [muxExitMessage; 7; 0])) Eof) 7)).
  { apply Hexit.
    - vm_compute. reflexivity.
    - in_range.
    - in_range.
    - vm_compute. reflexivity. }
  vm_compute in H. discriminate H.
Qed.

(** What the default branch does: a packet of unknown type changes nothing
    and the loop reads on. *)
Lemma wait_loop_unknown_type s buf s1 mtype rest wm seen :
  readPacket s = Ret buf s1 ->
  0 <= mtype < 2 ^ 32 ->
  mtype <> muxTtyAllocFail -> mtype <> muxExitMessage ->
  buf = uint32s [mtype] ++ rest ->
  wait_loop s wm seen = wait_loop s1 wm seen.
Proof.
  intros Hr Hm Ht He ->.
  rewrite (wait_loop_packet s _ s1 mtype rest wm seen Hr Hm eq_refl).
  unfold dispatch.
  destruct (Z.eqb_spec mtype muxTtyAllocFail); [contradiction|].
  destruct (Z.eqb_spec mtype muxExitMessage); [contradiction|].
  reflexivity.
Qed.

(** What the reader does with a notification for another session id: it
    notes the mismatch in the message of [wm] and reads on. *)
Lemma wait_loop_foreign_session_id s buf s1 mtype sid rest wm seen :
  readPacket s = Ret buf s1 ->
  mtype = muxTtyAllocFail \/ mtype = muxExitMessage ->
  0 <= sid < 2 ^ 32 -> sid <> ctrlSessid s ->
  buf = uint32s [mtype; sid] ++ rest ->
  wait_loop s wm seen =
  wait_loop s1 (set_msg (unknownSessionId (ctrlSessid s) sid) wm) seen.
Proof.
  intros Hr Hm Hsid Hne ->.
  rewrite (wait_loop_packet s _ s1 mtype (uint32s [sid] ++ rest) wm seen Hr);
    [| destruct Hm as [-> | ->]; in_range
     | reflexivity].
  unfold dispatch.
  destruct Hm as [-> | ->].
  - change (muxTtyAllocFail =? muxTtyAllocFail) with true. cbv iota.
    rewrite packetPopInt_uint32s by assumption.
    destruct (Z.eqb_spec sid (ctrlSessid s)); [contradiction|]. reflexivity.
  - change (muxExitMessage =? muxTtyAllocFail) with false.
    change (muxExitMessage =? muxExitMessage) with true. cbv iota.
    rewrite packetPopInt_uint32s by assumption.
    destruct (Z.eqb_spec sid (ctrlSessid s)); [contradiction|]. reflexivity.
Qed.

(** C4 on the code: a session with remote id 7 receives a tty-allocation
    failure, or an exit message with status 5, for session id 8, then the
    exit message of its own session with status 0, then end of file.  The
    foreign notification is read past and [wait] returns nil.  The same
    after a whole [Start]: the session-opened reply assigns id 7, the
    notification for id 8 is read past, and the reader goroutine delivers
    nil to [Wait]. *)
Theorem wait_reads_past_foreign_session_id :
  wait (attached (masterSends (frame (uint32s [muxTtyAllocFail; 8]) ++
                               frame (uint32s [muxExitMessage; 7; 0])) Eof) 7) =
    Ret tt (attached (masterSends [] Eof) 7) /\
  wait (attached (masterSends (frame (uint32s [muxExitMessage; 8; 5]) ++
                               frame (uint32s [muxExitMessage; 7; 0])) Eof) 7) =
    Ret tt (attached (masterSends [] Eof) 7) /\
  exists w1 s2,
    Start "ls"
      (NewSession "ctl",
       process0 (masterSends (master_script 7 ++
                              frame (uint32s [muxExitMessage; 8; 5]) ++
                              frame (uint32s [muxExitMessage; 7; 0])) Eof)) =
      Ret tt w1 /\
    ctrlSessid (fst w1) = 7 /\
    readerTask (fst w1) = Ret tt s2 /\
    exitStatus s2 = Some (mkChan 1 [None]) /\
    selectExit false s2 = Ret None (set_exitStatus (Some (mkChan 1 [])) s2).
Proof.
  split; [vm_compute; reflexivity|].
  split; [vm_compute; reflexivity|].
  eexists. eexists.
  split; [vm_compute; reflexivity|].
  split; [reflexivity|].
  split; [vm_compute; reflexivity|].
  split; reflexivity.
Qed.

Section WaitOutcome.

Lemma wait_ExitError_fields s wm s' :
  wait s = Err (ExitError wm) s' -> signal wm = EmptyString /\ lang wm = EmptyString.
Proof.
  rewrite wait_final.
  destruct (wait_loop s wm0 false) as [[wm1 seen] s1|e s1|s1] eqn:Hloop.
  - cbn [fst].
    assert (HI : no_signal_no_lang wm1 seen).
    { apply (wait_loop_invariant no_signal_no_lang
               dispatch_no_signal_no_lang s wm0 false (wm1, seen) s1);
        [split; reflexivity | exact Hloop]. }
    destruct (status wm1 =? 0); [discriminate|].
    destruct (status wm1 =? -1); [discriminate|].
    intros H. injection H as <- _. exact HI.
  - intros H. injection H as -> _.
    apply wait_loop_Err in Hloop. discriminate Hloop.
  - discriminate.
Qed.

(** The error [Wait] keeps from the copy tasks is nil, the one it started
    with, or one that was waiting on [s.errors]. *)
Lemma drainErrors_result fns : forall acc s r s',
  drainErrors fns acc s = Ret r s' ->
  r = acc \/ exists ch, errors s = Some ch /\ In r (buf ch).
Proof.
  induction fns as [|fn rest IH]; intros acc s r s' H.
  - injection H as <- _. now left.
  - cbn [drainErrors] in H. unfold chan_recv in H.
    destruct (errors s) as [ch|] eqn:Hch; [|discriminate].
    destruct (buf ch) as [|err more] eqn:Hbuf; [discriminate|].
    apply IH in H.
    destruct H as [-> | (ch' & Hch' & Hin)].
    + destruct err as [e|]; [destruct acc as [a|]|]; auto.
      right. exists ch. rewrite Hbuf. split; [reflexivity | now left].
    + cbn in Hch'. injection Hch' as <-. cbn in Hin.
      right. exists ch. rewrite Hbuf. split; [reflexivity | now right].
Qed.

Lemma selectExit_result pick s r s' :
  selectExit pick s = Ret r s' ->
  errors s' = errors s /\ copyFuncs s' = copyFuncs s /\
  (r = Some ErrSessionAborted \/
   exists ch, exitStatus s = Some ch /\ In r (buf ch)).
Proof.
  unfold selectExit, chan_recv.
  destruct (exitStatus s) as [ce|]; [destruct (buf ce) as [|o rest] eqn:Hb|];
    (destruct (aborted s) as [ca|]; [destruct (buf ca) as [|a rest'] eqn:Hb'|]);
    try discriminate;
    try destruct pick;
    intros H; injection H as <- <-; repeat split; auto;
    right; eexists; (split; [reflexivity|]); rewrite Hb; now left.
Qed.

Lemma selectExit_not_Err pick s e s' : selectExit pick s <> Err e s'.
Proof.
  unfold selectExit.
  destruct (chan_recv (exitStatus s)) as [[? ?]|];
    destruct (chan_recv (aborted s)) as [[? ?]|]; try destruct pick;
    discriminate.
Qed.

Lemma drainErrors_not_Err fns : forall acc s e s',
  drainErrors fns acc s <> Err e s'.
Proof.
  induction fns as [|fn rest IH]; intros acc s e s'; cbn [drainErrors].
  - discriminate.
  - destruct (chan_recv (errors s)) as [[err ch]|]; [apply IH | discriminate].
Qed.

End WaitOutcome.

(** C9: no code path assigns the signal or the language tag of the
    [Waitmsg] the reader builds: an [ExitError] returned by [wait], and
    hence one returned by [Wait] after the reader goroutine has delivered
    its outcome, has an empty [Signal()] and an empty [Lang()]. *)
Theorem waitmsg_signal_lang_empty s wm :
  (forall s', wait s = Err (ExitError wm) s' ->
     Signal wm = EmptyString /\ Lang wm = EmptyString) /\
  (forall s1 pickAborted s2,
     exitStatus s = make_chan 1 ->
     readerTask s = Ret tt s1 ->
     copy_errors_only s1 ->
     Wait pickAborted s1 = Err (ExitError wm) s2 ->
     Signal wm = EmptyString /\ Lang wm = EmptyString).
Proof.
  split; [apply wait_ExitError_fields|].
  intros s1 pick s2 Hch Hreader Hcopy HWait.
  destruct (errorOf (wait s)) as [o|] eqn:Ho;
    [|unfold readerTask in Hreader; rewrite Ho in Hreader; discriminate].
  assert (Hp : panicked o = false).
  { unfold readerTask in Hreader. rewrite Ho in Hreader.
    destruct (panicked o); [discriminate | reflexivity]. }
  rewrite (readerTask_delivers s o Hch Ho Hp) in Hreader.
  injection Hreader as <-.
  unfold Wait, bind, get in HWait.
  destruct (negb (started _)); [discriminate|].
  destruct (selectExit pick _) as [waitErr s3|e s3|s3] eqn:Hsel;
    [|now apply selectExit_not_Err in Hsel|discriminate].
  apply selectExit_result in Hsel as (Herrs & Hfns & Hwe).
  set (s4 := match (match stdinPipeWriter s3 with
                    | Some _ => modify (set_stdinPipeWriter (Some true))
                    | None => ret tt
                    end) s3 with
             | Ret _ s' => s' | Err _ s' => s' | Block s' => s' end).
  assert (Hs4 : errors s4 = errors s3).
  { unfold s4. destruct (stdinPipeWriter s3); reflexivity. }
  assert (Hstep : (match stdinPipeWriter s3 with
                   | Some _ => modify (set_stdinPipeWriter (Some true))
                   | None => ret tt
                   end) s3 = Ret tt s4).
  { unfold s4. destruct (stdinPipeWriter s3); reflexivity. }
  rewrite Hstep in HWait.
  destruct (drainErrors (copyFuncs s4) None s4) as [copyError s5|e s5|s5] eqn:Hd;
    [|now apply drainErrors_not_Err in Hd|discriminate].
  apply drainErrors_result in Hd.
  destruct waitErr as [e|].
  - injection HWait as -> _.
    destruct Hwe as [Habs | (ch & Hc & Hin)]; [discriminate|].
    cbn in Hc. injection Hc as <-. cbn in Hin.
    destruct Hin as [-> | []].
    destruct (wait s) as [a sw|e sw|sw] eqn:Hw; try discriminate.
    injection Ho as ->. now apply (wait_ExitError_fields s wm sw).
  - destruct copyError as [e|]; [|discriminate].
    injection HWait as -> _.
    destruct Hd as [Hd | (ch & Hc & Hin)]; [discriminate|].
    rewrite Hs4, Herrs in Hc.
    destruct (Hcopy ch (ExitError wm) Hc Hin) as [n Hn]. discriminate.
Qed.

Lemma waitmsg_signal_lang_empty_witness :
  Signal (mkWaitmsg 3 EmptyString EmptyString EmptyString) = EmptyString /\
  Lang (mkWaitmsg 3 EmptyString EmptyString EmptyString) = EmptyString.
Proof.
  refine (proj1 (waitmsg_signal_lang_empty
    (attached (masterSends (frame (uint32s [muxExitMessage; 7; 3])) Eof) 7)
    (mkWaitmsg 3 EmptyString EmptyString EmptyString))
    (ctrlClose (attached (masterSends [] Eof) 7)) _).
  vm_compute. reflexivity.
Defined.

(* ===================================================================== *)
(** * Properties: the handshake *)
(* ===================================================================== *)

Section Outcomes.

Context {S : Type}.

Lemma wp_bind {A B} (m : M S A) (k : A -> M S B) s Qret Qerr Qblock :
  wp m s (fun a s' => wp (k a) s' Qret Qerr Qblock) Qerr Qblock ->
  wp (bind m k) s Qret Qerr Qblock.
Proof. unfold wp, bind. destruct (m s); auto. Qed.

Lemma wp_ret {A} (a : A) (s : S) Qret Qerr Qblock :
  Qret a s -> wp (ret a) s Qret Qerr Qblock.
Proof. auto. Qed.

Lemma wp_fail {A} e (s : S) (Qret : A -> S -> Prop) Qerr Qblock :
  Qerr e s -> wp (fail e) s Qret Qerr Qblock.
Proof. auto. Qed.

Lemma wp_get (s : S) Qret Qerr Qblock :
  Qret s s -> wp get s Qret Qerr Qblock.
Proof. auto. Qed.

Lemma wp_modify f (s : S) Qret Qerr Qblock :
  Qret tt (f s) -> wp (modify f) s Qret Qerr Qblock.
Proof. auto. Qed.

Lemma wp_mono {A} (m : M S A) s (Qret Qret' : A -> S -> Prop)
    (Qerr Qerr' : error -> S -> Prop) (Qblock Qblock' : S -> Prop) :
  wp m s Qret Qerr Qblock ->
  (forall a s', Qret a s' -> Qret' a s') ->
  (forall e s', Qerr e s' -> Qerr' e s') ->
  (forall s', Qblock s' -> Qblock' s') ->
  wp m s Qret' Qerr' Qblock'.
Proof. unfold wp. destruct (m s); auto. Qed.

End Outcomes.

Lemma wp_onSession {A} (m : M Session A) w Qret Qerr Qblock :
  wp m (fst w)
     (fun a s' => Qret a (s', snd w))
     (fun e s' => Qerr e (s', snd w))
     (fun s' => Qblock (s', snd w)) ->
  wp (onSession m) w Qret Qerr Qblock.
Proof. unfold wp, onSession. destruct (m (fst w)); auto. Qed.

Section Handshake.

Lemma grows_refl s : grows [] s s.
Proof. split; [now rewrite app_nil_r | reflexivity]. Qed.

Lemma grows_trans l1 l2 s1 s2 s3 :
  grows l1 s1 s2 -> grows l2 s2 s3 -> grows (l1 ++ l2) s1 s3.
Proof.
  intros [H1 T1] [H2 T2]. split; [|congruence].
  now rewrite H2, H1, app_assoc.
Qed.

Lemma grows_then_quiet l s1 s2 s3 :
  grows l s1 s2 -> grows [] s2 s3 -> grows l s1 s3.
Proof. intros H1 H2. rewrite <- (app_nil_r l). eapply grows_trans; eassumption. Qed.

Lemma quiet_then_grows l s1 s2 s3 :
  grows [] s1 s2 -> grows l s2 s3 -> grows l s1 s3.
Proof. intros H1 H2. apply (grows_trans [] l s1 s2 s3); assumption. Qed.

Lemma Marshal_muxMsg m :
  Marshal.muxMsg m = uint32s [mm_Request m; mm_Param m].
Proof.
  unfold Marshal.muxMsg, Marshal.u32, uint32s. cbn [flat_map].
  now rewrite app_nil_r.
Qed.

Lemma ctrlRead_grows n s :
  wp (ctrlRead n) s
     (fun _ s' => grows [] s s' /\ ctrlReqid s' = ctrlReqid s)
     (fun _ s' => grows [] s s') (fun s' => grows [] s s').
Proof.
  unfold wp, ctrlRead, grows, writes_of.
  destruct (ctrlconn s) as [c|] eqn:Hc.
  - unfold Conn.ReadAtLeast.
    destruct (n <=? 0); cbn; [rewrite ?Hc, ?app_nil_r; auto|].
    destruct (closed c); cbn; [rewrite ?Hc, ?app_nil_r; auto|].
    destruct (n <=? len (incoming c)); cbn; [rewrite app_nil_r; auto|].
    destruct (peer c); cbn; rewrite app_nil_r; auto.
  - destruct (n <=? 0); cbn; rewrite ?Hc, ?app_nil_r; auto.
Qed.

Lemma readPacket_grows s :
  wp readPacket s
     (fun _ s' => grows [] s s' /\ ctrlReqid s' = ctrlReqid s)
     (fun _ s' => grows [] s s') (fun s' => grows [] s s').
Proof.
  unfold readPacket. apply wp_bind.
  eapply wp_mono; [apply ctrlRead_grows | | auto | auto].
  intros lenbuf s1 [G1 R1]. apply wp_bind.
  eapply wp_mono; [apply ctrlRead_grows | | |].
  - intros p s2 [G2 R2]. apply wp_ret. split; [|congruence].
    apply (quiet_then_grows [] s s1 s2); assumption.
  - intros e s2 G2. apply (quiet_then_grows [] s s1 s2); assumption.
  - intros s2 G2. apply (quiet_then_grows [] s s1 s2); assumption.
Qed.

Lemma recvInts_grows count s :
  wp (recvInts count) s
     (fun _ s' => grows [] s s' /\ ctrlReqid s' = ctrlReqid s)
     (fun _ s' => grows [] s s') (fun s' => grows [] s s').
Proof.
  unfold recvInts. apply wp_bind.
  eapply wp_mono; [apply readPacket_grows | | auto | auto].
  intros p s1 [G1 R1].
  destruct (popInts (Z.to_nat count) p []); [apply wp_ret | apply wp_fail]; auto.
Qed.

Lemma writePacket_grows req s :
  wp (writePacket req) s
     (fun _ s' => grows [frame req] s s' /\ ctrlReqid s' = ctrlReqid s)
     (fun _ s' => grows [] s s') (fun s' => grows [] s s').
Proof.
  unfold wp, writePacket, ctrlWrite, grows, writes_of. fold (frame req).
  destruct (ctrlconn s) as [c|] eqn:Hc.
  - unfold Conn.Write.
    destruct (closed c); cbn; [rewrite ?Hc, ?app_nil_r; auto|].
    destruct (write_errs c) as [|[|] rest]; cbn; rewrite ?app_nil_r; auto.
  - cbn; rewrite ?Hc, ?app_nil_r; auto.
Qed.

Lemma sshMuxHello_sends s :
  sends id sshMuxHello s [frame (uint32s [muxMsgHello; muxVersion])]
        (fun s' => ctrlReqid s' = ctrlReqid s).
Proof.
  unfold sends, sshMuxHello, id. apply wp_bind.
  eapply wp_mono; [apply recvInts_grows | | |].
  - intros msgs s1 [G1 R1].
    destruct (_ || _).
    + apply wp_fail. now exists 0%nat.
    + eapply wp_mono; [apply writePacket_grows | | |].
      * intros _ s2 [G2 R2]. split; [|congruence].
        apply (quiet_then_grows _ s s1 s2); assumption.
      * intros e s2 G2. exists 0%nat.
        apply (quiet_then_grows [] s s1 s2); assumption.
      * intros s2 G2. exists 0%nat.
        apply (quiet_then_grows [] s s1 s2); assumption.
  - intros e s1 G1. now exists 0%nat.
  - intros s1 G1. now exists 0%nat.
Qed.

Lemma sshMuxAliveCheck_sends s :
  sends id sshMuxAliveCheck s
        [frame (uint32s [muxAliveCheck; uint32 (ctrlReqid s)])]
        (fun s' => ctrlReqid s' = ctrlReqid s + 1).
Proof.
  unfold sends, sshMuxAliveCheck, id. apply wp_bind, wp_get.
  cbv zeta. rewrite Marshal_muxMsg. cbn [mm_Request mm_Param]. apply wp_bind.
  eapply wp_mono; [apply writePacket_grows | | |].
  - intros _ s1 [G1 R1]. apply wp_bind.
    eapply wp_mono; [apply recvInts_grows | | |].
    + intros msgs s2 [G2 R2]. apply wp_bind, wp_get.
      assert (G : grows [frame (uint32s [muxAliveCheck; uint32 (ctrlReqid s)])] s s2)
        by (apply (grows_then_quiet _ s s1 s2); assumption).
      destruct (negb _); [apply wp_fail; now exists 1%nat|].
      destruct (negb _); [apply wp_fail; now exists 1%nat|].
      apply wp_modify. split; [exact G | cbn; congruence].
    + intros e s2 G2. exists 1%nat.
      apply (grows_then_quiet _ s s1 s2); assumption.
    + intros s2 G2. exists 1%nat.
      apply (grows_then_quiet _ s s1 s2); assumption.
  - intros e s1 G1. now exists 0%nat.
  - intros s1 G1. now exists 0%nat.
Qed.

Lemma newSessionMsg_request_id s cmd rid :
  ctrlReqid s = rid -> 0 <= rid < 2 ^ 32 ->
  newSessionMsg s cmd =
  mkNewSessionMsg muxNewSession rid EmptyString
    (if String.eqb (term s) EmptyString then 0 else 1)
    0 0 0 0xffffffff (term s) cmd.
Proof.
  intros <- Hr. unfold newSessionMsg, uint32.
  rewrite (Z.mod_small (ctrlReqid s)) by assumption.
  destruct (String.eqb_spec (term s) EmptyString) as [->|]; reflexivity.
Qed.

Lemma sshMuxNewSession_sends cmd s :
  sends id (sshMuxNewSession cmd) s
        [frame (Marshal.muxNewSessionMsg (newSessionMsg s cmd))]
        (fun s' => ctrlReqid s' = ctrlReqid s).
Proof.
  unfold sends, sshMuxNewSession, id. apply wp_bind, wp_get.
  eapply wp_mono; [apply writePacket_grows | | |].
  - intros _ s1 [G1 R1]. auto.
  - intros e s1 G1. now exists 0%nat.
  - intros s1 G1. now exists 0%nat.
Qed.

Lemma firstn_prefix_app {A} k (l1 l2 : list A) :
  exists k', firstn k' (l1 ++ l2) = firstn k l1.
Proof.
  exists (Nat.min k (List.length l1)).
  rewrite firstn_app.
  replace (Nat.min k (List.length l1) - List.length l1)%nat with 0%nat by lia.
  cbn. rewrite app_nil_r.
  destruct (Nat.le_ge_cases k (List.length l1)).
  - now rewrite Nat.min_l.
  - rewrite Nat.min_r by assumption. now rewrite !firstn_all2 by lia.
Qed.

Lemma sends_bind {S A B} (proj : S -> Session) (m : M S A) (k : A -> M S B)
    s l1 l2 Q1 Q2 :
  sends proj m s l1 Q1 ->
  (forall a s', m s = Ret a s' -> grows l1 (proj s) (proj s') -> Q1 s' ->
     sends proj (k a) s' l2 Q2) ->
  sends proj (bind m k) s (l1 ++ l2) Q2.
Proof.
  unfold sends, wp, bind. intros Hm Hk.
  destruct (m s) as [a s1|e s1|s1].
  - destruct Hm as [G1 HQ]. specialize (Hk a s1 eq_refl G1 HQ).
    destruct (k a s1) as [b s2|e s2|s2].
    + destruct Hk as [G2 HQ2]. split; [|exact HQ2].
      eapply grows_trans; eassumption.
    + destruct Hk as [j G2]. exists (List.length l1 + j)%nat.
      rewrite firstn_app_2. eapply grows_trans; eassumption.
    + destruct Hk as [j G2]. exists (List.length l1 + j)%nat.
      rewrite firstn_app_2. eapply grows_trans; eassumption.
  - destruct Hm as [j G]. destruct (firstn_prefix_app j l1 l2) as [j' E].
    exists j'. now rewrite E.
  - destruct Hm as [j G]. destruct (firstn_prefix_app j l1 l2) as [j' E].
    exists j'. now rewrite E.
Qed.

Lemma sends_onSession {A} (m : M Session A) w l Q :
  sends id m (fst w) l Q ->
  sends fst (onSession m) w l (fun w' => Q (fst w')).
Proof.
  unfold sends, id. intros H. apply wp_onSession.
  eapply wp_mono; [exact H | | |]; cbn; auto.
Qed.

Lemma sends_quiet {A} (m : M (Session * OS) A) w :
  quiet m ->
  sends fst m w [] (fun w' => ctrlReqid (fst w') = ctrlReqid (fst w)).
Proof.
  intros Hq. specialize (Hq w). unfold sends, wp.
  destruct (m w) as [a w'|e w'|w']; cbn in Hq; destruct Hq as [G R].
  - auto.
  - now exists 0%nat.
  - now exists 0%nat.
Qed.

Lemma sends_mono {S A} (proj : S -> Session) (m : M S A) s l (Q Q' : S -> Prop) :
  sends proj m s l Q -> (forall s', Q s' -> Q' s') -> sends proj m s l Q'.
Proof.
  intros H HQ. unfold sends in *.
  eapply wp_mono; [exact H | | auto | auto].
  intros a s' [G q]. auto.
Qed.

(** Closes [grows [] s s' /\ ctrlReqid s' = ctrlReqid s] when [s'] is [s]
    with fields other than the connection updated. *)
Ltac same_writes :=
  split;
  [ split; [ unfold writes_of; cbn; now rewrite app_nil_r | reflexivity ]
  | reflexivity ].

Lemma quiet_pickStdin : quiet pickStdin.
Proof.
  intros [s o]. unfold pickStdin.
  destruct (Stdin s); try same_writes;
    destruct (lmuxStdin s); try same_writes;
    destruct (os_Pipe o) as [[[r wr]|] o']; same_writes.
Qed.

Lemma quiet_pickStdout : quiet pickStdout.
Proof.
  intros [s o]. unfold pickStdout.
  destruct (Stdout s); try same_writes;
    destruct (lmuxStdout s); try same_writes;
    destruct (os_Pipe o) as [[[r wr]|] o']; same_writes.
Qed.

Lemma quiet_pickStderr : quiet pickStderr.
Proof.
  intros [s o]. unfold pickStderr.
  destruct (Stderr s); try same_writes;
    destruct (lmuxStderr s); try same_writes;
    destruct (os_Pipe o) as [[[r wr]|] o']; same_writes.
Qed.

Lemma quiet_fdPut (f : Session -> option fd) :
  quiet (onSession (modify (fun s => fdPut (f s) s))).
Proof.
  intros [s o]. cbn. unfold fdPut, grows, writes_of.
  destruct (ctrlconn s) as [c|] eqn:Hc; cbn; rewrite ?Hc, ?app_nil_r; auto.
Qed.

Lemma quiet_makeRawTerm : quiet makeRawTerm.
Proof.
  intros w. unfold makeRawTerm.
  destruct (tty_makeraw (snd w)); [destruct (tty_state (snd w))|];
    try destruct (negb _); same_writes.
Qed.

Lemma quiet_closeRemote l r : quiet (closeRemote l r).
Proof.
  intros [s o]. unfold closeRemote.
  destruct (l s); [destruct (r s)|]; same_writes.
Qed.

Lemma quiet_ret {A} (a : A) : quiet (ret a).
Proof. intros w. split; [apply grows_refl | reflexivity]. Qed.

Lemma sshMuxPassFileDescriptors_sends w :
  sends fst sshMuxPassFileDescriptors w []
        (fun w' => ctrlReqid (fst w') = ctrlReqid (fst w) + 1).
Proof.
  unfold sshMuxPassFileDescriptors.
  apply (sends_bind fst _ _ w [] [] _ _ (sends_quiet _ w quiet_pickStdin)).
  intros _ w1 _ _ R1.
  apply (sends_bind fst _ _ w1 [] [] _ _ (sends_quiet _ w1 quiet_pickStdout)).
  intros _ w2 _ _ R2.
  apply (sends_bind fst _ _ w2 [] [] _ _ (sends_quiet _ w2 quiet_pickStderr)).
  intros _ w3 _ _ R3.
  apply (sends_bind fst _ _ w3 [] [] _ _ (sends_quiet _ w3 (quiet_fdPut rmuxStdin))).
  intros _ w4 _ _ R4.
  apply (sends_bind fst _ _ w4 [] [] _ _ (sends_quiet _ w4 (quiet_fdPut rmuxStdout))).
  intros _ w5 _ _ R5.
  apply (sends_bind fst _ _ w5 [] [] _ _ (sends_quiet _ w5 (quiet_fdPut rmuxStderr))).
  intros _ w6 _ _ R6.
  assert (R : ctrlReqid (fst w6) = ctrlReqid (fst w)) by congruence.
  clear R1 R2 R3 R4 R5 R6.
  unfold sends. apply wp_bind, wp_onSession.
  eapply wp_mono; [apply recvInts_grows | | |]; cbn.
  - intros msgs s7 [G7 R7]. apply wp_bind, wp_onSession, wp_get. cbn.
    destruct (negb _); [apply wp_fail; now exists 0%nat|].
    destruct (negb _); [apply wp_fail; now exists 0%nat|].
    apply wp_bind, wp_onSession, wp_modify. cbn.
    split; [exact G7 | congruence].
  - intros e s7 G7. now exists 0%nat.
  - intros s7 G7. now exists 0%nat.
Qed.

(** Whatever the master answers, the packets [requestMuxSession] writes
    are the three requests of the handshake, or the first few of them when
    it fails or hangs on the way. *)
Lemma requestMuxSession_sends cmd w :
  sends fst (requestMuxSession cmd) w
        (handshake_requests (term (fst w)) cmd)
        (fun w' => ctrlReqid (fst w') = 2).
Proof.
  unfold requestMuxSession.
  change (handshake_requests (term (fst w)) cmd)
    with ([] ++ [frame (uint32s [muxMsgHello; muxVersion])] ++
          [frame (uint32s [muxAliveCheck; 0])] ++
          [frame (Marshal.muxNewSessionMsg
             (mkNewSessionMsg muxNewSession 1 EmptyString
                (if String.eqb (term (fst w)) EmptyString then 0 else 1)
                0 0 0 0xffffffff (term (fst w)) cmd))] ++
          [] ++ [] ++ [] ++ [] ++ [] ++ []).
  eapply (sends_bind fst _ _ w [] _ (fun w' => ctrlReqid (fst w') = 0)).
  { unfold sends. apply wp_onSession, wp_modify. same_writes. }
  intros _ w1 _ [_ T1] R1.
  eapply sends_bind; [apply sends_onSession, sshMuxHello_sends|].
  cbv beta. intros _ w2 _ [_ T2] R2.
  eapply sends_bind.
  { pose proof (sends_onSession _ w2 _ _ (sshMuxAliveCheck_sends (fst w2))) as H.
    rewrite R2, R1 in H. exact H. }
  cbv beta. intros _ w3 _ [_ T3] R3.
  eapply sends_bind.
  { pose proof (sends_onSession _ w3 _ _ (sshMuxNewSession_sends cmd (fst w3))) as H.
    rewrite (newSessionMsg_request_id (fst w3) cmd 1) in H;
      [|lia|lia].
    replace (term (fst w3)) with (term (fst w)) in H by congruence.
    exact H. }
  cbv beta. intros _ w4 _ [_ T4] R4.
  eapply sends_bind; [apply sshMuxPassFileDescriptors_sends|].
  cbv beta. intros _ w5 _ [_ T5] R5.
  assert (R : ctrlReqid (fst w5) = 2) by lia.
  eapply (sends_bind fst _ _ w5 [] _ (fun w' => ctrlReqid (fst w') = 2)).
  { unfold sends. apply wp_onSession, wp_get.
    split; [apply grows_refl | exact R]. }
  cbv beta. intros s5 w6 Hget _ R6.
  eapply sends_bind.
  { apply (sends_quiet _ w6).
    destruct (negb _); [apply quiet_makeRawTerm | apply quiet_ret]. }
  cbv beta. intros _ w7 _ _ R7.
  eapply sends_bind; [apply sends_quiet, quiet_closeRemote|].
  cbv beta. intros _ w8 _ _ R8.
  eapply sends_bind; [apply sends_quiet, quiet_closeRemote|].
  cbv beta. intros _ w9 _ _ R9.
  eapply sends_mono; [apply sends_quiet, quiet_closeRemote|].
  cbv beta. intros w10 R10. congruence.
Qed.

End Handshake.

Section HandshakeReplies.

Lemma len_PutUint32 v : len (BigEndian.PutUint32 v) = 4.
Proof. reflexivity. Qed.

Lemma len_uint32s vs : len (uint32s vs) = 4 * len vs.
Proof.
  induction vs as [|v vs IH]; [reflexivity|].
  unfold uint32s in *. cbn [flat_map]. rewrite len_app, IH, len_PutUint32.
  unfold len. cbn [List.length]. lia.
Qed.

Lemma fields_uint32s vs : forall extra,
  Forall (fun v => 0 <= v < 2 ^ 32) vs ->
  fields (List.length vs) (uint32s vs ++ extra) = vs.
Proof.
  induction vs as [|v vs IH]; intros extra H; [reflexivity|].
  inversion H as [|? ? Hv Hvs]; subst.
  cbn [List.length fields]. unfold uint32s. cbn [flat_map].
  rewrite <- app_assoc.
  change (firstn 4 (BigEndian.PutUint32 v ++ flat_map BigEndian.PutUint32 vs ++ extra))
    with (BigEndian.PutUint32 v).
  change (skipn 4 (BigEndian.PutUint32 v ++ flat_map BigEndian.PutUint32 vs ++ extra))
    with (flat_map BigEndian.PutUint32 vs ++ extra).
  rewrite bigEndianValue_PutUint32, Z.mod_small by assumption.
  f_equal. apply IH. assumption.
Qed.

Lemma recvInts_frame s c p rest vs :
  ctrlconn s = Some c -> closed c = false -> incoming c = frame p ++ rest ->
  carries p vs ->
  recvInts (len vs) s = Ret vs (set_ctrlconn (Some (set_incoming rest c)) s).
Proof.
  intros Hc Hcl Hin (Hlen & Hvs & extra & Hp).
  assert (Hread : readPacket s = Ret p (set_ctrlconn (Some (set_incoming rest c)) s)).
  { apply (readPacket_frame s c (BigEndian.PutUint32 (uint32 (len p))) p rest
             Hc Hcl).
    - unfold frame in Hin. now rewrite <- app_assoc in Hin.
    - reflexivity.
    - rewrite bigEndianValue_PutUint32. unfold uint32.
      pose proof (len_nonneg p). rewrite Z.mod_mod by lia.
      apply Z.mod_small. lia. }
  unfold recvInts, bind. rewrite Hread.
  rewrite popInts_fields.
  - unfold len at 1. rewrite Nat2Z.id. rewrite Hp, fields_uint32s by assumption.
    reflexivity.
  - unfold len at 1. rewrite Nat2Z.id. rewrite Hp, len_app, len_uint32s.
    pose proof (len_nonneg extra). unfold len in *. lia.
Qed.

Lemma recvInts_reading s p rest vs :
  reading s (frame p ++ rest) -> carries p vs ->
  exists s', recvInts (len vs) s = Ret vs s' /\ reading s' rest /\
             same_but_conn s s'.
Proof.
  intros (c & Hc & Hcl & Hin) Hp.
  eexists. split; [apply (recvInts_frame s c p rest vs Hc Hcl Hin Hp)|].
  split; [|eexists; reflexivity].
  exists (set_incoming rest c). cbn. auto.
Qed.

Lemma writePacket_reading req s bytes :
  reading s bytes ->
  wp (writePacket req) s
     (fun _ s' => reading s' bytes /\ same_but_conn s s')
     (fun e _ => e = ErrWriteCtrl) (fun _ => False).
Proof.
  intros (c & Hc & Hcl & Hin).
  unfold wp, writePacket, ctrlWrite, Conn.Write. rewrite Hc, Hcl.
  destruct (write_errs c) as [|[|] more]; try reflexivity;
    (split; [eexists; cbn; eauto | eexists; reflexivity]).
Qed.

Lemma same_but_conn_trans s1 s2 s3 :
  same_but_conn s1 s2 -> same_but_conn s2 s3 -> same_but_conn s1 s3.
Proof. intros [oc1 ->] [oc2 ->]. now exists oc2. Qed.

Lemma same_but_conn_fields s s' :
  same_but_conn s s' ->
  ctrlReqid s' = ctrlReqid s /\ term s' = term s /\ ctrlSessid s' = ctrlSessid s.
Proof. intros [oc ->]. auto. Qed.

(** The hello step on a well-formed greeting. *)
Lemma sshMuxHello_reading s p rest :
  reading s (frame p ++ rest) -> carries p [muxMsgHello; muxVersion] ->
  wp sshMuxHello s
     (fun _ s' => reading s' rest /\ same_but_conn s s')
     (fun e _ => e = ErrWriteCtrl) (fun _ => False).
Proof.
  intros Hr Hp.
  destruct (recvInts_reading s p rest _ Hr Hp) as (s1 & H1 & R1 & S1).
  unfold sshMuxHello. apply wp_bind. unfold wp at 1.
  change (len [muxMsgHello; muxVersion]) with 2 in H1. rewrite H1.
  change (negb (elem [muxMsgHello; muxVersion] 0 =? muxMsgHello)
          || negb (elem [muxMsgHello; muxVersion] 1 =? muxVersion)) with false.
  cbv iota zeta.
  eapply wp_mono; [apply (writePacket_reading _ s1 rest R1) | | auto | auto].
  intros _ s2 [R2 S2]. split; [exact R2|].
  eapply same_but_conn_trans; eassumption.
Qed.

(** The alive check on a reply that carries the three fields. *)
Lemma sshMuxAliveCheck_reading s p rest t rid pid :
  reading s (frame p ++ rest) -> carries p [t; rid; pid] ->
  wp sshMuxAliveCheck s
     (fun _ s' => t = muxIsAlive /\ rid = ctrlReqid s /\ reading s' rest /\
                  ctrlReqid s' = ctrlReqid s + 1 /\ term s' = term s)
     (fun e _ => e = ErrWriteCtrl \/
                 (t <> muxIsAlive /\ e = ErrExpectedAlive t) \/
                 (rid <> ctrlReqid s /\ e = ErrOutOfSequence t))
     (fun _ => False).
Proof.
  intros Hr Hp. unfold sshMuxAliveCheck. apply wp_bind, wp_get.
  cbv zeta. apply wp_bind.
  eapply wp_mono; [apply (writePacket_reading _ s _ Hr) | | auto | auto].
  intros _ s1 [R1 S1]. cbv beta.
  destruct (recvInts_reading s1 p rest _ R1 Hp) as (s2 & H2 & R2 & S2).
  apply wp_bind. unfold wp at 1.
  change (len [t; rid; pid]) with 3 in H2. rewrite H2.
  apply wp_bind, wp_get. cbn [elem nth].
  pose proof (same_but_conn_fields _ _ (same_but_conn_trans _ _ _ S1 S2))
    as (Hq & Ht & _).
  destruct (Z.eqb_spec t muxIsAlive) as [Et|Et]; cbn [negb].
  2:{ apply wp_fail. auto. }
  destruct (Z.eqb_spec rid (ctrlReqid s2)) as [Er|Er]; cbn [negb].
  2:{ apply wp_fail. right. right. split; [congruence | reflexivity]. }
  apply wp_modify. cbn.
  repeat split; try congruence.
  destruct R2 as (c & Hc & Hcl & Hin). exists c. cbn. auto.
Qed.

Lemma sshMuxNewSession_reading cmd s bytes :
  reading s bytes ->
  wp (sshMuxNewSession cmd) s
     (fun _ s' => reading s' bytes /\ same_but_conn s s')
     (fun e _ => e = ErrWriteCtrl) (fun _ => False).
Proof.
  intros Hr. unfold sshMuxNewSession. apply wp_bind, wp_get. cbv zeta.
  apply writePacket_reading, Hr.
Qed.

Ltac still_reading :=
  match goal with
  | H : reading _ _ |- _ =>
      let c := fresh "c" in
      let Hc := fresh "Hc" in
      let Hcl := fresh "Hcl" in
      let Hin := fresh "Hin" in
      destruct H as (c & Hc & Hcl & Hin);
      split; [exists c; cbn; auto | reflexivity]
  end.

Lemma keeps_reading_pickStdin : keeps_reading pickStdin.
Proof.
  intros [s o] bytes Hr. unfold wp, pickStdin. cbn [fst] in Hr.
  destruct (Stdin s); try (destruct (lmuxStdin s));
    try (destruct (os_Pipe o) as [[[r wr]|] o']);
    try reflexivity; still_reading.
Qed.

Lemma keeps_reading_pickStdout : keeps_reading pickStdout.
Proof.
  intros [s o] bytes Hr. unfold wp, pickStdout. cbn [fst] in Hr.
  destruct (Stdout s); try (destruct (lmuxStdout s));
    try (destruct (os_Pipe o) as [[[r wr]|] o']);
    try reflexivity; still_reading.
Qed.

Lemma keeps_reading_pickStderr : keeps_reading pickStderr.
Proof.
  intros [s o] bytes Hr. unfold wp, pickStderr. cbn [fst] in Hr.
  destruct (Stderr s); try (destruct (lmuxStderr s));
    try (destruct (os_Pipe o) as [[[r wr]|] o']);
    try reflexivity; still_reading.
Qed.

Lemma keeps_reading_fdPut (f : Session -> option fd) :
  keeps_reading (onSession (modify (fun s => fdPut (f s) s))).
Proof.
  intros [s o] bytes Hr. cbn [fst] in Hr.
  destruct Hr as (c & Hc & Hcl & Hin). unfold wp. cbn.
  unfold fdPut. rewrite Hc. split; [|reflexivity].
  eexists. cbn. eauto.
Qed.

(** The descriptor hand-off on a reply that carries the three fields. *)
Lemma sshMuxPassFileDescriptors_reading w p rest t rid sid :
  reading (fst w) (frame p ++ rest) -> carries p [t; rid; sid] ->
  wp sshMuxPassFileDescriptors w
     (fun _ w' => t = muxSessionOpened /\ rid = ctrlReqid (fst w))
     (fun e _ => e = ErrPipe \/
                 (t <> muxSessionOpened /\ e = ErrExpectedSessionOpened t) \/
                 (rid <> ctrlReqid (fst w) /\ e = ErrOutOfSequence t))
     (fun _ => False).
Proof.
  intros Hr Hp. unfold sshMuxPassFileDescriptors.
  apply wp_bind.
  eapply wp_mono; [apply (keeps_reading_pickStdin w _ Hr) | | auto | auto].
  intros _ w1 [R1 Q1]. apply wp_bind.
  eapply wp_mono; [apply (keeps_reading_pickStdout w1 _ R1) | | auto | auto].
  intros _ w2 [R2 Q2]. apply wp_bind.
  eapply wp_mono; [apply (keeps_reading_pickStderr w2 _ R2) | | auto | auto].
  intros _ w3 [R3 Q3]. apply wp_bind.
  eapply wp_mono; [apply (keeps_reading_fdPut rmuxStdin w3 _ R3) | | auto | auto].
  intros _ w4 [R4 Q4]. apply wp_bind.
  eapply wp_mono; [apply (keeps_reading_fdPut rmuxStdout w4 _ R4) | | auto | auto].
  intros _ w5 [R5 Q5]. apply wp_bind.
  eapply wp_mono; [apply (keeps_reading_fdPut rmuxStderr w5 _ R5) | | auto | auto].
  intros _ w6 [R6 Q6].
  assert (Q : ctrlReqid (fst w6) = ctrlReqid (fst w)) by congruence.
  destruct (recvInts_reading (fst w6) p rest _ R6 Hp) as (s7 & H7 & R7 & S7).
  apply wp_bind, wp_onSession. unfold wp at 1.
  change (len [t; rid; sid]) with 3 in H7. rewrite H7.
  apply wp_bind, wp_onSession, wp_get. cbn [elem nth fst snd].
  pose proof (same_but_conn_fields _ _ S7) as (Hq & _ & _).
  destruct (Z.eqb_spec t muxSessionOpened) as [Et|Et]; cbn [negb].
  2:{ apply wp_fail. auto. }
  destruct (Z.eqb_spec rid (ctrlReqid s7)) as [Er|Er]; cbn [negb].
  2:{ apply wp_fail. right. right. split; [congruence | reflexivity]. }
  apply wp_bind, wp_onSession, wp_modify. cbn.
  split; congruence.
Qed.

End HandshakeReplies.

(** C6: the hello step reads two [uint32] fields from the first packet and
    fails with the incompatible-hello error unless they are the hello type
    code and protocol version 4; when they are, the client answers by
    writing the same pair back, and returns nil when that write
    succeeds. *)
Theorem sshMuxHello_checks_greeting s c p rest a b :
  ctrlconn s = Some c -> closed c = false -> incoming c = frame p ++ rest ->
  carries p [a; b] ->
  ((a, b) <> (muxMsgHello, muxVersion) ->
   sshMuxHello s =
   Err ErrIncompatibleHello (set_ctrlconn (Some (set_incoming rest c)) s)) /\
  ((a, b) = (muxMsgHello, muxVersion) ->
   sshMuxHello s =
   writePacket (uint32s [a; b]) (set_ctrlconn (Some (set_incoming rest c)) s) /\
   (hd false (write_errs c) = false ->
    sshMuxHello s =
    Ret tt (set_ctrlconn
              (Some (set_write_errs (tl (write_errs c))
                       (set_written (written c ++ [frame (uint32s [a; b])])
                          (set_incoming rest c))))
              s))).
Proof.
  intros Hc Hcl Hin Hp.
  pose proof (recvInts_frame s c p rest [a; b] Hc Hcl Hin Hp) as Hrecv.
  change (len [a; b]) with 2 in Hrecv.
  assert (Hhello : (a, b) = (muxMsgHello, muxVersion) ->
            sshMuxHello s =
            writePacket (uint32s [a; b]) (set_ctrlconn (Some (set_incoming rest c)) s)).
  { intros E. injection E as -> ->.
    unfold sshMuxHello, bind. rewrite Hrecv. reflexivity. }
  split.
  - intros Hne. unfold sshMuxHello, bind. rewrite Hrecv. cbn [elem nth].
    destruct (Z.eqb_spec a muxMsgHello) as [->|]; [|reflexivity].
    destruct (Z.eqb_spec b muxVersion) as [->|]; [|reflexivity].
    now contradiction Hne.
  - intros E. split; [now apply Hhello|]. intros Hw.
    rewrite (Hhello E).
    rewrite (writePacket_ok _ (set_incoming rest c)); try assumption; reflexivity.
Qed.

Lemma sshMuxHello_checks_greeting_witness :
  sshMuxHello (attached (masterSends (frame (uint32s [1; 4])) Silent) 0) =
  Ret tt (attached (mkConn [] Silent [frame (uint32s [1; 4])] [] [] false) 0)
  /\
  sshMuxHello (attached (masterSends (frame (uint32s [1; 3])) Silent) 0) =
  Err ErrIncompatibleHello (attached (masterSends [] Silent) 0).
Proof.
  split.
  - refine (proj2 (proj2 (sshMuxHello_checks_greeting
      (attached (masterSends (frame (uint32s [1; 4])) Silent) 0)
      (masterSends (frame (uint32s [1; 4])) Silent)
      (uint32s [1; 4]) [] 1 4 eq_refl eq_refl eq_refl _) eq_refl) eq_refl).
    split; [reflexivity|].
    split; [repeat (apply Forall_cons; [in_range|]); apply Forall_nil|].
    exists []. reflexivity.
  - refine (proj1 (sshMuxHello_checks_greeting
      (attached (masterSends (frame (uint32s [1; 3])) Silent) 0)
      (masterSends (frame (uint32s [1; 3])) Silent)
      (uint32s [1; 3]) [] 1 3 eq_refl eq_refl eq_refl _) _).
    + split; [reflexivity|].
      split; [repeat (apply Forall_cons; [in_range|]); apply Forall_nil|].
      exists []. reflexivity.
    + discriminate.
Defined.

(** A handshake in which the alive reply echoes request id 5, evaluated:
    the client has written its hello and the alive check with request id
    0, and returns the out-of-sequence error although the master then
    stays silent. *)
Lemma handshake_out_of_sequence :
  exists w',
    requestMuxSession "ls"
      (attached (masterSends (frame (uint32s [muxMsgHello; muxVersion]) ++
                              frame (uint32s [muxIsAlive; 5; 4242]))
                             Silent) 0,
       process0 (masterSends [] Eof)) = Err (ErrOutOfSequence muxIsAlive) w' /\
    writes_of (fst w') =
      [frame (uint32s [muxMsgHello; muxVersion]);
       frame (uint32s [muxAliveCheck; 0])].
Proof. eexists. split; vm_compute; reflexivity. Qed.

(* ===================================================================== *)
(** * Properties: the Session API *)
(* ===================================================================== *)

Section Teardown.

(** [Close] on any session: the closing part always runs; the call returns
    nil when the abort slot exists and is empty, and does not return
    otherwise. *)
Lemma Close_outcome w :
  Close w =
  match chan_send true (aborted (fst w)) with
  | Some ch => Ret tt (set_aborted ch (fst (torn_down w)), snd (torn_down w))
  | None => Block (torn_down w)
  end.
Proof.
  destruct w as [s o]. unfold Close, torn_down, bind, onSession, onOS, get,
    modify, ret, sendAborted, ctrlClose. cbn [fst snd].
  destruct (ctrlconn s) as [c|] eqn:Hc; cbn [fst snd];
    destruct (lmuxStderr s) as [fe|] eqn:He; cbn [fst snd];
    destruct (lmuxStdout s) as [fo|] eqn:Ho; cbn [fst snd];
    rewrite ?Hc, ?He, ?Ho; cbn [fst snd aborted set_ctrlconn];
    destruct (chan_send true (aborted s)); reflexivity.
Qed.

Lemma Close_nil_aborted w :
  aborted (fst w) = None -> Close w = Block (torn_down w).
Proof. intros H. rewrite Close_outcome, H. reflexivity. Qed.

Lemma keeps_aborted_bind {A B} (m : M (Session * OS) A) (k : A -> M (Session * OS) B) :
  keeps_aborted m -> (forall a, keeps_aborted (k a)) ->
  keeps_aborted (bind m k).
Proof.
  intros Hm Hk w. unfold bind. specialize (Hm w).
  destruct (m w) as [a w1|e w1|w1]; cbn [final] in *; try assumption.
  now rewrite Hk.
Qed.

Lemma keeps_aborted_ret {A} (a : A) : keeps_aborted (ret a).
Proof. intros w. reflexivity. Qed.

Lemma keeps_aborted_fail {A} e : keeps_aborted (@fail _ A e).
Proof. intros w. reflexivity. Qed.

Lemma keeps_aborted_onOS f : keeps_aborted (onOS f).
Proof. intros w. reflexivity. Qed.

Lemma keeps_aborted_go g : keeps_aborted (go g).
Proof. intros w. reflexivity. Qed.

Lemma keeps_aborted_get : keeps_aborted (onSession get).
Proof. intros w. reflexivity. Qed.

Lemma keeps_aborted_modify f :
  (forall s, aborted (f s) = aborted s) ->
  keeps_aborted (onSession (modify f)).
Proof. intros H w. cbn. apply H. Qed.

Lemma keeps_aborted_conn_only {A} (m : M Session A) :
  conn_only m -> keeps_aborted (onSession m).
Proof.
  intros H w. specialize (H (fst w)). destruct H as [oc Hoc].
  unfold onSession. destruct (m (fst w)); cbn in *; now subst.
Qed.

Lemma writePacket_conn_only req : conn_only (writePacket req).
Proof.
  intros s. unfold writePacket, ctrlWrite.
  destruct (ctrlconn s) as [c|] eqn:Hc.
  - destruct (Conn.Write _ c); eexists; reflexivity.
  - exists None. cbn. rewrite <- Hc. symmetry. apply set_ctrlconn_same.
Qed.

Lemma recvInts_conn_only count : conn_only (recvInts count).
Proof.
  unfold recvInts. apply bind_conn_only; [apply readPacket_conn_only|].
  intros p. destruct (popInts _ p []); [apply ret_conn_only | apply fail_conn_only].
Qed.

Lemma sshMuxHello_conn_only : conn_only sshMuxHello.
Proof.
  unfold sshMuxHello. apply bind_conn_only; [apply recvInts_conn_only|].
  intros msgs. destruct (_ || _); [apply fail_conn_only | apply writePacket_conn_only].
Qed.

Lemma sshMuxNewSession_conn_only cmd : conn_only (sshMuxNewSession cmd).
Proof.
  unfold sshMuxNewSession. intros s. unfold bind, get.
  apply writePacket_conn_only.
Qed.

Lemma keeps_aborted_sshMuxAliveCheck : keeps_aborted (onSession sshMuxAliveCheck).
Proof.
  intros w. unfold onSession, sshMuxAliveCheck, bind, get.
  destruct (writePacket_conn_only
              (Marshal.muxMsg (mkMuxMsg muxAliveCheck (uint32 (ctrlReqid (fst w)))))
              (fst w)) as [oc1 H1].
  destruct (writePacket _ (fst w)) as [a s1|e s1|s1]; cbn in H1; subst;
    try reflexivity.
  destruct (recvInts_conn_only 3 (set_ctrlconn oc1 (fst w))) as [oc2 H2].
  destruct (recvInts 3 _) as [msgs s2|e s2|s2]; cbn in H2; subst;
    try reflexivity.
  destruct (negb _); [reflexivity|].
  destruct (negb _); reflexivity.
Qed.

Lemma keeps_aborted_pick :
  keeps_aborted pickStdin /\ keeps_aborted pickStdout /\ keeps_aborted pickStderr.
Proof.
  repeat split; intros [s o];
    [unfold pickStdin; destruct (Stdin s); try reflexivity; destruct (lmuxStdin s)
    |unfold pickStdout; destruct (Stdout s); try reflexivity; destruct (lmuxStdout s)
    |unfold pickStderr; destruct (Stderr s); try reflexivity; destruct (lmuxStderr s)];
    try reflexivity; destruct (os_Pipe o) as [[[r wr]|] o']; reflexivity.
Qed.

Lemma fdPut_aborted f s : aborted (fdPut f s) = aborted s.
Proof. unfold fdPut. destruct (ctrlconn s); reflexivity. Qed.

Lemma keeps_aborted_sshMuxPassFileDescriptors :
  keeps_aborted sshMuxPassFileDescriptors.
Proof.
  destruct keeps_aborted_pick as (Hin & Hout & Herr).
  unfold sshMuxPassFileDescriptors.
  repeat (apply keeps_aborted_bind;
          [first [ assumption
                 | apply keeps_aborted_modify; intros; apply fdPut_aborted
                 | apply keeps_aborted_conn_only, recvInts_conn_only
                 | apply keeps_aborted_get ]
          | intros ]).
  destruct (negb _); [apply keeps_aborted_fail|].
  destruct (negb _); [apply keeps_aborted_fail|].
  apply keeps_aborted_bind; [|intros];
    apply keeps_aborted_modify; reflexivity.
Qed.

Lemma keeps_aborted_makeRawTerm : keeps_aborted makeRawTerm.
Proof.
  intros w. unfold makeRawTerm.
  destruct (tty_makeraw (snd w)); [destruct (tty_state (snd w))|];
    try destruct (negb _); reflexivity.
Qed.

Lemma keeps_aborted_closeRemote l r : keeps_aborted (closeRemote l r).
Proof.
  intros [s o]. unfold closeRemote.
  destruct (l s); [destruct (r s)|]; reflexivity.
Qed.

Lemma keeps_aborted_requestMuxSession cmd : keeps_aborted (requestMuxSession cmd).
Proof.
  unfold requestMuxSession.
  apply keeps_aborted_bind; [apply keeps_aborted_modify; reflexivity | intros].
  apply keeps_aborted_bind;
    [apply keeps_aborted_conn_only, sshMuxHello_conn_only | intros].
  apply keeps_aborted_bind; [apply keeps_aborted_sshMuxAliveCheck | intros].
  apply keeps_aborted_bind;
    [apply keeps_aborted_conn_only, sshMuxNewSession_conn_only | intros].
  apply keeps_aborted_bind; [apply keeps_aborted_sshMuxPassFileDescriptors | intros].
  apply keeps_aborted_bind; [apply keeps_aborted_get | intros].
  apply keeps_aborted_bind;
    [destruct (negb _); [apply keeps_aborted_makeRawTerm | apply keeps_aborted_ret]
    | intros].
  repeat (apply keeps_aborted_bind; [apply keeps_aborted_closeRemote | intros]).
  apply keeps_aborted_closeRemote.
Qed.

Lemma keeps_aborted_openCtrlConn : keeps_aborted openCtrlConn.
Proof. intros [s o]. unfold openCtrlConn. destruct (master o); reflexivity. Qed.

Lemma keeps_aborted_goAll fns : keeps_aborted (goAll fns).
Proof.
  induction fns as [|fn rest IH]; cbn [goAll].
  - apply keeps_aborted_ret.
  - apply keeps_aborted_bind; [apply keeps_aborted_go | intros; exact IH].
Qed.

Lemma keeps_aborted_start : keeps_aborted start.
Proof.
  unfold start, stdin, stdout, stderr.
  apply keeps_aborted_bind; [apply keeps_aborted_modify; reflexivity | intros].
  apply keeps_aborted_bind.
  { apply keeps_aborted_bind; [apply keeps_aborted_get | intros s].
    destruct (stdinpipe s); [apply keeps_aborted_ret|].
    destruct (Stdin s);
      repeat (apply keeps_aborted_bind;
              [first [apply keeps_aborted_go
                     | apply keeps_aborted_modify; reflexivity] | intros]);
      apply keeps_aborted_modify; reflexivity. }
  intros. apply keeps_aborted_bind.
  { apply keeps_aborted_bind; [apply keeps_aborted_get | intros s].
    destruct (stdoutpipe s); [apply keeps_aborted_ret|].
    apply keeps_aborted_bind;
      [destruct (Stdout s);
       first [apply keeps_aborted_ret | apply keeps_aborted_modify; reflexivity]
      | intros; apply keeps_aborted_modify; reflexivity]. }
  intros. apply keeps_aborted_bind.
  { apply keeps_aborted_bind; [apply keeps_aborted_get | intros s].
    destruct (stderrpipe s); [apply keeps_aborted_ret|].
    apply keeps_aborted_bind;
      [destruct (Stderr s);
       first [apply keeps_aborted_ret | apply keeps_aborted_modify; reflexivity]
      | intros; apply keeps_aborted_modify; reflexivity]. }
  intros. apply keeps_aborted_bind; [apply keeps_aborted_modify; reflexivity | intros].
  apply keeps_aborted_bind; [apply keeps_aborted_get | intros s].
  apply keeps_aborted_goAll.
Qed.

(** [Shell] never makes the abort channel. *)
Lemma keeps_aborted_Shell : keeps_aborted Shell.
Proof.
  unfold Shell.
  apply keeps_aborted_bind; [apply keeps_aborted_get | intros s].
  destruct (started s); [apply keeps_aborted_fail|].
  apply keeps_aborted_bind; [apply keeps_aborted_openCtrlConn | intros].
  apply keeps_aborted_bind; [apply keeps_aborted_requestMuxSession | intros].
  apply keeps_aborted_bind; [apply keeps_aborted_modify; reflexivity | intros].
  apply keeps_aborted_bind; [apply keeps_aborted_go | intros].
  apply keeps_aborted_start.
Qed.

(** [Start] makes it, empty, with room for one signal. *)
Lemma Start_makes_aborted cmd w w' :
  Start cmd w = Ret tt w' -> aborted (fst w') = make_chan 1.
Proof.
  unfold Start, bind at 1, onSession at 1, get. cbn [fst snd].
  destruct (started (fst w)); [discriminate|].
  unfold bind at 1.
  destruct (openCtrlConn _) as [[] w1|e w1|w1]; try discriminate.
  unfold bind at 1.
  destruct (requestMuxSession cmd w1) as [[] w2|e w2|w2]; try discriminate.
  unfold bind at 1. cbn [onSession modify fst snd].
  unfold bind at 1. cbn [onSession modify fst snd].
  unfold bind at 1. cbn [go onOS fst snd].
  intros H.
  pose proof (keeps_aborted_start
                (set_aborted (make_chan 1) (set_exitStatus (make_chan 1) (fst w2)),
                 set_goroutines (goroutines (snd w2) ++ [GoWait]) (snd w2))) as K.
  rewrite H in K. exact K.
Qed.

End Teardown.

(** C2 on the code: [Close] closes the control connection and the local
    ends of the output relays on every session, but it posts the abort
    signal and returns nil only where [Start] has made the abort channel.
    On a session that was never started, and on a session started with
    [Shell] (which does not make the channel), the send blocks for ever and
    [Close] does not return; after a successful [Start], [Close] returns
    nil with the signal buffered. *)
Theorem Close_blocks_without_Start :
  (forall path o,
     Close (NewSession path, o) = Block (torn_down (NewSession path, o))) /\
  (forall w w',
     aborted (fst w) = None ->
     Shell w = Ret tt w' ->
     Close w' = Block (torn_down w') /\ aborted (fst (torn_down w')) = None) /\
  (forall cmd w w',
     Start cmd w = Ret tt w' ->
     Close w' =
     Ret tt (set_aborted (Some (mkChan 1 [true])) (fst (torn_down w')),
             snd (torn_down w'))).
Proof.
  split; [|split].
  - intros path o. apply Close_nil_aborted. reflexivity.
  - intros w w' Hnil H.
    assert (Ha : aborted (fst w') = None).
    { pose proof (keeps_aborted_Shell w) as K.
      rewrite H in K. cbn [final] in K. congruence. }
    split; [now apply Close_nil_aborted|].
    unfold torn_down, ctrlClose. cbn [fst].
    destruct (ctrlconn (fst w')); exact Ha.
  - intros cmd w w' H. rewrite Close_outcome.
    rewrite (Start_makes_aborted cmd w w' H). reflexivity.
Qed.

Lemma Close_blocks_without_Start_witness :
  exists w',
    Shell (NewSession "ctl", process0 (masterSends (master_script 7) Silent)) =
      Ret tt w' /\
    Close w' = Block (torn_down w') /\
    aborted (fst (torn_down w')) = None /\
    (exists c, ctrlconn (fst (torn_down w')) = Some c /\ closed c = true).
Proof.
  eexists. split; [vm_compute; reflexivity|].
  split; [|split].
  - refine (proj1 (proj1 (proj2 Close_blocks_without_Start)
             (NewSession "ctl", process0 (masterSends (master_script 7) Silent))
             _ eq_refl _)).
    vm_compute. reflexivity.
  - reflexivity.
  - eexists. split; reflexivity.
Defined.

Section TerminalType.

Lemma ctrlRead_ignores_term n : ignores_term (ctrlRead n).
Proof.
  intros t' s. unfold ctrlRead. cbn [ctrlconn set_term].
  destruct (ctrlconn s) as [c|]; [|destruct (n <=? 0); reflexivity].
  destruct (Conn.ReadAtLeast n c); reflexivity.
Qed.

Lemma readPacket_ignores_term : ignores_term readPacket.
Proof.
  intros t' s. unfold readPacket, bind.
  rewrite ctrlRead_ignores_term.
  destruct (ctrlRead 4 s) as [lenbuf s1|e s1|s1]; cbn [map_final]; try reflexivity.
  rewrite ctrlRead_ignores_term.
  destruct (ctrlRead _ s1) as [p s2|e s2|s2]; reflexivity.
Qed.

Lemma wait_loop_ignores_term wm seen :
  ignores_term (fun s => wait_loop s wm seen).
Proof.
  intros t' s. revert s wm seen.
  apply (wait_loop_ind (fun s wm seen out =>
           wait_loop (set_term t' s) wm seen = map_final (set_term t') out)).
  - intros s wm seen s1 H.
    rewrite wait_loop_step, readPacket_ignores_term, H. reflexivity.
  - intros s wm seen e s1 H.
    rewrite wait_loop_step, readPacket_ignores_term, H. cbn [map_final].
    destruct (is_panic e); reflexivity.
  - intros s wm seen buf s1 v e b H Hp.
    rewrite wait_loop_step, readPacket_ignores_term, H. cbn [map_final].
    rewrite Hp. reflexivity.
  - intros s wm seen buf s1 mtype buf1 H Hp d IH.
    rewrite wait_loop_step, readPacket_ignores_term, H. cbn [map_final].
    rewrite Hp. exact IH.
Qed.

Lemma wait_ignores_term : ignores_term wait.
Proof.
  intros t' s. rewrite !wait_final, wait_loop_ignores_term.
  destruct (wait_loop s wm0 false) as [r s1|e s1|s1]; cbn [map_final];
    try reflexivity.
  destruct (status (fst r) =? 0); [reflexivity|].
  destruct (status (fst r) =? -1); [reflexivity|].
  cbn [map_final]. f_equal. unfold ctrlClose. cbn [ctrlconn set_term].
  destruct (ctrlconn s1); reflexivity.
Qed.

Lemma readerTask_ignores_term : ignores_term readerTask.
Proof.
  intros t' s. unfold readerTask.
  pose proof (wait_ignores_term t' s) as E. rewrite !E. clear E.
  destruct (wait s) as [a s1|e s1|s1]; cbn.
  - destruct (chan_send None (exitStatus s1)); reflexivity.
  - destruct (is_panic e); [reflexivity|].
    destruct (chan_send (Some e) (exitStatus s1)); reflexivity.
  - reflexivity.
Qed.

Lemma drainErrors_ignores_term fns : forall acc,
  ignores_term (drainErrors fns acc).
Proof.
  induction fns as [|fn rest IH]; intros acc t' s; cbn [drainErrors].
  - reflexivity.
  - cbn [errors set_term].
    destruct (chan_recv (errors s)) as [[err ch]|]; [|reflexivity].
    apply (IH _ t' (set_errors ch s)).
Qed.

Lemma Wait_steps pick s :
  Wait pick s =
  if negb (started s) then Err ErrNotStarted s
  else
    match selectExit pick s with
    | Ret waitErr s1 =>
        let s2 := match stdinPipeWriter s1 with
                  | Some _ => set_stdinPipeWriter (Some true) s1
                  | None => s1
                  end in
        match drainErrors (copyFuncs s2) None s2 with
        | Ret copyError s3 =>
            match waitErr with
            | Some e => Err e s3
            | None =>
                match copyError with
                | Some e => Err e s3
                | None => Ret tt s3
                end
            end
        | Err e s3 => Err e s3
        | Block s3 => Block s3
        end
    | Err e s1 => Err e s1
    | Block s1 => Block s1
    end.
Proof.
  unfold Wait, bind, get.
  destruct (negb (started s)); [reflexivity|].
  destruct (selectExit pick s) as [waitErr s1|e s1|s1]; try reflexivity.
  destruct (stdinPipeWriter s1); cbn [modify ret];
    destruct (drainErrors _ None _) as [ce s3|e s3|s3]; try reflexivity;
    destruct waitErr; try reflexivity; destruct ce; reflexivity.
Qed.

Lemma selectExit_ignores_term pick : ignores_term (selectExit pick).
Proof.
  intros t' s. unfold selectExit. cbn [exitStatus aborted set_term].
  destruct (chan_recv (exitStatus s)) as [[o ch]|];
    destruct (chan_recv (aborted s)) as [[b ch']|];
    try destruct pick; reflexivity.
Qed.

Lemma Wait_ignores_term pick : ignores_term (Wait pick).
Proof.
  intros t' s. rewrite !Wait_steps. cbn [started set_term].
  destruct (negb (started s)); [reflexivity|].
  rewrite selectExit_ignores_term.
  destruct (selectExit pick s) as [waitErr s1|e s1|s1]; cbn [map_final];
    try reflexivity.
  cbv zeta. cbn [stdinPipeWriter set_term].
  destruct (stdinPipeWriter s1) as [b|].
  - change (set_stdinPipeWriter (Some true) (set_term t' s1))
      with (set_term t' (set_stdinPipeWriter (Some true) s1)).
    cbn [copyFuncs set_term]. rewrite drainErrors_ignores_term.
    cbn [copyFuncs set_stdinPipeWriter].
    destruct (drainErrors _ None _) as [ce s3|e s3|s3]; cbn [map_final];
      try reflexivity.
    destruct waitErr; [reflexivity|]. destruct ce; reflexivity.
  - cbn [copyFuncs set_term]. rewrite drainErrors_ignores_term.
    destruct (drainErrors _ None _) as [ce s3|e s3|s3]; cbn [map_final];
      try reflexivity.
    destruct waitErr; [reflexivity|]. destruct ce; reflexivity.
Qed.

Lemma Close_ignores_term t' s o :
  Close (set_term t' s, o) =
  map_final (fun w => (set_term t' (fst w), snd w)) (Close (s, o)).
Proof.
  rewrite !Close_outcome. unfold torn_down, ctrlClose.
  cbn [fst snd aborted set_term lmuxStderr lmuxStdout ctrlconn].
  destruct (chan_send true (aborted s)); cbn [map_final fst snd];
    destruct (ctrlconn s); reflexivity.
Qed.

End TerminalType.

(** C10: [RequestPty] never returns an error and checks no state: on any
    session, started or not, it returns nil and overwrites the recorded
    terminal type, leaving every other field alone.  The terminal type is
    read by the handshake only (it goes into the session request): the
    reader, [Wait] and [Close] run the same whatever its value. *)
Theorem RequestPty_unconditional (term' : string) (s : Session) :
  RequestPty term' s = Ret tt (set_term term' s) /\
  (forall cmd,
     nm_Term (newSessionMsg (set_term term' s) cmd) = term' /\
     nm_TtyFlags (newSessionMsg (set_term term' s) cmd) =
       if String.eqb term' EmptyString then 0 else 1) /\
  wait (set_term term' s) = map_final (set_term term') (wait s) /\
  readerTask (set_term term' s) = map_final (set_term term') (readerTask s) /\
  (forall pickAborted,
     Wait pickAborted (set_term term' s) =
     map_final (set_term term') (Wait pickAborted s)) /\
  (forall o,
     Close (set_term term' s, o) =
     map_final (fun w => (set_term term' (fst w), snd w)) (Close (s, o))).
Proof.
  split; [reflexivity|].
  split.
  { intros cmd. unfold newSessionMsg. cbn [term set_term nm_Term nm_TtyFlags].
    destruct (String.eqb_spec term' EmptyString) as [->|]; split; reflexivity. }
  split; [apply wait_ignores_term|].
  split; [apply readerTask_ignores_term|].
  split; [intros pick; apply Wait_ignores_term | intros o; apply Close_ignores_term].
Qed.

(** A terminal type requested after [Shell] has succeeded is accepted and
    recorded. *)
Lemma RequestPty_after_Shell :
  exists w',
    Shell (NewSession "ctl", process0 (masterSends (master_script 7) Silent)) =
      Ret tt w' /\
    started (fst w') = true /\
    RequestPty "xterm" (fst w') = Ret tt (set_term "xterm" (fst w')).
Proof.
  eexists. split; [vm_compute; reflexivity|].
  split; reflexivity.
Qed.

(* ===================================================================== *)
(** * Further properties: codec and transport *)
(* ===================================================================== *)

Section MoreCodec.

Lemma popInts_length count : forall packet acc msgs,
  popInts count packet acc = inl msgs ->
  List.length msgs = (List.length acc + count)%nat.
Proof.
  induction count as [|n IH]; intros packet acc msgs H; cbn [popInts] in H.
  - injection H as <-. lia.
  - destruct (packetPopInt packet) as [[v [e|]] rest]; [discriminate|].
    apply IH in H. rewrite H, length_app. cbn. lia.
Qed.

End MoreCodec.

(** X1: when [recvInts(count)] returns without error it returns exactly
    [count] values (none for a count below 1), so the indexing [msgs[0]],
    [msgs[1]], [msgs[2]] of its callers never goes out of range. *)
Theorem recvInts_returns_count count s msgs s' :
  recvInts count s = Ret msgs s' ->
  List.length msgs = Z.to_nat count /\
  (forall i, (i < Z.to_nat count)%nat -> nth_error msgs i <> None).
Proof.
  unfold recvInts, bind. intros H.
  destruct (readPacket s) as [packet s1|e s1|s1]; try discriminate.
  destruct (popInts (Z.to_nat count) packet []) as [l|e] eqn:Hp;
    [|discriminate].
  injection H as <- _.
  apply popInts_length in Hp. cbn in Hp. split; [exact Hp|].
  intros i Hi. apply nth_error_Some. lia.
Qed.

Lemma recvInts_returns_count_witness :
  List.length [muxIsAlive; 0; 4242] = Z.to_nat 3.
Proof.
  refine (proj1 (recvInts_returns_count 3
    (attached (masterSends (frame (uint32s [muxIsAlive; 0; 4242])) Eof) 0)
    [muxIsAlive; 0; 4242] (attached (masterSends [] Eof) 0) _)).
  vm_compute. reflexivity.
Defined.

(** X2: the fixed-shape request the client marshals is read back field by
    field by its own decoder: popping two integers from a marshalled
    [muxMsg] gives its request code and its parameter (as [uint32]) and
    leaves nothing. *)
Theorem muxMsg_round_trip (m : muxMsg) :
  popInts 2 (Marshal.muxMsg m) [] =
    inl [mm_Request m mod 2 ^ 32; mm_Param m mod 2 ^ 32] /\
  popInts 3 (Marshal.muxMsg m) [] = inr ErrBufferTooShort /\
  len (Marshal.muxMsg m) = 8.
Proof.
  unfold Marshal.muxMsg, Marshal.u32. split; [|split].
  - cbn [popInts]. rewrite packetPopInt_PutUint32.
    rewrite <- (app_nil_r (BigEndian.PutUint32 (mm_Param m))).
    rewrite packetPopInt_PutUint32. reflexivity.
  - apply popInts_short. reflexivity.
  - reflexivity.
Qed.

(** X3: the session request starts with the type code [muxNewSession] and
    the session's current request id, then an empty reserved string; its
    length is 40 bytes plus the lengths of the terminal type and of the
    command (below [2^32]). *)
Theorem newSessionMsg_layout s cmd :
  0 <= ctrlReqid s < 2 ^ 32 ->
  popInts 3 (Marshal.muxNewSessionMsg (newSessionMsg s cmd)) [] =
    inl [muxNewSession; ctrlReqid s; 0] /\
  len (Marshal.muxNewSessionMsg (newSessionMsg s cmd)) =
    40 + len (list_byte_of_string (term s)) + len (list_byte_of_string cmd).
Proof.
  intros Hr. unfold Marshal.muxNewSessionMsg, Marshal.u32, Marshal.str.
  split.
  - cbn [popInts nm_Request nm_RequestId nm_ReservedStr newSessionMsg].
    rewrite packetPopInt_PutUint32, packetPopInt_PutUint32.
    change (list_byte_of_string EmptyString) with (@nil byte).
    rewrite <- app_assoc, packetPopInt_PutUint32.
    unfold uint32. rewrite !Z.mod_mod by lia.
    rewrite (Z.mod_small (ctrlReqid s)) by assumption. reflexivity.
  - cbn [nm_Request nm_RequestId nm_ReservedStr nm_TtyFlags nm_ForwardX11
           nm_ForwardAgent nm_SubSystemFlag nm_EscapeChar nm_Term nm_Command
           newSessionMsg].
    rewrite !len_app, !len_PutUint32.
    change (len (list_byte_of_string EmptyString)) with 0.
    destruct (String.eqb_spec (term s) EmptyString) as [->|]; cbn [negb];
      change (len (list_byte_of_string EmptyString)) with 0; lia.
Qed.

Lemma newSessionMsg_layout_witness :
  len (Marshal.muxNewSessionMsg
         (newSessionMsg (set_term "xterm" (set_ctrlReqid 1 (NewSession "ctl"))) "ls")) =
  47.
Proof.
  refine (proj2 (newSessionMsg_layout
    (set_term "xterm" (set_ctrlReqid 1 (NewSession "ctl"))) "ls" _)).
  in_range.
Defined.

(** X4: [readPacket] only ever returns whole frames: when it returns a
    packet, the connection held a 4-byte prefix announcing the length of
    that packet, followed by the packet; exactly these bytes were consumed
    and nothing was written. *)
Theorem readPacket_whole_frame s c p s' :
  ctrlconn s = Some c ->
  readPacket s = Ret p s' ->
  exists prefix c',
    s' = set_ctrlconn (Some c') s /\
    incoming c = prefix ++ p ++ incoming c' /\
    List.length prefix = 4%nat /\
    bigEndianValue prefix = len p /\
    written c' = written c /\ closed c' = closed c.
Proof.
  intros Hc. unfold readPacket, bind, ctrlRead, ret. rewrite Hc.
  destruct (Conn.ReadAtLeast 4 c) as [lenbuf c1| |] eqn:H1; try discriminate.
  cbn [ctrlconn set_ctrlconn].
  destruct (Conn.ReadAtLeast _ c1) as [q c2| |] eqn:H2; try discriminate.
  intros H; injection H as <- <-.
  apply ReadAtLeast_ok in H1 as (H4 & -> & ->).
  apply ReadAtLeast_ok in H2 as (Hn & -> & ->).
  cbn [incoming set_incoming] in *.
  exists (firstn 4 (incoming c)). eexists.
  split; [reflexivity|]. cbn [incoming set_incoming written closed].
  change (Z.to_nat 4) with 4%nat in *.
  destruct (four_bytes (incoming c) H4) as (b0 & b1 & b2 & b3 & rest & E).
  rewrite E in *. cbn [firstn skipn] in *.
  unfold int_of_uint32 in *. rewrite Uint32_cons4 in *.
  pose proof (bigEndianValue4_range b0 b1 b2 b3) as Hr.
  split.
  { cbn [app]. do 4 f_equal. symmetry. apply firstn_skipn. }
  split; [reflexivity|].
  split; [|split; reflexivity].
  unfold len in *. rewrite length_firstn. lia.
Qed.

Lemma readPacket_whole_frame_witness :
  exists prefix c',
    attached (masterSends [Byte.x07] Eof) 0 =
      set_ctrlconn (Some c')
        (attached (masterSends (frame (uint32s [5]) ++ [Byte.x07]) Eof) 0) /\
    frame (uint32s [5]) ++ [Byte.x07] = prefix ++ uint32s [5] ++ incoming c' /\
    List.length prefix = 4%nat /\
    bigEndianValue prefix = len (uint32s [5]) /\
    written c' = [] /\ closed c' = false.
Proof.
  refine (readPacket_whole_frame
    (attached (masterSends (frame (uint32s [5]) ++ [Byte.x07]) Eof) 0)
    (masterSends (frame (uint32s [5]) ++ [Byte.x07]) Eof)
    (uint32s [5]) (attached (masterSends [Byte.x07] Eof) 0) eq_refl _).
  vm_compute. reflexivity.
Defined.

(** X5: a truncated frame is never returned as a packet.  When the stream
    holds fewer than 4 bytes, or a length prefix followed by fewer bytes
    than it announces, [readPacket] fails with the read error if the
    stream has ended, and does not return while the master stays silent. *)
Theorem readPacket_truncated s c :
  ctrlconn s = Some c -> closed c = false ->
  (len (incoming c) < 4 \/
   exists prefix body,
     incoming c = prefix ++ body /\ List.length prefix = 4%nat /\
     len body < bigEndianValue prefix) ->
  match peer c with
  | Eof => readPacket s = Err ErrReadCtrl (set_ctrlconn (Some (set_incoming [] c)) s)
  | Silent => readPacket s = Block (set_ctrlconn (Some (set_incoming [] c)) s)
  end.
Proof.
  intros Hc Hcl Hshort. unfold readPacket, bind.
  destruct Hshort as [H4 | (prefix & body & Hin & Hp & Hlen)].
  - unfold ctrlRead, Conn.ReadAtLeast. rewrite Hc, Hcl.
    change (4 <=? 0) with false. cbv iota.
    destruct (Z.leb_spec 4 (len (incoming c))); [lia|].
    destruct (peer c); reflexivity.
  - destruct (length4_inv prefix Hp) as (b0 & b1 & b2 & b3 & ->).
    pose proof (len_nonneg body) as Hb.
    rewrite (ctrlRead_ok s c 4 Hc Hcl)
      by (rewrite Hin, len_app; unfold len at 1; cbn [List.length]; lia).
    rewrite Hin. change (Z.to_nat 4) with 4%nat. cbn [app firstn skipn].
    unfold int_of_uint32. rewrite Uint32_cons4.
    unfold ctrlRead, Conn.ReadAtLeast.
    cbn [ctrlconn set_ctrlconn closed incoming set_incoming peer].
    rewrite Hcl.
    destruct (Z.leb_spec (bigEndianValue [b0; b1; b2; b3]) 0); [lia|].
    destruct (Z.leb_spec (bigEndianValue [b0; b1; b2; b3]) (len body)); [lia|].
    destruct (peer c); reflexivity.
Qed.

Lemma readPacket_truncated_witness :
  readPacket (attached (masterSends [Byte.x00; Byte.x00; Byte.x00; Byte.x08;
                                     Byte.x01; Byte.x02] Eof) 0) =
  Err ErrReadCtrl (attached (masterSends [] Eof) 0).
Proof.
  refine (readPacket_truncated
    (attached (masterSends [Byte.x00; Byte.x00; Byte.x00; Byte.x08;
                            Byte.x01; Byte.x02] Eof) 0)
    (masterSends [Byte.x00; Byte.x00; Byte.x00; Byte.x08;
                  Byte.x01; Byte.x02] Eof) eq_refl eq_refl _).
  right. exists [Byte.x00; Byte.x00; Byte.x00; Byte.x08], [Byte.x01; Byte.x02].
  split; [reflexivity|]. split; [reflexivity|]. vm_compute. reflexivity.
Defined.

(* ===================================================================== *)
(** * Further properties: the exit-status reader *)
(* ===================================================================== *)

Section ReaderRuns.

Lemma ReadAtLeast_keeps n c :
  match Conn.ReadAtLeast n c with
  | IoOk _ c' | IoErr c' => exists l, c' = set_incoming l c
  | IoBlock c' => (exists l, c' = set_incoming l c) /\ peer c = Silent
  end.
Proof.
  unfold Conn.ReadAtLeast.
  destruct (n <=? 0); [exists (incoming c); now destruct c|].
  destruct (closed c) eqn:Hcl; [exists (incoming c); now destruct c|].
  destruct (n <=? len (incoming c)); [eexists; reflexivity|].
  destruct (peer c) eqn:Hp; [|split; [|reflexivity]]; eexists; reflexivity.
Qed.

Lemma ctrlRead_keeps n s c :
  ctrlconn s = Some c ->
  (exists l, ctrlconn (final (ctrlRead n s)) = Some (set_incoming l c)) /\
  (forall s', ctrlRead n s = Block s' -> peer c = Silent).
Proof.
  intros Hc. unfold ctrlRead. rewrite Hc.
  pose proof (ReadAtLeast_keeps n c) as H.
  destruct (Conn.ReadAtLeast n c) as [b c'|c'|c']; cbn [final ctrlconn set_ctrlconn].
  - destruct H as [l ->]. split; [now exists l | discriminate].
  - destruct H as [l ->]. split; [now exists l | discriminate].
  - destruct H as [[l ->] Hp]. split; [now exists l | auto].
Qed.

Lemma readPacket_keeps s c :
  ctrlconn s = Some c ->
  (exists l, ctrlconn (final (readPacket s)) = Some (set_incoming l c)) /\
  (forall s', readPacket s = Block s' -> peer c = Silent).
Proof.
  intros Hc. unfold readPacket, bind, ret.
  destruct (ctrlRead_keeps 4 s c Hc) as ((l1 & Hc1) & Hb1).
  destruct (ctrlRead 4 s) as [lenbuf s1|e s1|s1] eqn:H1; cbn [final] in Hc1.
  - destruct (ctrlRead_keeps (int_of_uint32 (BigEndian.Uint32 lenbuf)) s1 _ Hc1)
      as ((l2 & Hc2) & Hb2).
    destruct (ctrlRead _ s1) as [p s2|e s2|s2] eqn:H2; cbn [final] in Hc2 |- *.
    + split; [now exists l2 | discriminate].
    + split; [now exists l2 | discriminate].
    + split; [now exists l2|].
      intros s' _. now apply (Hb2 s2).
  - split; [now exists l1 | discriminate].
  - split; [now exists l1|]. intros s' _. now apply (Hb1 s1).
Qed.

Lemma readPacket_nil s : ctrlconn s = None -> readPacket s = Err PanicNilDeref s.
Proof. intros Hc. unfold readPacket, bind, ctrlRead. now rewrite Hc. Qed.

(** On a connection that exists, reads fail with the read error only. *)
Lemma readPacket_connected_Err s c e s1 :
  ctrlconn s = Some c -> readPacket s = Err e s1 -> e = ErrReadCtrl.
Proof.
  intros Hc. unfold readPacket, bind, ctrlRead, ret. rewrite Hc.
  destruct (Conn.ReadAtLeast 4 c) as [lenbuf c1|c1|c1]; try discriminate.
  - cbn [ctrlconn set_ctrlconn].
    destruct (Conn.ReadAtLeast _ c1) as [p c2|c2|c2]; try discriminate.
    intros H. now injection H as <- _.
  - intros H. now injection H as <- _.
Qed.

Lemma readPacket_closed s c :
  ctrlconn s = Some c -> closed c = true -> readPacket s = Err ErrReadCtrl s.
Proof.
  intros Hc Hcl. unfold readPacket, bind, ctrlRead, Conn.ReadAtLeast.
  rewrite Hc, Hcl. cbn. rewrite <- Hc. now rewrite set_ctrlconn_same.
Qed.


Lemma readPacket_Ret_connected s buf s1 :
  readPacket s = Ret buf s1 -> exists c1, ctrlconn s1 = Some c1.
Proof.
  intros Hr. destruct (ctrlconn s) as [c|] eqn:Hc.
  - destruct (readPacket_keeps s c Hc) as ((l & Hc1) & _).
    rewrite Hr in Hc1. eexists. exact Hc1.
  - rewrite (readPacket_nil s Hc) in Hr. discriminate.
Qed.

(** On a connection that exists the loop does not panic. *)
Lemma wait_loop_not_Err s c wm seen e s' :
  ctrlconn s = Some c -> wait_loop s wm seen <> Err e s'.
Proof.
  revert c.
  apply (wait_loop_ind (fun s _ _ out =>
           forall c, ctrlconn s = Some c -> out <> Err e s')); clear s wm seen.
  - discriminate.
  - intros s wm seen e0 s1 Hr c Hc.
    rewrite (readPacket_connected_Err s c e0 s1 Hc Hr). discriminate.
  - discriminate.
  - intros s wm seen buf s1 mtype buf1 Hr _ d IH c Hc.
    destruct (readPacket_keeps s c Hc) as ((l & Hc1) & _).
    rewrite Hr in Hc1. cbn [final] in Hc1. exact (IH _ Hc1).
Qed.

Lemma wait_connected_no_panic s c o :
  ctrlconn s = Some c -> errorOf (wait s) = Some o -> panicked o = false.
Proof.
  intros Hc. rewrite wait_final.
  destruct (wait_loop s wm0 false) as [r s1|e s1|s1] eqn:Hloop.
  - destruct (status (fst r) =? 0); [intros H; now injection H as <-|].
    destruct (status (fst r) =? -1); intros H; now injection H as <-.
  - now apply (wait_loop_not_Err s c _ _ _ _ Hc) in Hloop.
  - discriminate.
Qed.

Lemma recvInts_Ret_connected count s msgs s' :
  recvInts count s = Ret msgs s' -> exists c, ctrlconn s' = Some c.
Proof.
  unfold recvInts, bind.
  destruct (readPacket s) as [p s1|e s1|s1] eqn:Hr; try discriminate.
  destruct (popInts _ p []); [|discriminate].
  intros H. injection H as _ <-. eapply readPacket_Ret_connected, Hr.
Qed.

Lemma dispatch_exit_seen sid mtype buf wm :
  status (fst (dispatch sid mtype buf wm true)) = status wm /\
  snd (dispatch sid mtype buf wm true) = true.
Proof.
  unfold dispatch.
  destruct (mtype =? muxTtyAllocFail).
  { destruct (packetPopInt buf) as [[v [e|]] b]; [auto|].
    destruct (negb (v =? sid)); auto. }
  destruct (mtype =? muxExitMessage); [|auto].
  destruct (packetPopInt buf) as [[v [e|]] b]; [auto|].
  destruct (negb (v =? sid)); auto.
Qed.

Lemma wait_loop_exit_seen s wm r s' :
  wait_loop s wm true = Ret r s' -> status (fst r) = status wm /\ snd r = true.
Proof.
  intros H.
  apply (wait_loop_invariant
           (fun wm' seen' => status wm' = status wm /\ seen' = true)
           ) with (s := s) (wm := wm) (seen := true) (s' := s'); auto.
  intros sid mtype buf wm1 seen1 [Hs ->].
  destruct (dispatch_exit_seen sid mtype buf wm1) as [H1 H2].
  split; congruence.
Qed.

Lemma frame_read s c p rest :
  ctrlconn s = Some c -> closed c = false -> len p < 2 ^ 32 ->
  incoming c = frame p ++ rest ->
  readPacket s = Ret p (set_ctrlconn (Some (set_incoming rest c)) s).
Proof.
  intros Hc Hcl Hlen Hin.
  apply (readPacket_frame s c (BigEndian.PutUint32 (uint32 (len p))) p rest
           Hc Hcl).
  - unfold frame in Hin. now rewrite <- app_assoc in Hin.
  - reflexivity.
  - rewrite bigEndianValue_PutUint32. unfold uint32.
    pose proof (len_nonneg p). rewrite Z.mod_mod by lia.
    apply Z.mod_small. lia.
Qed.

Lemma wait_loop_silent ps : forall s c wm seen,
  ctrlconn s = Some c -> closed c = false -> peer c = Silent ->
  incoming c = flat_map frame ps ->
  Forall (fun p => 4 <= len p < 2 ^ 32) ps ->
  wait_loop s wm seen = Block (set_ctrlconn (Some (set_incoming [] c)) s).
Proof.
  induction ps as [|p ps IH]; intros s c wm seen Hc Hcl Hp Hin Hall.
  - rewrite wait_loop_step.
    unfold readPacket, bind, ctrlRead, Conn.ReadAtLeast.
    rewrite Hc, Hcl, Hin, Hp. reflexivity.
  - inversion Hall as [|? ? [H4 Hlen] Hrest]; subst.
    cbn [flat_map] in Hin.
    rewrite wait_loop_step.
    rewrite (frame_read s c p (flat_map frame ps) Hc Hcl Hlen Hin).
    rewrite (packetPopInt_long p H4).
    rewrite (IH _ (set_incoming (flat_map frame ps) c)); try reflexivity; auto.
Qed.

Lemma wait_loop_keeps s c wm seen :
  ctrlconn s = Some c ->
  exists l, ctrlconn (final (wait_loop s wm seen)) = Some (set_incoming l c).
Proof.
  revert c.
  apply (wait_loop_ind (fun s wm seen out =>
           forall c, ctrlconn s = Some c ->
           exists l, ctrlconn (final out) = Some (set_incoming l c)));
    clear s wm seen.
  - intros s wm seen s1 Hr c Hc.
    destruct (readPacket_keeps s c Hc) as (H & _). now rewrite Hr in H.
  - intros s wm seen e s1 Hr c Hc.
    destruct (readPacket_keeps s c Hc) as (H & _). rewrite Hr in H.
    now destruct (is_panic e).
  - intros s wm seen buf s1 v e b Hr _ c Hc.
    destruct (readPacket_keeps s c Hc) as (H & _). now rewrite Hr in H.
  - intros s wm seen buf s1 mtype buf1 Hr _ d IH c Hc.
    destruct (readPacket_keeps s c Hc) as ((l1 & Hc1) & _).
    rewrite Hr in Hc1. cbn [final] in Hc1.
    destruct (IH _ Hc1) as (l & Hl). now exists l.
Qed.

Lemma string_app_nil (a : string) : (a ++ EmptyString)%string = a.
Proof. induction a as [|ch a IH]; cbn; [reflexivity | now rewrite IH]. Qed.

End ReaderRuns.

(** X6: the first exit status wins.  When the first packet is the exit
    message of this session with status [v], nothing the master sends
    afterwards changes the outcome: a [wait] that returns, returns nil if
    [v] is 0 and otherwise an [ExitError] with status [v]. *)
Theorem wait_reports_first_exit_status s buf s1 v rest :
  readPacket s = Ret buf s1 ->
  0 <= ctrlSessid s < 2 ^ 32 -> 0 <= v < 2 ^ 32 ->
  buf = uint32s [muxExitMessage; ctrlSessid s; v] ++ rest ->
  match wait s with
  | Ret _ _ => v = 0
  | Err e _ => exists wm, e = ExitError wm /\ status wm = v /\ v <> 0
  | Block _ => True
  end.
Proof.
  intros Hr Hsid Hv Hbuf.
  rewrite wait_final.
  rewrite (wait_loop_packet s buf s1 muxExitMessage
             (uint32s [ctrlSessid s; v] ++ rest) wm0 false Hr);
    [|in_range|exact Hbuf].
  unfold dispatch.
  change (muxExitMessage =? muxTtyAllocFail) with false.
  change (muxExitMessage =? muxExitMessage) with true. cbv iota.
  rewrite packetPopInt_uint32s by assumption.
  rewrite Z.eqb_refl. cbn [negb].
  rewrite packetPopInt_uint32s by assumption. cbn [fst snd].
  destruct (readPacket_Ret_connected s buf s1 Hr) as [c1 Hc1].
  destruct (wait_loop s1 (set_status v wm0) true) as [r s2|e s2|s2] eqn:Hloop;
    [|now apply (wait_loop_not_Err s1 c1 _ _ _ _ Hc1) in Hloop|exact I].
  apply wait_loop_exit_seen in Hloop as [Hst _].
  change (status (set_status v wm0)) with v in Hst. rewrite Hst.
  destruct (Z.eqb_spec v 0) as [H0|H0]; [exact H0|].
  destruct (Z.eqb_spec v (-1)) as [H1|H1]; [lia|].
  exists (fst r). auto.
Qed.

Lemma wait_reports_first_exit_status_witness :
  match wait (attached (masterSends
                (frame (uint32s [muxExitMessage; 7; 3]) ++
                 frame (uint32s [muxExitMessage; 7; 0])) Eof) 7) with
  | Ret _ _ => 3 = 0
  | Err e _ => exists wm, e = ExitError wm /\ status wm = 3 /\ 3 <> 0
  | Block _ => True
  end.
Proof.
  refine (wait_reports_first_exit_status
    (attached (masterSends
                (frame (uint32s [muxExitMessage; 7; 3]) ++
                 frame (uint32s [muxExitMessage; 7; 0])) Eof) 7)
    (uint32s [muxExitMessage; 7; 3])
    (attached (masterSends (frame (uint32s [muxExitMessage; 7; 0])) Eof) 7)
    3 [] _ _ _ _).
  - vm_compute. reflexivity.
  - in_range.
  - in_range.
  - reflexivity.
Defined.

(** X7: a connection that is closed, or not there.  On a session whose
    control connection is closed, [wait] reports the missing exit status
    at once and changes nothing.  On a session without a connection (the
    nil [*net.UnixConn] of a session that has not dialled) the first read
    dereferences the nil pointer: [wait] panics instead of returning an
    error, and the reader goroutine delivers nothing. *)
Theorem wait_without_connection s :
  (forall c, ctrlconn s = Some c -> closed c = true ->
     wait s = Err ExitMissingError s) /\
  (ctrlconn s = None ->
     wait s = Err PanicNilDeref s /\ readerTask s = Err PanicNilDeref s).
Proof.
  split.
  - intros c Hc Hcl. rewrite wait_final, wait_loop_step.
    rewrite (readPacket_closed s c Hc Hcl). reflexivity.
  - intros Hc.
    assert (E : wait s = Err PanicNilDeref s).
    { rewrite wait_final, wait_loop_step.
      rewrite (readPacket_nil s Hc). reflexivity. }
    split; [exact E|]. unfold readerTask. rewrite E. reflexivity.
Qed.

Lemma wait_without_connection_witness :
  wait (attached (Conn.Close (masterSends [Byte.x00] Silent)) 7) =
    Err ExitMissingError (attached (Conn.Close (masterSends [Byte.x00] Silent)) 7) /\
  wait (NewSession "ctl") = Err PanicNilDeref (NewSession "ctl").
Proof.
  split.
  - apply (proj1 (wait_without_connection
                    (attached (Conn.Close (masterSends [Byte.x00] Silent)) 7))
             (Conn.Close (masterSends [Byte.x00] Silent)));
      reflexivity.
  - apply (proj2 (wait_without_connection (NewSession "ctl")) eq_refl).
Defined.



(** X9: [wait] does not return while the master keeps the connection open.
    Whatever well-formed packets the master has sent (each with at least a
    type code), the exit message of this session among them or not, the
    reader consumes them all and then stays in the next read. *)
Theorem wait_blocks_while_master_silent s c ps :
  ctrlconn s = Some c -> closed c = false -> peer c = Silent ->
  incoming c = flat_map frame ps ->
  Forall (fun p => 4 <= len p < 2 ^ 32) ps ->
  wait s = Block (set_ctrlconn (Some (set_incoming [] c)) s).
Proof.
  intros Hc Hcl Hp Hin Hall. rewrite wait_final.
  now rewrite (wait_loop_silent ps s c wm0 false Hc Hcl Hp Hin Hall).
Qed.

Lemma wait_blocks_while_master_silent_witness :
  wait (attached (masterSends (frame (uint32s [muxExitMessage; 7; 0])) Silent) 7) =
  Block (attached (masterSends [] Silent) 7).
Proof.
  refine (wait_blocks_while_master_silent
    (attached (masterSends (frame (uint32s [muxExitMessage; 7; 0])) Silent) 7)
    (masterSends (frame (uint32s [muxExitMessage; 7; 0])) Silent)
    [uint32s [muxExitMessage; 7; 0]] eq_refl eq_refl eq_refl _ _).
  - vm_compute. reflexivity.
  - apply Forall_cons; [in_range | apply Forall_nil].
Defined.

(** X10: what an [ExitError] of [wait] says and leaves behind.  Its status
    is a non-zero [uint32] value, its text is the status followed by the
    reason when there is one and never names a signal, and the control
    connection has been closed. *)
Theorem wait_ExitError_report s wm s' :
  wait s = Err (ExitError wm) s' ->
  0 < status wm < 2 ^ 32 /\
  ExitError_Error wm =
    ("Process exited with status " ++ itoa (status wm) ++
     (if String.eqb (msg wm) EmptyString then EmptyString
      else ". Reason was: " ++ msg wm))%string /\
  (forall c', ctrlconn s' = Some c' -> closed c' = true).
Proof.
  rewrite wait_final.
  destruct (wait_loop s wm0 false) as [[wm1 seen] s1|e s1|s1] eqn:Hloop;
    [| intros H; injection H as -> _; apply wait_loop_Err in Hloop;
       discriminate Hloop
     | discriminate].
  cbn [fst].
  destruct (Z.eqb_spec (status wm1) 0) as [H0|H0]; [discriminate|].
  destruct (Z.eqb_spec (status wm1) (-1)) as [H1|H1]; [discriminate|].
  intros H. injection H as <- <-.
  assert (HI : status_tracks_exit wm1 seen).
  { apply (wait_loop_invariant status_tracks_exit
             dispatch_status_tracks_exit s wm0 false (wm1, seen) s1);
      [left; split; reflexivity | exact Hloop]. }
  assert (HS : no_signal_no_lang wm1 seen).
  { apply (wait_loop_invariant no_signal_no_lang
             dispatch_no_signal_no_lang s wm0 false (wm1, seen) s1);
      [split; reflexivity | exact Hloop]. }
  split; [destruct HI as [[_ Hs]|[_ Hs]]; lia|].
  split.
  - unfold ExitError_Error, Waitmsg_String. destruct HS as [-> _].
    cbn [String.eqb negb].
    destruct (String.eqb (msg wm1) EmptyString); cbn [negb]; [|reflexivity].
    now rewrite string_app_nil.
  - unfold ctrlClose. intros c'.
    destruct (ctrlconn s1) as [c1|] eqn:Hc1; [|now rewrite Hc1].
    cbn [ctrlconn set_ctrlconn]. intros H; injection H as <-. reflexivity.
Qed.

Lemma wait_ExitError_report_witness :
  0 < 3 < 2 ^ 32 /\
  ExitError_Error (mkWaitmsg 3 EmptyString EmptyString EmptyString) =
    "Process exited with status 3"%string /\
  (forall c', Some (Conn.Close (masterSends [] Eof)) = Some c' -> closed c' = true).
Proof.
  refine (wait_ExitError_report
    (attached (masterSends (frame (uint32s [muxExitMessage; 7; 3])) Eof) 7)
    (mkWaitmsg 3 EmptyString EmptyString EmptyString)
    (ctrlClose (attached (masterSends [] Eof) 7)) _).
  vm_compute. reflexivity.
Defined.

(* ===================================================================== *)
(** * Further properties: starting and waiting *)
(* ===================================================================== *)

Section Starting.

Lemma goAll_result fns : forall s o,
  goAll fns (s, o) =
  Ret tt (s, set_goroutines (goroutines o ++ map GoCopy fns) o).
Proof.
  induction fns as [|fn rest IH]; intros s o; cbn [goAll map].
  - unfold ret. rewrite app_nil_r. now destruct o.
  - unfold bind, go, onOS. cbn [fst snd]. rewrite IH.
    cbn [goroutines set_goroutines]. rewrite <- app_assoc. reflexivity.
Qed.

Lemma set_goroutines_same o : set_goroutines (goroutines o) o = o.
Proof. now destruct o. Qed.

Lemma stdin_step s o :
  exists s',
    stdin (s, o) = Ret tt (s', set_goroutines (goroutines o ++ feeder s) o) /\
    copyFuncs s' =
      copyFuncs s ++
      (if stdinpipe s then []
       else [CopyStdin (match Stdin s with
                        | NoStream => EmptyBuffer
                        | _ => PipeReader
                        end)]) /\
    stdinPipeWriter s' =
      match feeder s with [] => stdinPipeWriter s | _ => Some false end /\
    Stdout s' = Stdout s /\ Stderr s' = Stderr s /\
    setup_keeps s s'.
Proof.
  unfold stdin, feeder, setup_keeps, bind, onSession, get, modify, ret, go, onOS.
  cbn [fst snd].
  destruct (stdinpipe s) eqn:Hp; [|destruct (Stdin s) eqn:Hs];
    cbn [fst snd]; rewrite ?app_nil_r, ?set_goroutines_same;
    (eexists; split; [reflexivity|]); cbn;
    rewrite ?app_nil_r; repeat split; auto.
Qed.

Lemma stdout_step s o :
  exists s',
    stdout (s, o) = Ret tt (s', o) /\
    copyFuncs s' = copyFuncs s ++ (if stdoutpipe s then [] else [CopyStdout]) /\
    stdinPipeWriter s' = stdinPipeWriter s /\
    Stdout s' = orDiscard (stdoutpipe s) (Stdout s) /\ Stderr s' = Stderr s /\
    setup_keeps s s'.
Proof.
  unfold stdout, orDiscard, setup_keeps, bind, onSession, get, modify, ret.
  cbn [fst snd].
  destruct (stdoutpipe s) eqn:Hp; [|destruct (Stdout s) eqn:Hs];
    cbn [fst snd];
    (eexists; split; [reflexivity|]); cbn;
    rewrite ?app_nil_r; repeat split; auto.
Qed.

Lemma stderr_step s o :
  exists s',
    stderr (s, o) = Ret tt (s', o) /\
    copyFuncs s' = copyFuncs s ++ (if stderrpipe s then [] else [CopyStderr]) /\
    stdinPipeWriter s' = stdinPipeWriter s /\
    Stdout s' = Stdout s /\ Stderr s' = orDiscard (stderrpipe s) (Stderr s) /\
    setup_keeps s s'.
Proof.
  unfold stderr, orDiscard, setup_keeps, bind, onSession, get, modify, ret.
  cbn [fst snd].
  destruct (stderrpipe s) eqn:Hp; [|destruct (Stderr s) eqn:Hs];
    cbn [fst snd];
    (eexists; split; [reflexivity|]); cbn;
    rewrite ?app_nil_r; repeat split; auto.
Qed.

Lemma start_result s o :
  exists s',
    start (s, o) =
      Ret tt (s', set_goroutines
                    (goroutines o ++ feeder s ++ map GoCopy (copyFuncs s')) o) /\
    started s' = true /\
    copyFuncs s' = copyFuncs s ++ copyTasksFor s /\
    errors s' = make_chan (List.length (copyFuncs s')) /\
    Stdin s' = Stdin s /\
    Stdout s' = orDiscard (stdoutpipe s) (Stdout s) /\
    Stderr s' = orDiscard (stderrpipe s) (Stderr s) /\
    stdinPipeWriter s' =
      match feeder s with [] => stdinPipeWriter s | _ => Some false end /\
    ctrlconn s' = ctrlconn s /\ exitStatus s' = exitStatus s /\
    aborted s' = aborted s /\
    flags_of (s', o) = flags_of (s, o).
Proof.
  unfold start.
  unfold bind at 1. cbn [onSession modify fst snd].
  destruct (stdin_step (set_started true s) o)
    as (s1 & E1 & F1 & W1 & O1 & R1 & K1).
  unfold bind at 1. rewrite E1.
  destruct (stdout_step s1 (set_goroutines
              (goroutines o ++ feeder (set_started true s)) o))
    as (s2 & E2 & F2 & W2 & O2 & R2 & K2).
  unfold bind at 1. rewrite E2.
  destruct (stderr_step s2 (set_goroutines
              (goroutines o ++ feeder (set_started true s)) o))
    as (s3 & E3 & F3 & W3 & O3 & R3 & K3).
  unfold bind at 1. rewrite E3.
  unfold bind at 1. cbn [onSession modify fst snd].
  unfold bind at 1. cbn [onSession get fst snd].
  rewrite goAll_result.
  destruct K1 as (Ki1 & Kp1 & Kq1 & Kr1 & Ks1 & Ke1 & Kc1 & Kx1 & Ka1).
  destruct K2 as (Ki2 & Kp2 & Kq2 & Kr2 & Ks2 & Ke2 & Kc2 & Kx2 & Ka2).
  destruct K3 as (Ki3 & Kp3 & Kq3 & Kr3 & Ks3 & Ke3 & Kc3 & Kx3 & Ka3).
  cbn in F1, W1, O1, R1, Ki1, Kp1, Kq1, Kr1, Ks1, Ke1, Kc1, Kx1, Ka1.
  change (feeder (set_started true s)) with (feeder s) in *.
  exists (set_errors (make_chan (List.length (copyFuncs s3))) s3). split.
  { cbn [copyFuncs set_errors].
    unfold set_goroutines.
    cbn [master pipe_errs next_fd closed_files tty_state tty_makeraw goroutines].
    rewrite <- app_assoc. reflexivity. }
  unfold flags_of.
  cbn [started copyFuncs errors Stdin Stdout Stderr stdinPipeWriter ctrlconn
       exitStatus aborted set_errors stdinpipe stdoutpipe stderrpipe fst snd].
  assert (HF : copyFuncs s3 = copyFuncs s ++ copyTasksFor s).
  { rewrite F3, F2, F1, Kr2, Kr1, Kq1. unfold copyTasksFor.
    now rewrite <- !app_assoc. }
  repeat split; try congruence.
Qed.

End Starting.

Section Frame.

Context {T : Type} (proj : Session * OS -> T).
Hypothesis Hconn : forall oc s o, proj (set_ctrlconn oc s, o) = proj (s, o).
Hypothesis Hreq : forall v s o, proj (set_ctrlReqid v s, o) = proj (s, o).
Hypothesis Hsid : forall v s o, proj (set_ctrlSessid v s, o) = proj (s, o).
Hypothesis Hclose : forall f s o, proj (s, os_Close f o) = proj (s, o).
Hypothesis Hpipe : forall s o, proj (s, snd (os_Pipe o)) = proj (s, o).
Hypothesis Hlin : forall v s o, proj (set_lmuxStdin v s, o) = proj (s, o).
Hypothesis Hlout : forall v s o, proj (set_lmuxStdout v s, o) = proj (s, o).
Hypothesis Hlerr : forall v s o, proj (set_lmuxStderr v s, o) = proj (s, o).
Hypothesis Hrin : forall v s o, proj (set_rmuxStdin v s, o) = proj (s, o).
Hypothesis Hrout : forall v s o, proj (set_rmuxStdout v s, o) = proj (s, o).
Hypothesis Hrerr : forall v s o, proj (set_rmuxStderr v s, o) = proj (s, o).
Hypothesis Hfin : forall v s o, proj (set_stdinpipe v s, o) = proj (s, o).
Hypothesis Hfout : forall v s o, proj (set_stdoutpipe v s, o) = proj (s, o).
Hypothesis Hferr : forall v s o, proj (set_stderrpipe v s, o) = proj (s, o).

Lemma keeps_bind {A B} (m : M (Session * OS) A) (k : A -> M (Session * OS) B) :
  keeps proj m -> (forall a, keeps proj (k a)) -> keeps proj (bind m k).
Proof.
  intros Hm Hk w. unfold bind. specialize (Hm w).
  destruct (m w) as [a w1|e w1|w1]; cbn [final] in *; try assumption.
  now rewrite Hk.
Qed.

Lemma keeps_ret {A} (a : A) : keeps proj (ret a).
Proof. intros w. reflexivity. Qed.

Lemma keeps_fail {A} e : keeps proj (@fail _ A e).
Proof. intros w. reflexivity. Qed.

Lemma keeps_get : keeps proj (onSession get).
Proof. intros [s o]. reflexivity. Qed.

Lemma keeps_modify f :
  (forall s o, proj (f s, o) = proj (s, o)) -> keeps proj (onSession (modify f)).
Proof. intros H [s o]. cbn. apply H. Qed.

Lemma keeps_conn_only {A} (m : M Session A) :
  conn_only m -> keeps proj (onSession m).
Proof.
  intros H [s o]. specialize (H s). destruct H as [oc Hoc].
  unfold onSession. cbn [fst snd].
  destruct (m s); cbn [final] in *; subst; apply Hconn.
Qed.

Lemma keeps_sshMuxAliveCheck : keeps proj (onSession sshMuxAliveCheck).
Proof.
  intros [s o]. unfold onSession, sshMuxAliveCheck, bind, get. cbn [fst snd].
  destruct (writePacket_conn_only
              (Marshal.muxMsg (mkMuxMsg muxAliveCheck (uint32 (ctrlReqid s))))
              s) as [oc1 H1].
  destruct (writePacket _ s) as [a s1|e s1|s1]; cbn [final] in H1; subst;
    try apply Hconn.
  destruct (recvInts_conn_only 3 (set_ctrlconn oc1 s)) as [oc2 H2].
  destruct (recvInts 3 _) as [msgs s2|e s2|s2]; cbn [final] in H2; subst;
    cbn [final]; rewrite ?Hconn; try reflexivity.
  destruct (negb _); [cbn; now rewrite !Hconn|].
  destruct (negb _); cbn; now rewrite ?Hreq, !Hconn.
Qed.

Lemma keeps_fdPut (f : Session -> option fd) :
  keeps proj (onSession (modify (fun s => fdPut (f s) s))).
Proof.
  apply keeps_modify. intros s o. unfold fdPut.
  destruct (ctrlconn s); [apply Hconn | reflexivity].
Qed.

Lemma keeps_makeRawTerm : keeps proj makeRawTerm.
Proof.
  intros w. unfold makeRawTerm.
  destruct (tty_makeraw (snd w)); [destruct (tty_state (snd w))|];
    try destruct (negb _); reflexivity.
Qed.

Lemma keeps_closeRemote l r : keeps proj (closeRemote l r).
Proof.
  intros [s o]. unfold closeRemote.
  destruct (l s); [destruct (r s)|]; cbn [final]; rewrite ?Hclose; reflexivity.
Qed.

Lemma keeps_openCtrlConn : keeps proj openCtrlConn.
Proof.
  intros [s o]. unfold openCtrlConn. destruct (master o); apply Hconn.
Qed.

(** The part of the descriptor hand-off after the three choices. *)
Lemma keeps_hand_off (k : M (Session * OS) unit) :
  k = (onSession (modify (fun s => fdPut (rmuxStdin s) s)) ;;
       onSession (modify (fun s => fdPut (rmuxStdout s) s)) ;;
       onSession (modify (fun s => fdPut (rmuxStderr s) s)) ;;
       msgs <- onSession (recvInts 3) ;;
       s <- onSession get ;;
       if negb (elem msgs 0 =? muxSessionOpened)
       then fail (ErrExpectedSessionOpened (elem msgs 0))
       else if negb (elem msgs 1 =? ctrlReqid s)
       then fail (ErrOutOfSequence (elem msgs 0))
       else
         onSession (modify (set_ctrlSessid (elem msgs 2))) ;;
         onSession (modify (fun s => set_ctrlReqid (ctrlReqid s + 1) s))) ->
  keeps proj k.
Proof.
  intros ->.
  repeat (apply keeps_bind;
          [first [ apply keeps_fdPut
                 | apply keeps_conn_only, recvInts_conn_only
                 | apply keeps_get ]
          | intros ]).
  destruct (negb _); [apply keeps_fail|].
  destruct (negb _); [apply keeps_fail|].
  apply keeps_bind; [|intros]; apply keeps_modify; intros; auto.
Qed.

(** The part of the handshake after the descriptor hand-off. *)
Lemma keeps_wrap_up (k : M (Session * OS) unit) :
  k = (s <- onSession get ;;
       (if negb (String.eqb (term s) EmptyString) then makeRawTerm else ret tt) ;;
       closeRemote lmuxStdin rmuxStdin ;;
       closeRemote lmuxStdout rmuxStdout ;;
       closeRemote lmuxStderr rmuxStderr) ->
  keeps proj k.
Proof.
  intros ->.
  apply keeps_bind; [apply keeps_get | intros].
  apply keeps_bind;
    [destruct (negb _); [apply keeps_makeRawTerm | apply keeps_ret] | intros].
  repeat (apply keeps_bind; [apply keeps_closeRemote | intros]).
  apply keeps_closeRemote.
Qed.

Lemma keeps_pickStdin : keeps proj pickStdin.
Proof.
  intros [s o]. unfold pickStdin.
  destruct (Stdin s); try (cbn [final]; now rewrite Hfin, Hrin);
    destruct (lmuxStdin s); try reflexivity;
    pose proof (Hpipe s o) as P;
    destruct (os_Pipe o) as [[[r wr]|] o']; cbn [final snd] in *;
    now rewrite Hlin, Hrin.
Qed.

Lemma keeps_pickStdout : keeps proj pickStdout.
Proof.
  intros [s o]. unfold pickStdout.
  destruct (Stdout s); try (cbn [final]; now rewrite Hfout, Hrout);
    destruct (lmuxStdout s); try reflexivity;
    pose proof (Hpipe s o) as P;
    destruct (os_Pipe o) as [[[r wr]|] o']; cbn [final snd] in *;
    now rewrite Hrout, Hlout.
Qed.

Lemma keeps_pickStderr : keeps proj pickStderr.
Proof.
  intros [s o]. unfold pickStderr.
  destruct (Stderr s); try (cbn [final]; now rewrite Hferr, Hrerr);
    destruct (lmuxStderr s); try reflexivity;
    pose proof (Hpipe s o) as P;
    destruct (os_Pipe o) as [[[r wr]|] o']; cbn [final snd] in *;
    now rewrite Hrerr, Hlerr.
Qed.

Lemma keeps_sshMuxPassFileDescriptors : keeps proj sshMuxPassFileDescriptors.
Proof.
  unfold sshMuxPassFileDescriptors.
  apply keeps_bind; [apply keeps_pickStdin | intros].
  apply keeps_bind; [apply keeps_pickStdout | intros].
  apply keeps_bind; [apply keeps_pickStderr | intros].
  now apply keeps_hand_off.
Qed.

Lemma keeps_requestMuxSession cmd : keeps proj (requestMuxSession cmd).
Proof.
  unfold requestMuxSession.
  apply keeps_bind; [apply keeps_modify; intros; apply Hreq | intros].
  apply keeps_bind; [apply keeps_conn_only, sshMuxHello_conn_only | intros].
  apply keeps_bind; [apply keeps_sshMuxAliveCheck | intros].
  apply keeps_bind; [apply keeps_conn_only, sshMuxNewSession_conn_only | intros].
  apply keeps_bind; [apply keeps_sshMuxPassFileDescriptors | intros].
  now apply keeps_wrap_up.
Qed.

End Frame.

Section Lifecycle.

Lemma rest_of_untouched w w' :
  rest_of w' = rest_of w ->
  untouched (fst w) (fst w') /\ goroutines (snd w') = goroutines (snd w).
Proof.
  unfold rest_of, untouched. intros H.
  injection H as H1 H2 H3 H4 H5 H6 H7 H8 H9 H10 H11 H12.
  repeat split; assumption.
Qed.

Lemma os_Pipe_goroutines o : goroutines (snd (os_Pipe o)) = goroutines o.
Proof. unfold os_Pipe. destruct (pipe_errs o) as [|[|] rest]; reflexivity. Qed.

Lemma keeps_rest_openCtrlConn : keeps rest_of openCtrlConn.
Proof. apply keeps_openCtrlConn. reflexivity. Qed.

Lemma keeps_rest_requestMuxSession cmd : keeps rest_of (requestMuxSession cmd).
Proof.
  apply keeps_requestMuxSession; try reflexivity.
  intros s o. unfold rest_of. cbn [fst snd]. now rewrite os_Pipe_goroutines.
Qed.

Lemma Start_steps cmd w :
  Start cmd w =
  if started (fst w) then Err ErrAlreadyStarted w
  else
    match openCtrlConn w with
    | Ret _ w1 =>
        match requestMuxSession cmd w1 with
        | Ret _ w2 =>
            start (set_aborted (make_chan 1)
                     (set_exitStatus (make_chan 1) (fst w2)),
                   set_goroutines (goroutines (snd w2) ++ [GoWait]) (snd w2))
        | Err e w2 => Err e w2
        | Block w2 => Block w2
        end
    | Err e w1 => Err e w1
    | Block w1 => Block w1
    end.
Proof.
  destruct w as [s o]. unfold Start, bind at 1, onSession at 1, get.
  cbn [fst snd].
  destruct (started s); [reflexivity|].
  unfold bind at 1.
  destruct (openCtrlConn (s, o)) as [[] w1|e w1|w1]; reflexivity.
Qed.

Lemma Shell_steps w :
  Shell w =
  if started (fst w) then Err ErrAlreadyStarted w
  else
    match openCtrlConn w with
    | Ret _ w1 =>
        match requestMuxSession EmptyString w1 with
        | Ret _ w2 =>
            start (set_exitStatus (make_chan 1) (fst w2),
                   set_goroutines (goroutines (snd w2) ++ [GoWait]) (snd w2))
        | Err e w2 => Err e w2
        | Block w2 => Block w2
        end
    | Err e w1 => Err e w1
    | Block w1 => Block w1
    end.
Proof.
  destruct w as [s o]. unfold Shell, bind at 1, onSession at 1, get.
  cbn [fst snd].
  destruct (started s); [reflexivity|].
  unfold bind at 1.
  destruct (openCtrlConn (s, o)) as [[] w1|e w1|w1]; reflexivity.
Qed.

Lemma start_returns w : exists w', start w = Ret tt w'.
Proof.
  destruct w as [s o]. destruct (start_result s o) as (s' & E & _).
  eexists. exact E.
Qed.

End Lifecycle.

Section Flags.

Lemma ret_bind_inv {S A B} (m : M S A) (k : A -> M S B) s b s' :
  bind m k s = Ret b s' -> exists a s1, m s = Ret a s1 /\ k a s1 = Ret b s'.
Proof.
  unfold bind. destruct (m s) as [a s1|e s1|s1]; try discriminate.
  intros H. now exists a, s1.
Qed.

Lemma keeps_ret_step {T A} (proj : Session * OS -> T) (m : M (Session * OS) A)
    w a w' :
  keeps proj m -> m w = Ret a w' -> proj w' = proj w.
Proof. intros K E. specialize (K w). now rewrite E in K. Qed.

Lemma pickStdin_flags w w' :
  pickStdin w = Ret tt w' ->
  flags_of w' =
    (direct (stdinpipe (fst w)) (Stdin (fst w)),
     stdoutpipe (fst w), stderrpipe (fst w)) /\
  rest_of w' = rest_of w.
Proof.
  destruct w as [s o]. unfold pickStdin, flags_of, rest_of, direct.
  cbn [fst snd].
  destruct (Stdin s) eqn:Hs; try (destruct (lmuxStdin s));
    try (pose proof (os_Pipe_goroutines o) as G;
         destruct (os_Pipe o) as [[[r wr]|] o']; cbn [snd] in G);
    try discriminate;
    intros H; injection H as <-; cbn; rewrite ?Hs, ?G, ?orb_false_r, ?orb_true_r;
    split; reflexivity.
Qed.

Lemma pickStdout_flags w w' :
  pickStdout w = Ret tt w' ->
  flags_of w' =
    (stdinpipe (fst w), direct (stdoutpipe (fst w)) (Stdout (fst w)),
     stderrpipe (fst w)) /\
  rest_of w' = rest_of w.
Proof.
  destruct w as [s o]. unfold pickStdout, flags_of, rest_of, direct.
  cbn [fst snd].
  destruct (Stdout s) eqn:Hs; try (destruct (lmuxStdout s));
    try (pose proof (os_Pipe_goroutines o) as G;
         destruct (os_Pipe o) as [[[r wr]|] o']; cbn [snd] in G);
    try discriminate;
    intros H; injection H as <-; cbn; rewrite ?Hs, ?G, ?orb_false_r, ?orb_true_r;
    split; reflexivity.
Qed.

Lemma pickStderr_flags w w' :
  pickStderr w = Ret tt w' ->
  flags_of w' =
    (stdinpipe (fst w), stdoutpipe (fst w),
     direct (stderrpipe (fst w)) (Stderr (fst w))) /\
  rest_of w' = rest_of w.
Proof.
  destruct w as [s o]. unfold pickStderr, flags_of, rest_of, direct.
  cbn [fst snd].
  destruct (Stderr s) eqn:Hs; try (destruct (lmuxStderr s));
    try (pose proof (os_Pipe_goroutines o) as G;
         destruct (os_Pipe o) as [[[r wr]|] o']; cbn [snd] in G);
    try discriminate;
    intros H; injection H as <-; cbn; rewrite ?Hs, ?G, ?orb_false_r, ?orb_true_r;
    split; reflexivity.
Qed.

Lemma pair_eq_inv {A B} (a c : A) (b d : B) : (a, b) = (c, d) -> a = c /\ b = d.
Proof. intros H. now injection H. Qed.

Lemma rest_of_streams w w' :
  rest_of w' = rest_of w ->
  Stdin (fst w') = Stdin (fst w) /\ Stdout (fst w') = Stdout (fst w) /\
  Stderr (fst w') = Stderr (fst w).
Proof.
  intros H. apply rest_of_untouched in H as [(H1 & H2 & H3 & _) _]. auto.
Qed.

Lemma flags_of_inv w a b c :
  flags_of w = (a, b, c) ->
  stdinpipe (fst w) = a /\ stdoutpipe (fst w) = b /\ stderrpipe (fst w) = c.
Proof. unfold flags_of. intros H. now injection H. Qed.

Ltac calm_step K E :=
  let F := fresh "F" in
  let R := fresh "R" in
  apply (keeps_ret_step (fun w => (flags_of w, rest_of w)) _ _ _ _ K) in E;
  apply pair_eq_inv in E as [F R].

Lemma requestMuxSession_flags cmd w w' :
  requestMuxSession cmd w = Ret tt w' ->
  flags_of w' =
    (direct (stdinpipe (fst w)) (Stdin (fst w)),
     direct (stdoutpipe (fst w)) (Stdout (fst w)),
     direct (stderrpipe (fst w)) (Stderr (fst w))) /\
  rest_of w' = rest_of w.
Proof.
  unfold requestMuxSession. intros H.
  apply ret_bind_inv in H as ([] & w0 & E0 & H).
  apply ret_bind_inv in H as ([] & w1 & E1 & H).
  apply ret_bind_inv in H as ([] & w2 & E2 & H).
  apply ret_bind_inv in H as ([] & w3 & E3 & H).
  apply ret_bind_inv in H as ([] & w7 & E7 & H).
  unfold sshMuxPassFileDescriptors in E7.
  apply ret_bind_inv in E7 as ([] & w4 & E4 & E7).
  apply ret_bind_inv in E7 as ([] & w5 & E5 & E7).
  apply ret_bind_inv in E7 as ([] & w6 & E6 & E7).
  assert (K0 : keeps (fun w => (flags_of w, rest_of w))
                 (onSession (modify (set_ctrlReqid 0))))
    by (apply keeps_modify; reflexivity).
  assert (K1 : keeps (fun w => (flags_of w, rest_of w)) (onSession sshMuxHello))
    by (apply keeps_conn_only; [reflexivity | apply sshMuxHello_conn_only]).
  assert (K2 : keeps (fun w => (flags_of w, rest_of w)) (onSession sshMuxAliveCheck))
    by (apply keeps_sshMuxAliveCheck; reflexivity).
  assert (K3 : keeps (fun w => (flags_of w, rest_of w))
                 (onSession (sshMuxNewSession cmd)))
    by (apply keeps_conn_only; [reflexivity | apply sshMuxNewSession_conn_only]).
  calm_step K0 E0. calm_step K1 E1. calm_step K2 E2. calm_step K3 E3.
  apply pickStdin_flags in E4 as [F4 R4].
  apply pickStdout_flags in E5 as [F5 R5].
  apply pickStderr_flags in E6 as [F6 R6].
  match type of E7 with
  | ?m _ = _ =>
      assert (K7 : keeps (fun w => (flags_of w, rest_of w)) m)
        by (apply keeps_hand_off; reflexivity)
  end.
  calm_step K7 E7.
  match type of H with
  | ?m _ = _ =>
      assert (K8 : keeps (fun w => (flags_of w, rest_of w)) m)
        by (apply keeps_wrap_up; reflexivity)
  end.
  calm_step K8 H.
  assert (Rw : rest_of w' = rest_of w) by congruence.
  split; [|exact Rw].
  assert (Rw3 : rest_of w3 = rest_of w) by congruence.
  assert (Fw3 : flags_of w3 = flags_of w) by congruence.
  assert (Rw4 : rest_of w4 = rest_of w) by congruence.
  assert (Rw5 : rest_of w5 = rest_of w) by congruence.
  apply rest_of_streams in Rw3 as (Si3 & So3 & Se3).
  apply rest_of_streams in Rw4 as (Si4 & So4 & Se4).
  apply rest_of_streams in Rw5 as (Si5 & So5 & Se5).
  apply flags_of_inv in Fw3 as (A3 & B3 & C3).
  apply flags_of_inv in F4 as (A4 & B4 & C4).
  apply flags_of_inv in F5 as (A5 & B5 & C5).
  replace (flags_of w') with (flags_of w6) by congruence.
  rewrite F6. congruence.
Qed.

Lemma requestMuxSession_connected cmd w w' :
  requestMuxSession cmd w = Ret tt w' -> exists c, ctrlconn (fst w') = Some c.
Proof.
  unfold requestMuxSession. intros H.
  apply ret_bind_inv in H as ([] & w0 & _ & H).
  apply ret_bind_inv in H as ([] & w1 & _ & H).
  apply ret_bind_inv in H as ([] & w2 & _ & H).
  apply ret_bind_inv in H as ([] & w3 & _ & H).
  apply ret_bind_inv in H as ([] & w7 & E7 & H).
  assert (C7 : exists c, ctrlconn (fst w7) = Some c).
  { unfold sshMuxPassFileDescriptors in E7.
    apply ret_bind_inv in E7 as ([] & w4 & _ & E7).
    apply ret_bind_inv in E7 as ([] & w5 & _ & E7).
    apply ret_bind_inv in E7 as ([] & w6 & _ & E7).
    apply ret_bind_inv in E7 as ([] & wa & _ & E7).
    apply ret_bind_inv in E7 as ([] & wb & _ & E7).
    apply ret_bind_inv in E7 as ([] & wc & _ & E7).
    apply ret_bind_inv in E7 as (msgs & wd & Ed & E7).
    apply ret_bind_inv in E7 as (sd & we & Ee & E7).
    unfold onSession in Ed.
    destruct (recvInts 3 (fst wc)) as [m sr|e sr|sr] eqn:Er; try discriminate.
    injection Ed as _ <-.
    apply recvInts_Ret_connected in Er as [c Hc].
    cbn in Ee. injection Ee as _ <-.
    destruct (negb _); [discriminate|].
    destruct (negb _); [discriminate|].
    cbn in E7. injection E7 as <-. cbn. now exists c. }
  assert (K : ctrlconn (fst w') = ctrlconn (fst w7)).
  { match type of H with
    | ?m _ = _ =>
        assert (K8 : keeps (fun w => ctrlconn (fst w)) m)
          by (apply keeps_wrap_up; reflexivity)
    end.
    apply (keeps_ret_step _ _ _ _ _ K8 H). }
  destruct C7 as [c Hc]. exists c. congruence.
Qed.

End Flags.

Section Started.

(** What [start] adds to a session on which the handshake has succeeded
    and the reader goroutine has been launched. *)
Lemma launch (sA : Session) (w2 w' : Session * OS) :
  start (sA, set_goroutines (goroutines (snd w2) ++ [GoWait]) (snd w2)) = Ret tt w' ->
  started (fst w') = true /\
  exitStatus (fst w') = exitStatus sA /\
  aborted (fst w') = aborted sA /\
  ctrlconn (fst w') = ctrlconn sA /\
  flags_of w' = flags_of (sA, snd w2) /\
  Stdin (fst w') = Stdin sA /\
  copyFuncs (fst w') = copyFuncs sA ++ copyTasksFor (fst w') /\
  errors (fst w') = make_chan (List.length (copyFuncs (fst w'))) /\
  goroutines (snd w') =
    goroutines (snd w2) ++ [GoWait] ++ feeder (fst w') ++
    map GoCopy (copyFuncs (fst w')).
Proof.
  destruct (start_result sA (set_goroutines (goroutines (snd w2) ++ [GoWait]) (snd w2)))
    as (s' & E & Hst & Hcf & Herr & Hin & _ & _ & _ & Hcc & Hex & Hab & Hfl).
  rewrite E. intros H. injection H as <-. cbn [fst snd].
  apply flags_of_inv in Hfl as (Fi & Fo & Fe). cbn [fst] in Fi, Fo, Fe.
  assert (Hct : copyTasksFor s' = copyTasksFor sA).
  { unfold copyTasksFor. now rewrite Fi, Fo, Fe, Hin. }
  assert (Hfd : feeder s' = feeder sA).
  { unfold feeder. now rewrite Fi, Hin. }
  repeat split; try assumption.
  - unfold flags_of. cbn [fst]. congruence.
  - now rewrite Hct.
  - cbn [goroutines set_goroutines]. rewrite Hfd, <- app_assoc.
    now rewrite Hcf.
Qed.

Lemma keeps_both_openCtrlConn :
  keeps (fun w => (flags_of w, rest_of w)) openCtrlConn.
Proof. apply keeps_openCtrlConn. reflexivity. Qed.

(** A successful [Start] or [Shell], taken apart. *)
Lemma starting_inv cmd w w' :
  Start cmd w = Ret tt w' \/ (Shell w = Ret tt w' /\ cmd = EmptyString) ->
  started (fst w) = false /\
  exists w1 w2 sA,
    openCtrlConn w = Ret tt w1 /\
    requestMuxSession cmd w1 = Ret tt w2 /\
    start (sA, set_goroutines (goroutines (snd w2) ++ [GoWait]) (snd w2)) = Ret tt w' /\
    exitStatus sA = make_chan 1 /\
    flags_of (sA, snd w2) = flags_of w2 /\
    Stdin sA = Stdin (fst w2) /\ copyFuncs sA = copyFuncs (fst w2) /\
    (aborted sA = make_chan 1 \/ aborted sA = aborted (fst w2)) /\
    ctrlconn sA = ctrlconn (fst w2).
Proof.
  intros [H | [H ->]]; [rewrite Start_steps in H | rewrite Shell_steps in H];
    (destruct (started (fst w)); [discriminate|]);
    (split; [reflexivity|]);
    (destruct (openCtrlConn w) as [[] w1|e w1|w1] eqn:E1; try discriminate);
    (destruct (requestMuxSession _ w1) as [[] w2|e w2|w2] eqn:E2;
     try discriminate);
    exists w1, w2; eexists;
    (split; [reflexivity|]); (split; [exact E2|]); (split; [exact H|]);
    repeat split; try reflexivity; [left | right]; reflexivity.
Qed.

Lemma starting_connected cmd w w' :
  Start cmd w = Ret tt w' \/ (Shell w = Ret tt w' /\ cmd = EmptyString) ->
  exists c, ctrlconn (fst w') = Some c.
Proof.
  intros H.
  apply starting_inv in H
    as (_ & w1 & w2 & sA & _ & E2 & H & _ & _ & _ & _ & _ & Hc).
  apply launch in H as (_ & _ & _ & Hc' & _).
  apply requestMuxSession_connected in E2 as [c E2].
  exists c. congruence.
Qed.

Lemma starting_sets_started cmd w w' :
  Start cmd w = Ret tt w' \/ (Shell w = Ret tt w' /\ cmd = EmptyString) ->
  started (fst w') = true.
Proof.
  intros H.
  apply starting_inv in H as (_ & w1 & w2 & sA & _ & _ & H & _).
  now apply launch in H.
Qed.

Lemma starting_facts cmd w w' :
  Start cmd w = Ret tt w' \/ (Shell w = Ret tt w' /\ cmd = EmptyString) ->
  started (fst w') = true /\
  exitStatus (fst w') = make_chan 1 /\
  flags_of w' =
    (direct (stdinpipe (fst w)) (Stdin (fst w)),
     direct (stdoutpipe (fst w)) (Stdout (fst w)),
     direct (stderrpipe (fst w)) (Stderr (fst w))) /\
  copyFuncs (fst w') = copyFuncs (fst w) ++ copyTasksFor (fst w') /\
  errors (fst w') = make_chan (List.length (copyFuncs (fst w'))) /\
  goroutines (snd w') =
    goroutines (snd w) ++ [GoWait] ++ feeder (fst w') ++
    map GoCopy (copyFuncs (fst w')).
Proof.
  intros H.
  apply starting_inv in H
    as (_ & w1 & w2 & sA & E1 & E2 & H & Hex & Hfl & Hin & Hcf & _ & _).
  apply launch in H as (Hst & Hex' & _ & _ & Hfl' & _ & Hcf' & Herr & Hgo).
  apply (keeps_ret_step _ _ _ _ _ keeps_both_openCtrlConn) in E1.
  apply pair_eq_inv in E1 as [F1 R1].
  apply requestMuxSession_flags in E2 as [F2 R2].
  apply rest_of_untouched in R1 as [(Si1 & So1 & Se1 & Hc1 & _) G1].
  assert (R2' := R2).
  apply rest_of_untouched in R2 as [(Si2 & So2 & Se2 & Hc2 & _) G2].
  apply flags_of_inv in F1 as (A1 & B1 & C1).
  repeat split; try assumption.
  - congruence.
  - rewrite Hfl', Hfl, F2. congruence.
  - rewrite Hcf'. congruence.
  - rewrite Hgo. congruence.
Qed.


End Started.

(** X11: what a successful [Start] or [Shell] leaves behind.  The session
    is started, the one-slot exit channel is made, a stream needs no copy
    task exactly when the caller took a pipe for it or handed in an
    [*os.File], the copy tasks are appended for the other streams, the
    error channel has one slot per copy task, and the goroutines launched
    are the reader, the stdin feeder when [Stdin] is not a file, and one
    goroutine per copy task. *)
Theorem session_started cmd w w' :
  Start cmd w = Ret tt w' \/ (Shell w = Ret tt w' /\ cmd = EmptyString) ->
  started (fst w') = true /\
  exitStatus (fst w') = make_chan 1 /\
  flags_of w' =
    (direct (stdinpipe (fst w)) (Stdin (fst w)),
     direct (stdoutpipe (fst w)) (Stdout (fst w)),
     direct (stderrpipe (fst w)) (Stderr (fst w))) /\
  copyFuncs (fst w') = copyFuncs (fst w) ++ copyTasksFor (fst w') /\
  errors (fst w') = make_chan (List.length (copyFuncs (fst w'))) /\
  goroutines (snd w') =
    goroutines (snd w) ++ [GoWait] ++ feeder (fst w') ++
    map GoCopy (copyFuncs (fst w')).
Proof. apply starting_facts. Qed.

Lemma session_started_witness :
  exists w',
    Start "ls" (set_Stdin (OsFile 0%nat) (NewSession "ctl"),
                process0 (masterSends (master_script 7) Silent)) = Ret tt w' /\
    started (fst w') = true /\
    flags_of w' = (true, false, false) /\
    copyFuncs (fst w') = [CopyStdout; CopyStderr] /\
    errors (fst w') = make_chan 2 /\
    goroutines (snd w') = [GoWait; GoCopy CopyStdout; GoCopy CopyStderr].
Proof.
  eexists. split; [vm_compute; reflexivity|].
  match goal with
  | |- started (fst ?w') = true /\ _ =>
      assert (E : Start "ls" (set_Stdin (OsFile 0%nat) (NewSession "ctl"),
                              process0 (masterSends (master_script 7) Silent)) =
                  Ret tt w') by (vm_compute; reflexivity);
      destruct (session_started "ls" _ w' (or_introl E))
        as (H1 & _ & H3 & H4 & H5 & H6)
  end.
  repeat split; assumption.
Defined.

(** X12: a session accepts one start.  After [Start] or [Shell] has
    returned nil, another [Start] or [Shell] fails with the
    already-started error, and each pipe accessor fails; none of them
    changes the session or the process. *)
Theorem start_only_once cmd w w' :
  Start cmd w = Ret tt w' \/ (Shell w = Ret tt w' /\ cmd = EmptyString) ->
  (forall cmd', Start cmd' w' = Err ErrAlreadyStarted w') /\
  Shell w' = Err ErrAlreadyStarted w' /\
  (exists e, StdinPipe w' = (None, Some e, w')) /\
  (exists e, StdoutPipe w' = (None, Some e, w')) /\
  (exists e, StderrPipe w' = (None, Some e, w')).
Proof.
  intros H. apply starting_sets_started in H.
  split; [intros cmd'; rewrite Start_steps, H; reflexivity|].
  split; [rewrite Shell_steps, H; reflexivity|].
  destruct w' as [s' o']. cbn [fst] in H.
  unfold StdinPipe, StdoutPipe, StderrPipe. rewrite H.
  repeat split;
    [destruct (Stdin s') | destruct (Stdout s') | destruct (Stderr s')];
    eexists; reflexivity.
Qed.

Lemma start_only_once_witness :
  exists w',
    Shell (NewSession "ctl", process0 (masterSends (master_script 7) Silent)) =
      Ret tt w' /\
    Start "ls" w' = Err ErrAlreadyStarted w' /\
    Shell w' = Err ErrAlreadyStarted w'.
Proof.
  eexists. split; [vm_compute; reflexivity|].
  match goal with
  | |- Start _ ?w' = _ /\ _ =>
      assert (E : Shell (NewSession "ctl",
                         process0 (masterSends (master_script 7) Silent)) =
                  Ret tt w') by (vm_compute; reflexivity);
      destruct (start_only_once EmptyString _ w' (or_intror (conj E eq_refl)))
        as (H1 & H2 & _)
  end.
  split; [apply H1 | exact H2].
Defined.

(** X13: a start that does not succeed leaves the session as it was.
    When [Start] or [Shell] on a fresh session returns an error or hangs
    in the handshake, the streams, the copy tasks, the channels and the
    started flag are as before and no goroutine has been launched; [Wait]
    then reports that the session is not started. *)
Theorem failed_start_leaves_session cmd w :
  started (fst w) = false ->
  (forall m, m = Start cmd \/ m = Shell ->
   (forall w', m w <> Ret tt w') ->
   untouched (fst w) (fst (final (m w))) /\
   goroutines (snd (final (m w))) = goroutines (snd w) /\
   forall pick,
     Wait pick (fst (final (m w))) = Err ErrNotStarted (fst (final (m w)))).
Proof.
  intros Hst m Hm Hfail.
  assert (R : rest_of (final (m w)) = rest_of w).
  { destruct Hm as [-> | ->];
      [rewrite Start_steps in * | rewrite Shell_steps in *];
      rewrite Hst in *;
      pose proof (keeps_rest_openCtrlConn w) as K1;
      (destruct (openCtrlConn w) as [[] w1|e w1|w1]; cbn [final] in *;
       try exact K1);
      [pose proof (keeps_rest_requestMuxSession cmd w1) as K2
      |pose proof (keeps_rest_requestMuxSession EmptyString w1) as K2];
      (destruct (requestMuxSession _ w1) as [[] w2|e w2|w2]; cbn [final] in *;
       try congruence);
      match goal with
      | H : forall w', start ?x <> _ |- _ =>
          destruct (start_returns x) as [w' E]; now destruct (H w')
      end. }
  apply rest_of_untouched in R as [U G].
  split; [exact U|]. split; [exact G|].
  intros pick. rewrite Wait_steps.
  destruct U as (_ & _ & _ & _ & _ & _ & _ & -> & _). now rewrite Hst.
Qed.

Lemma failed_start_leaves_session_witness :
  untouched (NewSession "ctl")
    (set_ctrlconn (Some (masterSends [] Eof)) (NewSession "ctl")) /\
  goroutines (process0 (masterSends [] Eof)) = [] /\
  forall pick,
    Wait pick (set_ctrlconn (Some (masterSends [] Eof)) (NewSession "ctl")) =
    Err ErrNotStarted (set_ctrlconn (Some (masterSends [] Eof)) (NewSession "ctl")).
Proof.
  assert (Hne : forall w',
            Start "ls" (NewSession "ctl", process0 (masterSends [] Eof)) <>
            Ret tt w') by (intros w'; vm_compute; discriminate).
  pose proof (failed_start_leaves_session "ls"
                (NewSession "ctl", process0 (masterSends [] Eof)) eq_refl
                (Start "ls") (or_introl eq_refl) Hne) as H.
  replace (final (Start "ls" (NewSession "ctl", process0 (masterSends [] Eof))))
    with (set_ctrlconn (Some (masterSends [] Eof)) (NewSession "ctl"),
          process0 (masterSends [] Eof)) in H
    by (vm_compute; reflexivity).
  exact H.
Defined.

Section Waiting.

Lemma set_errors_same s : set_errors (errors s) s = s.
Proof. now destruct s. Qed.

Lemma copyTasks_deliver results : forall s n b,
  errors s = Some (mkChan n b) ->
  (List.length b + List.length results <= n)%nat ->
  copyTasks results s = Ret tt (set_errors (Some (mkChan n (b ++ results))) s).
Proof.
  induction results as [|r rest IH]; intros s n b He Hn; cbn [copyTasks].
  - unfold ret. rewrite app_nil_r, <- He. now rewrite set_errors_same.
  - unfold bind, copyTask, chan_send. rewrite He. cbn [cap buf].
    cbn [List.length] in Hn.
    destruct (Nat.ltb_spec (List.length b) n) as [_|Hge]; [|lia].
    rewrite (IH _ n (b ++ [r])); [|reflexivity|rewrite length_app; cbn; lia].
    rewrite <- app_assoc. reflexivity.
Qed.

Lemma drainErrors_all results : forall fns acc s n more,
  errors s = Some (mkChan n (results ++ more)) ->
  List.length fns = List.length results ->
  drainErrors fns acc s =
  Ret (match acc with Some e => Some e | None => firstError results end)
      (set_errors (Some (mkChan n more)) s).
Proof.
  induction results as [|r rest IH]; intros fns acc s n more He Hl;
    destruct fns as [|fn fns]; try discriminate; cbn [drainErrors].
  - unfold ret. cbn [app] in He. rewrite <- He, set_errors_same.
    now destruct acc.
  - unfold chan_recv. rewrite He. cbn [buf cap app].
    rewrite (IH fns _ _ n more); [|reflexivity|now injection Hl].
    destruct r as [e|], acc as [a|]; reflexivity.
Qed.

Lemma drainErrors_short results : forall fns acc s n,
  errors s = Some (mkChan n results) ->
  (List.length results < List.length fns)%nat ->
  exists s', drainErrors fns acc s = Block s'.
Proof.
  induction results as [|r rest IH]; intros fns acc s n He Hl;
    destruct fns as [|fn fns]; cbn [List.length] in Hl; try lia;
    cbn [drainErrors]; unfold chan_recv; rewrite He; cbn [buf cap].
  - now exists s.
  - apply (IH fns _ _ n); [reflexivity | lia].
Qed.

Lemma Wait_after_select pick s waitErr s1 n results :
  started s = true ->
  selectExit pick s = Ret waitErr s1 ->
  errors s = Some (mkChan n results) ->
  List.length results = List.length (copyFuncs s) ->
  errorOf (Wait pick s) =
    Some (match waitErr with Some e => Some e | None => firstError results end) /\
  stdinPipeWriter (final (Wait pick s)) =
    option_map (fun _ => true) (stdinPipeWriter s) /\
  errors (final (Wait pick s)) = Some (mkChan n []).
Proof.
  intros Hst Hsel He Hl. rewrite Wait_steps, Hst, Hsel. cbn [negb]. cbv zeta.
  pose proof (selectExit_result pick s waitErr s1 Hsel) as (He1 & Hf1 & _).
  assert (Hw1 : stdinPipeWriter s1 = stdinPipeWriter s).
  { revert Hsel. unfold selectExit.
    destruct (chan_recv (exitStatus s)) as [[? ?]|];
      destruct (chan_recv (aborted s)) as [[? ?]|]; try destruct pick;
      try discriminate; intros H; injection H as _ <-; reflexivity. }
  set (s2 := match stdinPipeWriter s1 with
             | Some _ => set_stdinPipeWriter (Some true) s1
             | None => s1
             end).
  assert (H2 : errors s2 = Some (mkChan n (results ++ [])) /\
               copyFuncs s2 = copyFuncs s /\
               stdinPipeWriter s2 = option_map (fun _ => true) (stdinPipeWriter s)).
  { unfold s2. rewrite app_nil_r, <- Hw1.
    destruct (stdinPipeWriter s1) eqn:Hw; cbn; repeat split; congruence. }
  destruct H2 as (He2 & Hf2 & Hw2).
  rewrite (drainErrors_all results (copyFuncs s2) None s2 n [] He2)
    by congruence.
  destruct waitErr as [e|]; [|destruct (firstError results)];
    cbn [errorOf final]; repeat split; try reflexivity; exact Hw2.
Qed.

End Waiting.

(** X14: no copy goroutine blocks on handing in its result.  [start]
    makes the error channel with one slot per copy task, so whatever the
    copy functions return, all results are buffered. *)
Theorem copy_tasks_never_block w w' results :
  start w = Ret tt w' ->
  List.length results = List.length (copyFuncs (fst w')) ->
  copyTasks results (fst w') =
  Ret tt (set_errors (Some (mkChan (List.length results) results)) (fst w')).
Proof.
  destruct w as [s o].
  destruct (start_result s o) as (s' & E & _ & _ & Herr & _).
  rewrite E. intros H Hl. injection H as <-. cbn [fst] in Hl |- *.
  rewrite (copyTasks_deliver results s' (List.length (copyFuncs s')) []);
    [now rewrite Hl | exact Herr | cbn; lia].
Qed.

Lemma copy_tasks_never_block_witness :
  copyTasks [None; Some (ErrCopy 1); None]
    (set_errors (make_chan 3)
       (set_copyFuncs [CopyStdin EmptyBuffer; CopyStdout; CopyStderr]
          (set_Stderr Discard (set_Stdout Discard
             (set_started true (NewSession "ctl")))))) =
  Ret tt
    (set_errors (Some (mkChan 3 [None; Some (ErrCopy 1); None]))
       (set_copyFuncs [CopyStdin EmptyBuffer; CopyStdout; CopyStderr]
          (set_Stderr Discard (set_Stdout Discard
             (set_started true (NewSession "ctl")))))).
Proof.
  apply (copy_tasks_never_block
           (NewSession "ctl", process0 (masterSends [] Eof))
           (set_errors (make_chan 3)
              (set_copyFuncs [CopyStdin EmptyBuffer; CopyStdout; CopyStderr]
                 (set_Stderr Discard (set_Stdout Discard
                    (set_started true (NewSession "ctl"))))),
            set_goroutines [GoCopy (CopyStdin EmptyBuffer); GoCopy CopyStdout;
                            GoCopy CopyStderr]
              (process0 (masterSends [] Eof)))
           [None; Some (ErrCopy 1); None]).
  - vm_compute. reflexivity.
  - reflexivity.
Defined.

(** X15: the error [Wait] returns.  With the reader's outcome in the exit
    channel, no abort signal, and one result per copy task delivered,
    [Wait] returns the reader's error if it has one, else the first
    non-nil copy error in delivery order, else nil; it has closed the
    stdin pipe writer and emptied the error channel. *)
Theorem Wait_reports pick s o n results :
  started s = true ->
  exitStatus s = Some (mkChan 1 [o]) ->
  chan_recv (aborted s) = None ->
  errors s = Some (mkChan n results) ->
  List.length results = List.length (copyFuncs s) ->
  errorOf (Wait pick s) =
    Some (match o with Some e => Some e | None => firstError results end) /\
  stdinPipeWriter (final (Wait pick s)) =
    option_map (fun _ => true) (stdinPipeWriter s) /\
  errors (final (Wait pick s)) = Some (mkChan n []).
Proof.
  intros Hst Hex Hab He Hl.
  apply (Wait_after_select pick s o (set_exitStatus (Some (mkChan 1 [])) s));
    try assumption.
  unfold selectExit. rewrite Hab, Hex. reflexivity.
Qed.

Lemma Wait_reports_witness :
  errorOf (Wait false
    (set_exitStatus (Some (mkChan 1 [None]))
       (set_errors (Some (mkChan 2 [None; Some (ErrCopy 1)]))
          (set_copyFuncs [CopyStdout; CopyStderr]
             (set_started true (NewSession "ctl")))))) =
  Some (Some (ErrCopy 1)).
Proof.
  apply (Wait_reports false
    (set_exitStatus (Some (mkChan 1 [None]))
       (set_errors (Some (mkChan 2 [None; Some (ErrCopy 1)]))
          (set_copyFuncs [CopyStdout; CopyStderr]
             (set_started true (NewSession "ctl")))))
    None 2%nat [None; Some (ErrCopy 1)]); reflexivity.
Defined.

(** X16: the abort signal.  With a signal in the abort channel and one
    result per copy task delivered, [Wait] returns the session-aborted
    error when the reader has not delivered; when the reader has delivered
    as well, either case of the [select] may run, and [Wait] returns the
    session-aborted error or the reader's outcome accordingly.  A copy
    error never replaces the session-aborted error. *)
Theorem Wait_aborted s b n results :
  started s = true ->
  aborted s = Some (mkChan 1 [b]) ->
  errors s = Some (mkChan n results) ->
  List.length results = List.length (copyFuncs s) ->
  (chan_recv (exitStatus s) = None ->
   forall pick, errorOf (Wait pick s) = Some (Some ErrSessionAborted)) /\
  (forall o, exitStatus s = Some (mkChan 1 [o]) ->
   errorOf (Wait true s) = Some (Some ErrSessionAborted) /\
   errorOf (Wait false s) =
     Some (match o with Some e => Some e | None => firstError results end)).
Proof.
  intros Hst Hab He Hl. split.
  - intros Hex pick.
    apply (Wait_after_select pick s (Some ErrSessionAborted)
             (set_aborted (Some (mkChan 1 [])) s) n results); try assumption.
    unfold selectExit. rewrite Hex, Hab. reflexivity.
  - intros o Hex. split.
    + apply (Wait_after_select true s (Some ErrSessionAborted)
               (set_aborted (Some (mkChan 1 [])) s) n results); try assumption.
      unfold selectExit. rewrite Hex, Hab. reflexivity.
    + apply (Wait_after_select false s o
               (set_exitStatus (Some (mkChan 1 [])) s) n results);
        try assumption.
      unfold selectExit. rewrite Hex, Hab. reflexivity.
Qed.

Lemma Wait_aborted_witness :
  errorOf (Wait false
    (set_aborted (Some (mkChan 1 [true]))
       (set_exitStatus (make_chan 1)
          (set_errors (Some (mkChan 1 [Some (ErrCopy 1)]))
             (set_copyFuncs [CopyStdout]
                (set_started true (NewSession "ctl"))))))) =
  Some (Some ErrSessionAborted).
Proof.
  apply (proj1 (Wait_aborted
    (set_aborted (Some (mkChan 1 [true]))
       (set_exitStatus (make_chan 1)
          (set_errors (Some (mkChan 1 [Some (ErrCopy 1)]))
             (set_copyFuncs [CopyStdout]
                (set_started true (NewSession "ctl"))))))
    true 1%nat [Some (ErrCopy 1)] eq_refl eq_refl eq_refl eq_refl) eq_refl false).
Defined.

(** X17: [Wait] on a started session does not return as long as neither
    the reader nor [Close] has signalled, or as long as a copy task has
    not delivered its result. *)
Theorem Wait_blocks_until_delivered pick s :
  started s = true ->
  (chan_recv (exitStatus s) = None /\ chan_recv (aborted s) = None) \/
  (exists n results,
     errors s = Some (mkChan n results) /\
     (List.length results < List.length (copyFuncs s))%nat) ->
  exists s', Wait pick s = Block s'.
Proof.
  intros Hst H. rewrite Wait_steps, Hst. cbn [negb].
  destruct H as [[Hex Hab] | (n & results & He & Hl)].
  - unfold selectExit. rewrite Hex, Hab. now exists s.
  - destruct (selectExit pick s) as [waitErr s1|e s1|s1] eqn:Hsel;
      [|now apply selectExit_not_Err in Hsel|now exists s1].
    pose proof (selectExit_result pick s waitErr s1 Hsel) as (He1 & Hf1 & _).
    cbv zeta.
    set (s2 := match stdinPipeWriter s1 with
               | Some _ => set_stdinPipeWriter (Some true) s1
               | None => s1
               end).
    assert (H2 : errors s2 = Some (mkChan n results) /\
                 copyFuncs s2 = copyFuncs s).
    { unfold s2. destruct (stdinPipeWriter s1); cbn; split; congruence. }
    destruct H2 as (He2 & Hf2).
    destruct (drainErrors_short results (copyFuncs s2) None s2 n He2)
      as [s' Hd]; [congruence|].
    rewrite Hd. now exists s'.
Qed.

Lemma Wait_blocks_until_delivered_witness :
  exists s',
    Wait false
      (set_exitStatus (Some (mkChan 1 [None]))
         (set_errors (Some (mkChan 2 [None]))
            (set_copyFuncs [CopyStdout; CopyStderr]
               (set_started true (NewSession "ctl"))))) = Block s'.
Proof.
  apply (Wait_blocks_until_delivered false
    (set_exitStatus (Some (mkChan 1 [None]))
       (set_errors (Some (mkChan 2 [None]))
          (set_copyFuncs [CopyStdout; CopyStderr]
             (set_started true (NewSession "ctl"))))) eq_refl).
  right. exists 2%nat, [None]. split; [reflexivity | cbn; lia].
Defined.

(** X18: the abort channel holds one signal.  After a successful [Start],
    once the reader goroutine has ended and handed over its outcome, so
    that no read on the control connection is in flight, the first
    [Close] returns nil and leaves its signal in the channel; a second
    [Close] then never returns, since that signal still fills the
    channel. *)
Theorem Close_twice_blocks cmd w w' s1 :
  Start cmd w = Ret tt w' ->
  readerTask (fst w') = Ret tt s1 ->
  exists w'',
    Close (s1, snd w') = Ret tt w'' /\
    aborted (fst w'') = Some (mkChan 1 [true]) /\
    Close w'' = Block (torn_down w'').
Proof.
  intros HS HR.
  pose proof (Start_makes_aborted cmd w w' HS) as Ha.
  rewrite <- (readerTask_Ret_aborted _ _ HR) in Ha.
  rewrite Close_outcome. cbn [fst snd]. rewrite Ha. cbn [make_chan chan_send].
  eexists. split; [reflexivity|].
  split; [reflexivity|].
  rewrite Close_outcome. reflexivity.
Qed.

Lemma Close_twice_blocks_witness :
  exists w' s1 w'',
    Start "ls" (NewSession "ctl",
                process0 (masterSends (master_script 7 ++
                            frame (uint32s [muxExitMessage; 7; 0])) Eof)) =
      Ret tt w' /\
    readerTask (fst w') = Ret tt s1 /\
    Close (s1, snd w') = Ret tt w'' /\
    aborted (fst w'') = Some (mkChan 1 [true]) /\
    Close w'' = Block (torn_down w'').
Proof.
  eexists. eexists.
  match goal with
  | |- exists w'', Start ?c ?w0 = Ret tt ?w' /\ readerTask _ = Ret tt ?s1 /\ _ =>
      assert (E : Start c w0 = Ret tt w') by (vm_compute; reflexivity);
      assert (R : readerTask (fst w') = Ret tt s1) by (vm_compute; reflexivity);
      destruct (Close_twice_blocks c w0 w' s1 E R) as (w'' & H1 & H2 & H3);
      exists w''; repeat split; assumption
  end.
Defined.

(** X19: from start to [Wait].  After a successful [Start] or [Shell],
    once the reader goroutine has put the outcome of [wait] in the exit
    channel and the copy goroutines have handed in their results, [Wait]
    returns that outcome when it is an error, else the first copy error,
    else nil. *)
Theorem start_to_Wait cmd w w' o results pick :
  Start cmd w = Ret tt w' \/ (Shell w = Ret tt w' /\ cmd = EmptyString) ->
  (Shell w = Ret tt w' -> chan_recv (aborted (fst w)) = None) ->
  errorOf (wait (fst w')) = Some o ->
  List.length results = List.length (copyFuncs (fst w')) ->
  exists s1 s2,
    readerTask (fst w') = Ret tt s1 /\
    copyTasks results s1 = Ret tt s2 /\
    errorOf (Wait pick s2) =
      Some (match o with Some e => Some e | None => firstError results end).
Proof.
  intros H Hab Ho Hl.
  assert (Hp : panicked o = false).
  { destruct (starting_connected cmd w w' H) as [c Hc].
    exact (wait_connected_no_panic (fst w') c o Hc Ho). }
  assert (Ha : chan_recv (aborted (fst w')) = None).
  { destruct H as [H | [H _]].
    - now rewrite (Start_makes_aborted cmd w w' H).
    - pose proof (keeps_aborted_Shell w) as K. rewrite H in K.
      cbn [final] in K. rewrite K. now apply Hab. }
  apply starting_inv in H as (_ & w1 & w2 & sA & _ & _ & H & Hex & _).
  apply launch in H as (Hst & Hex' & _ & _ & _ & _ & _ & Herr & _).
  rewrite Hex in Hex'.
  destruct (wait_conn_only (fst w')) as [oc Hoc].
  exists (set_exitStatus (Some (mkChan 1 [o])) (final (wait (fst w')))).
  exists (set_errors (Some (mkChan (List.length (copyFuncs (fst w'))) results))
            (set_exitStatus (Some (mkChan 1 [o])) (final (wait (fst w'))))).
  split; [now apply readerTask_delivers|].
  split.
  { rewrite (copyTasks_deliver results _ (List.length (copyFuncs (fst w'))) []);
      [reflexivity | rewrite Hoc; exact Herr | cbn; lia]. }
  rewrite Hoc.
  apply (Wait_after_select pick _ o
           (set_exitStatus (Some (mkChan 1 []))
              (set_errors (Some (mkChan (List.length (copyFuncs (fst w'))) results))
                 (set_exitStatus (Some (mkChan 1 [o]))
                    (set_ctrlconn oc (fst w')))))
           (List.length (copyFuncs (fst w'))) results).
  - exact Hst.
  - unfold selectExit.
    cbn [exitStatus aborted set_errors set_exitStatus set_ctrlconn].
    rewrite Ha. reflexivity.
  - reflexivity.
  - exact Hl.
Qed.

Lemma start_to_Wait_witness :
  exists w' s1 s2,
    Start "ls" (NewSession "ctl",
                process0 (masterSends (master_script 7 ++
                            frame (uint32s [muxExitMessage; 7; 0])) Eof)) =
      Ret tt w' /\
    readerTask (fst w') = Ret tt s1 /\
    copyTasks [None; Some (ErrCopy 2); Some (ErrCopy 3)] s1 = Ret tt s2 /\
    errorOf (Wait false s2) = Some (Some (ErrCopy 2)).
Proof.
  eexists.
  match goal with
  | |- exists s1 s2, Start ?c ?w0 = Ret tt ?w' /\ _ =>
      assert (E : Start c w0 = Ret tt w') by (vm_compute; reflexivity);
      destruct (start_to_Wait c w0 w' None
                  [None; Some (ErrCopy 2); Some (ErrCopy 3)] false
                  (or_introl E)) as (s1 & s2 & H1 & H2 & H3);
        [ intros _; reflexivity
        | vm_compute; reflexivity
        | reflexivity
        | exists s1, s2; repeat split; assumption ]
  end.
Defined.

(** X20: the reader only reads.  Whatever arrives, [wait] writes nothing
    on the control connection and passes no descriptor; what the peer
    does next is not affected. *)
Theorem wait_writes_nothing s c :
  ctrlconn s = Some c ->
  exists c',
    ctrlconn (final (wait s)) = Some c' /\
    written c' = written c /\ fds_sent c' = fds_sent c /\
    write_errs c' = write_errs c /\ peer c' = peer c.
Proof.
  intros Hc.
  destruct (wait_loop_keeps s c wm0 false Hc) as (l & Hc1).
  rewrite wait_final.
  destruct (wait_loop s wm0 false) as [r s1|e s1|s1]; cbn [final] in Hc1.
  - destruct (status (fst r) =? 0); [eexists; split; [exact Hc1 | auto]|].
    destruct (status (fst r) =? -1); [eexists; split; [exact Hc1 | auto]|].
    cbn [final]. unfold ctrlClose. rewrite Hc1. cbn [ctrlconn set_ctrlconn].
    eexists; split; [reflexivity | auto].
  - eexists; split; [exact Hc1 | auto].
  - eexists; split; [exact Hc1 | auto].
Qed.

Lemma wait_writes_nothing_witness :
  exists c',
    ctrlconn (final (wait (attached
      (mkConn (frame (uint32s [muxExitMessage; 7; 3])) Eof
              [frame (uint32s [muxMsgHello; muxVersion])] [] [Some 3%nat] false)
      7))) = Some c' /\
    written c' = [frame (uint32s [muxMsgHello; muxVersion])] /\
    fds_sent c' = [Some 3%nat] /\ write_errs c' = [] /\ peer c' = Eof.
Proof.
  apply (wait_writes_nothing
    (attached
      (mkConn (frame (uint32s [muxExitMessage; 7; 3])) Eof
              [frame (uint32s [muxMsgHello; muxVersion])] [] [Some 3%nat] false)
      7)
    (mkConn (frame (uint32s [muxExitMessage; 7; 3])) Eof
            [frame (uint32s [muxMsgHello; muxVersion])] [] [Some 3%nat] false)).
  reflexivity.
Defined.

(* ===================================================================== *)
(** * Further properties: the handshake with a master that answers *)
(* ===================================================================== *)

Section HandshakeRuns.

Lemma writePacket_healthy req s bytes :
  healthy s bytes ->
  exists s', writePacket req s = Ret tt s' /\ healthy s' bytes /\
             same_but_conn s s' /\ fds_of s' = fds_of s.
Proof.
  intros (c & Hc & Hcl & Hw & Hin).
  unfold writePacket, ctrlWrite, Conn.Write. rewrite Hc, Hcl, Hw.
  eexists. split; [reflexivity|]. split; [|split].
  - eexists. cbn. repeat split; auto.
  - eexists; reflexivity.
  - unfold fds_of. cbn. now rewrite Hc.
Qed.

Lemma recvInts_healthy s p rest vs :
  healthy s (frame p ++ rest) -> carries p vs ->
  exists s', recvInts (len vs) s = Ret vs s' /\ healthy s' rest /\
             same_but_conn s s' /\ fds_of s' = fds_of s.
Proof.
  intros (c & Hc & Hcl & Hw & Hin) Hp.
  eexists. split; [apply (recvInts_frame s c p rest vs Hc Hcl Hin Hp)|].
  split; [|split].
  - eexists. cbn. repeat split; auto.
  - eexists; reflexivity.
  - unfold fds_of. cbn. now rewrite Hc.
Qed.

Lemma sshMuxHello_healthy s p rest :
  healthy s (frame p ++ rest) -> carries p [muxMsgHello; muxVersion] ->
  exists s', sshMuxHello s = Ret tt s' /\ healthy s' rest /\
             same_but_conn s s' /\ fds_of s' = fds_of s.
Proof.
  intros Hh Hp.
  destruct (recvInts_healthy s p rest _ Hh Hp) as (s1 & E1 & H1 & S1 & F1).
  change (len [muxMsgHello; muxVersion]) with 2 in E1.
  destruct (writePacket_healthy
              (Marshal.muxMsg (mkMuxMsg muxMsgHello muxVersion)) s1 rest H1)
    as (s2 & E2 & H2 & S2 & F2).
  exists s2. unfold sshMuxHello, bind. rewrite E1.
  change (negb (elem [muxMsgHello; muxVersion] 0 =? muxMsgHello)
          || negb (elem [muxMsgHello; muxVersion] 1 =? muxVersion)) with false.
  cbv iota zeta.
  split; [exact E2|]. split; [exact H2|].
  split; [eapply same_but_conn_trans; eassumption | congruence].
Qed.

Lemma sshMuxAliveCheck_healthy s p rest pid :
  healthy s (frame p ++ rest) -> carries p [muxIsAlive; ctrlReqid s; pid] ->
  exists s', sshMuxAliveCheck s = Ret tt s' /\ healthy s' rest /\
             ctrlReqid s' = ctrlReqid s + 1 /\ term s' = term s /\
             fds_of s' = fds_of s.
Proof.
  intros Hh Hp.
  destruct (writePacket_healthy
              (Marshal.muxMsg (mkMuxMsg muxAliveCheck (uint32 (ctrlReqid s))))
              s _ Hh) as (s1 & E1 & H1 & S1 & F1).
  destruct (recvInts_healthy s1 p rest _ H1 Hp) as (s2 & E2 & H2 & S2 & F2).
  change (len [muxIsAlive; ctrlReqid s; pid]) with 3 in E2.
  pose proof (same_but_conn_fields _ _ (same_but_conn_trans _ _ _ S1 S2))
    as (Hq & Ht & _).
  unfold sshMuxAliveCheck, bind, get. rewrite E1, E2. cbn [elem nth].
  change (negb (muxIsAlive =? muxIsAlive)) with false. cbv iota.
  rewrite Hq, Z.eqb_refl. cbn [negb].
  eexists. split; [reflexivity|].
  destruct H2 as (c & Hc & Hcl & Hw & Hin).
  split; [exists c; cbn; auto|].
  cbn. repeat split; try congruence.
  unfold fds_of in *. cbn. congruence.
Qed.

Lemma sshMuxNewSession_healthy cmd s bytes :
  healthy s bytes ->
  exists s', sshMuxNewSession cmd s = Ret tt s' /\ healthy s' bytes /\
             same_but_conn s s' /\ fds_of s' = fds_of s.
Proof.
  intros Hh. unfold sshMuxNewSession, bind, get. cbv zeta.
  apply writePacket_healthy, Hh.
Qed.

Lemma pickStdin_ok s o :
  pipe_errs o = [] ->
  exists s' o',
    pickStdin (s, o) = Ret tt (s', o') /\ pipe_errs o' = [] /\
    tty_state o' = tty_state o /\ tty_makeraw o' = tty_makeraw o /\
    closed_files o' = closed_files o /\
    ctrlconn s' = ctrlconn s /\ ctrlReqid s' = ctrlReqid s /\ term s' = term s.
Proof.
  intros Hp. unfold pickStdin, os_Pipe. rewrite Hp.
  destruct (Stdin s); try destruct (lmuxStdin s);
    eexists; eexists; (split; [reflexivity|]); cbn; repeat split; auto.
Qed.

Lemma pickStdout_ok s o :
  pipe_errs o = [] ->
  exists s' o',
    pickStdout (s, o) = Ret tt (s', o') /\ pipe_errs o' = [] /\
    tty_state o' = tty_state o /\ tty_makeraw o' = tty_makeraw o /\
    closed_files o' = closed_files o /\
    ctrlconn s' = ctrlconn s /\ ctrlReqid s' = ctrlReqid s /\ term s' = term s /\
    rmuxStdin s' = rmuxStdin s.
Proof.
  intros Hp. unfold pickStdout, os_Pipe. rewrite Hp.
  destruct (Stdout s); try destruct (lmuxStdout s);
    eexists; eexists; (split; [reflexivity|]); cbn; repeat split; auto.
Qed.

Lemma pickStderr_ok s o :
  pipe_errs o = [] ->
  exists s' o',
    pickStderr (s, o) = Ret tt (s', o') /\ pipe_errs o' = [] /\
    tty_state o' = tty_state o /\ tty_makeraw o' = tty_makeraw o /\
    closed_files o' = closed_files o /\
    ctrlconn s' = ctrlconn s /\ ctrlReqid s' = ctrlReqid s /\ term s' = term s /\
    rmuxStdin s' = rmuxStdin s /\ rmuxStdout s' = rmuxStdout s.
Proof.
  intros Hp. unfold pickStderr, os_Pipe. rewrite Hp.
  destruct (Stderr s); try destruct (lmuxStderr s);
    eexists; eexists; (split; [reflexivity|]); cbn; repeat split; auto.
Qed.

Lemma sshMuxPassFileDescriptors_healthy s o p rest sid :
  healthy s (frame p ++ rest) ->
  carries p [muxSessionOpened; ctrlReqid s; sid] ->
  pipe_errs o = [] ->
  exists s' o',
    sshMuxPassFileDescriptors (s, o) = Ret tt (s', o') /\
    healthy s' rest /\
    ctrlSessid s' = sid /\ ctrlReqid s' = ctrlReqid s + 1 /\ term s' = term s /\
    fds_of s' = fds_of s ++ [rmuxStdin s'; rmuxStdout s'; rmuxStderr s'] /\
    tty_state o' = tty_state o /\ tty_makeraw o' = tty_makeraw o /\
    closed_files o' = closed_files o.
Proof.
  intros (c & Hc & Hcl & Hw & Hin) Hp Hpipe.
  destruct (pickStdin_ok s o Hpipe)
    as (s4 & o4 & E4 & P4 & T4 & R4 & X4 & C4 & Q4 & M4).
  destruct (pickStdout_ok s4 o4 P4)
    as (s5 & o5 & E5 & P5 & T5 & R5 & X5 & C5 & Q5 & M5 & I5).
  destruct (pickStderr_ok s5 o5 P5)
    as (s6 & o6 & E6 & P6 & T6 & R6 & X6 & C6 & Q6 & M6 & I6 & O6).
  assert (Hc6 : ctrlconn s6 = Some c) by congruence.
  unfold sshMuxPassFileDescriptors.
  unfold bind at 1. rewrite E4.
  unfold bind at 1. rewrite E5.
  unfold bind at 1. rewrite E6.
  unfold bind at 1. cbn [onSession modify fst snd].
  unfold bind at 1. cbn [onSession modify fst snd].
  unfold bind at 1. cbn [onSession modify fst snd].
  unfold fdPut. cbn [ctrlconn set_ctrlconn rmuxStdin rmuxStdout rmuxStderr].
  rewrite Hc6. cbn [ctrlconn set_ctrlconn rmuxStdin rmuxStdout rmuxStderr].
  set (c9 := Conn.Put (rmuxStderr s6) (Conn.Put (rmuxStdout s6)
               (Conn.Put (rmuxStdin s6) c))).
  set (s9 := set_ctrlconn (Some c9) _).
  assert (E9 : recvInts 3 s9 =
               Ret [muxSessionOpened; ctrlReqid s; sid]
                   (set_ctrlconn (Some (set_incoming rest c9)) s9)).
  { apply (recvInts_frame s9 c9 p rest [muxSessionOpened; ctrlReqid s; sid]);
      [reflexivity | exact Hcl | exact Hin | exact Hp]. }
  unfold bind at 1. unfold onSession at 1. cbn [fst snd]. rewrite E9.
  unfold bind at 1. cbn [onSession get fst snd elem nth].
  change (negb (muxSessionOpened =? muxSessionOpened)) with false. cbv iota.
  assert (Hq : ctrlReqid s6 = ctrlReqid s) by congruence.
  change (ctrlReqid (set_ctrlconn (Some (set_incoming rest c9)) s9))
    with (ctrlReqid s6).
  rewrite Hq, Z.eqb_refl. cbn [negb].
  unfold bind, onSession, modify. cbn [fst snd].
  eexists. eexists. split; [reflexivity|].
  split; [exists (set_incoming rest c9); cbn; auto|].
  cbn. unfold fds_of. rewrite Hc. cbn.
  rewrite <- !app_assoc. cbn [app].
  repeat split; congruence.
Qed.

Lemma closeRemote_ok l r s o :
  exists o', closeRemote l r (s, o) = Ret tt (s, o').
Proof.
  unfold closeRemote. destruct (l s); [destruct (r s)|]; eexists; reflexivity.
Qed.

(** The handshake up to the session-opened reply, with a master that
    answers: what is left to run is the terminal set-up and the closing of
    the remote ends. *)
Lemma handshake_opens cmd s o hello alive opened rest pid sid :
  healthy s (frame hello ++ frame alive ++ frame opened ++ rest) ->
  carries hello [muxMsgHello; muxVersion] ->
  carries alive [muxIsAlive; 0; pid] ->
  carries opened [muxSessionOpened; 1; sid] ->
  pipe_errs o = [] ->
  exists s7 o7,
    requestMuxSession cmd (s, o) =
      ((if negb (String.eqb (term s7) EmptyString) then makeRawTerm else ret tt) ;;
       closeRemote lmuxStdin rmuxStdin ;;
       closeRemote lmuxStdout rmuxStdout ;;
       closeRemote lmuxStderr rmuxStderr) (s7, o7) /\
    ctrlSessid s7 = sid /\ ctrlReqid s7 = 2 /\
    healthy s7 rest /\ term s7 = term s /\
    fds_of s7 = fds_of s ++ [rmuxStdin s7; rmuxStdout s7; rmuxStderr s7] /\
    tty_state o7 = tty_state o /\ tty_makeraw o7 = tty_makeraw o /\
    closed_files o7 = closed_files o.
Proof.
  intros Hh Hhello Halive Hopened Hpipe.
  unfold requestMuxSession.
  unfold bind at 1. cbn [onSession modify fst snd].
  assert (H0 : healthy (set_ctrlReqid 0 s)
                 (frame hello ++ frame alive ++ frame opened ++ rest)).
  { destruct Hh as (c & Hc & Hcl & Hw & Hin). exists c. auto. }
  destruct (sshMuxHello_healthy _ hello _ H0 Hhello) as (s1 & E1 & H1 & S1 & F1).
  apply same_but_conn_fields in S1 as (Q1 & M1 & _). cbn in Q1, M1.
  unfold bind at 1. unfold onSession at 1. cbn [fst snd]. rewrite E1.
  destruct (sshMuxAliveCheck_healthy s1 alive _ pid H1)
    as (s2 & E2 & H2 & Q2 & M2 & F2); [now rewrite Q1|].
  unfold bind at 1. unfold onSession at 1. cbn [fst snd]. rewrite E2.
  destruct (sshMuxNewSession_healthy cmd s2 _ H2) as (s3 & E3 & H3 & S3 & F3).
  apply same_but_conn_fields in S3 as (Q3 & M3 & _).
  unfold bind at 1. unfold onSession at 1. cbn [fst snd]. rewrite E3.
  destruct (sshMuxPassFileDescriptors_healthy s3 o opened rest sid H3)
    as (s7 & o7 & E7 & H7 & I7 & Q7 & M7 & F7 & T7 & R7 & X7);
    [replace (ctrlReqid s3) with 1 by lia; exact Hopened | exact Hpipe |].
  unfold bind at 1. rewrite E7.
  unfold bind at 1. cbn [onSession get fst snd].
  exists s7, o7. split; [reflexivity|].
  repeat split; try assumption; try lia; try congruence.
  rewrite F7. unfold fds_of in *. cbn in F1. congruence.
Qed.

End HandshakeRuns.

Section HandshakeWrites.

(** A write on a healthy connection returns and adds the framed packet. *)
Lemma writePacket_sent req s bytes :
  healthy s bytes ->
  wp (writePacket req) s
     (fun _ s' => healthy s' bytes /\ grows [frame req] s s' /\
                  ctrlReqid s' = ctrlReqid s)
     (fun _ _ => False) (fun _ => False).
Proof.
  intros Hh.
  destruct (writePacket_healthy req s bytes Hh) as (s' & E & H' & _ & _).
  pose proof (writePacket_grows req s) as G. unfold wp in *. rewrite E in *.
  destruct G. auto.
Qed.

Lemma recvInts_received s p rest vs :
  healthy s (frame p ++ rest) -> carries p vs ->
  wp (recvInts (len vs)) s
     (fun msgs s' => msgs = vs /\ healthy s' rest /\ grows [] s s' /\
                     ctrlReqid s' = ctrlReqid s)
     (fun _ _ => False) (fun _ => False).
Proof.
  intros Hh Hp.
  destruct (recvInts_healthy s p rest vs Hh Hp) as (s' & E & H' & _ & _).
  pose proof (recvInts_grows (len vs) s) as G. unfold wp in *. rewrite E in *.
  destruct G. auto.
Qed.

Lemma sshMuxHello_sent s p rest :
  healthy s (frame p ++ rest) -> carries p [muxMsgHello; muxVersion] ->
  wp sshMuxHello s
     (fun _ s' => healthy s' rest /\
                  grows [frame (uint32s [muxMsgHello; muxVersion])] s s' /\
                  ctrlReqid s' = ctrlReqid s)
     (fun _ _ => False) (fun _ => False).
Proof.
  intros Hh Hp.
  destruct (sshMuxHello_healthy s p rest Hh Hp) as (s' & E & H' & _ & _).
  pose proof (sshMuxHello_sends s) as G. unfold sends, wp, id in *.
  rewrite E in *. destruct G. auto.
Qed.

(** The alive check on a healthy connection: the request is written
    whatever comes back. *)
Lemma sshMuxAliveCheck_sent s bytes :
  healthy s bytes ->
  wp sshMuxAliveCheck s
     (fun _ s' =>
        grows [frame (uint32s [muxAliveCheck; uint32 (ctrlReqid s)])] s s' /\
        ctrlReqid s' = ctrlReqid s + 1)
     (fun _ s' =>
        grows [frame (uint32s [muxAliveCheck; uint32 (ctrlReqid s)])] s s')
     (fun s' =>
        grows [frame (uint32s [muxAliveCheck; uint32 (ctrlReqid s)])] s s').
Proof.
  intros Hh. unfold sshMuxAliveCheck. apply wp_bind, wp_get.
  cbv zeta. rewrite Marshal_muxMsg. cbn [mm_Request mm_Param]. apply wp_bind.
  eapply wp_mono;
    [apply (writePacket_sent _ s bytes Hh) | | now intros | now intros].
  intros _ s1 (H1 & G1 & R1). apply wp_bind.
  eapply wp_mono; [apply recvInts_grows | | |].
  - intros msgs s2 [G2 R2]. apply wp_bind, wp_get.
    assert (G : grows [frame (uint32s [muxAliveCheck; uint32 (ctrlReqid s)])] s s2)
      by (apply (grows_then_quiet _ s s1 s2); assumption).
    destruct (negb _); [apply wp_fail; exact G|].
    destruct (negb _); [apply wp_fail; exact G|].
    apply wp_modify. split; [exact G | cbn; congruence].
  - intros e s2 G2. apply (grows_then_quiet _ s s1 s2); assumption.
  - intros s2 G2. apply (grows_then_quiet _ s s1 s2); assumption.
Qed.

(** The alive check on a healthy connection when the reply carries the
    three fields: the type is tested before the request id. *)
Lemma sshMuxAliveCheck_replied s p rest t rid pid :
  healthy s (frame p ++ rest) -> carries p [t; rid; pid] ->
  wp sshMuxAliveCheck s
     (fun _ s' =>
        t = muxIsAlive /\ rid = ctrlReqid s /\ healthy s' rest /\
        grows [frame (uint32s [muxAliveCheck; uint32 (ctrlReqid s)])] s s' /\
        ctrlReqid s' = ctrlReqid s + 1)
     (fun e s' =>
        e = (if t =? muxIsAlive then ErrOutOfSequence t
             else ErrExpectedAlive t) /\
        grows [frame (uint32s [muxAliveCheck; uint32 (ctrlReqid s)])] s s' /\
        (t <> muxIsAlive \/ rid <> ctrlReqid s))
     (fun _ => False).
Proof.
  intros Hh Hp. unfold sshMuxAliveCheck. apply wp_bind, wp_get.
  cbv zeta. rewrite Marshal_muxMsg. cbn [mm_Request mm_Param]. apply wp_bind.
  eapply wp_mono;
    [apply (writePacket_sent _ s _ Hh) | | now intros | now intros].
  intros _ s1 (H1 & G1 & R1). apply wp_bind.
  change 3 with (len [t; rid; pid]).
  eapply wp_mono;
    [apply (recvInts_received s1 p rest _ H1 Hp) | | now intros | now intros].
  intros msgs s2 (-> & H2 & G2 & R2). apply wp_bind, wp_get. cbn [elem nth].
  assert (G : grows [frame (uint32s [muxAliveCheck; uint32 (ctrlReqid s)])] s s2)
    by (apply (grows_then_quiet _ s s1 s2); assumption).
  destruct (Z.eqb_spec t muxIsAlive) as [Et|Et]; cbn [negb].
  2:{ apply wp_fail. auto. }
  destruct (Z.eqb_spec rid (ctrlReqid s2)) as [Er|Er]; cbn [negb].
  2:{ apply wp_fail. split; [reflexivity|]. split; [exact G|].
      right. congruence. }
  apply wp_modify.
  split; [exact Et|]. split; [congruence|].
  split; [destruct H2 as (c & Hc & Hcl & Hw & Hin); exists c; cbn; auto|].
  split; [|cbn; congruence].
  destruct G as [Gw Gt]. split; [exact Gw | exact Gt].
Qed.

Lemma sshMuxNewSession_sent cmd s bytes :
  healthy s bytes ->
  wp (sshMuxNewSession cmd) s
     (fun _ s' =>
        healthy s' bytes /\
        grows [frame (Marshal.muxNewSessionMsg (newSessionMsg s cmd))] s s' /\
        ctrlReqid s' = ctrlReqid s)
     (fun _ _ => False) (fun _ => False).
Proof.
  intros Hh. unfold sshMuxNewSession. apply wp_bind, wp_get. cbv zeta.
  apply writePacket_sent, Hh.
Qed.

(** The descriptor hand-off on a healthy connection when the reply
    carries the three fields and [os.Pipe] succeeds: the type is tested
    before the request id, and nothing is written. *)
Lemma sshMuxPassFileDescriptors_replied s o p rest t rid sid :
  healthy s (frame p ++ rest) -> carries p [t; rid; sid] ->
  pipe_errs o = [] ->
  wp sshMuxPassFileDescriptors (s, o)
     (fun _ _ => t = muxSessionOpened /\ rid = ctrlReqid s)
     (fun e w' =>
        e = (if t =? muxSessionOpened then ErrOutOfSequence t
             else ErrExpectedSessionOpened t) /\
        grows [] s (fst w'))
     (fun _ => False).
Proof.
  intros (c & Hc & Hcl & Hw & Hin) Hp Hpipe.
  assert (E : match sshMuxPassFileDescriptors (s, o) with
              | Ret _ _ => t = muxSessionOpened /\ rid = ctrlReqid s
              | Err e _ => e = (if t =? muxSessionOpened then ErrOutOfSequence t
                                else ErrExpectedSessionOpened t)
              | Block _ => False
              end).
  { destruct (pickStdin_ok s o Hpipe)
      as (s4 & o4 & E4 & P4 & T4 & R4 & X4 & C4 & Q4 & M4).
    destruct (pickStdout_ok s4 o4 P4)
      as (s5 & o5 & E5 & P5 & T5 & R5 & X5 & C5 & Q5 & M5 & I5).
    destruct (pickStderr_ok s5 o5 P5)
      as (s6 & o6 & E6 & P6 & T6 & R6 & X6 & C6 & Q6 & M6 & I6 & O6).
    assert (Hc6 : ctrlconn s6 = Some c) by congruence.
    unfold sshMuxPassFileDescriptors.
    unfold bind at 1. rewrite E4.
    unfold bind at 1. rewrite E5.
    unfold bind at 1. rewrite E6.
    unfold bind at 1. cbn [onSession modify fst snd].
    unfold bind at 1. cbn [onSession modify fst snd].
    unfold bind at 1. cbn [onSession modify fst snd].
    unfold fdPut. cbn [ctrlconn set_ctrlconn rmuxStdin rmuxStdout rmuxStderr].
    rewrite Hc6. cbn [ctrlconn set_ctrlconn rmuxStdin rmuxStdout rmuxStderr].
    set (c9 := Conn.Put (rmuxStderr s6) (Conn.Put (rmuxStdout s6)
                 (Conn.Put (rmuxStdin s6) c))).
    set (s9 := set_ctrlconn (Some c9) _).
    assert (E9 : recvInts 3 s9 =
                 Ret [t; rid; sid]
                     (set_ctrlconn (Some (set_incoming rest c9)) s9)).
    { apply (recvInts_frame s9 c9 p rest [t; rid; sid]);
        [reflexivity | exact Hcl | exact Hin | exact Hp]. }
    unfold bind at 1. unfold onSession at 1. cbn [fst snd]. rewrite E9.
    unfold bind at 1. cbn [onSession get fst snd elem nth].
    assert (Hq : ctrlReqid s6 = ctrlReqid s) by congruence.
    change (ctrlReqid (set_ctrlconn (Some (set_incoming rest c9)) s9))
      with (ctrlReqid s6).
    rewrite Hq.
    destruct (Z.eqb_spec t muxSessionOpened) as [Et|Et]; cbn [negb];
      [|reflexivity].
    destruct (Z.eqb_spec rid (ctrlReqid s)) as [Er|Er]; cbn [negb];
      [|reflexivity].
    unfold bind, onSession, modify. cbn [fst snd]. auto. }
  pose proof (sshMuxPassFileDescriptors_sends (s, o)) as G.
  unfold sends, wp in *. cbn [fst] in G.
  destruct (sshMuxPassFileDescriptors (s, o)) as [a w'|e w'|w'].
  - exact E.
  - split; [exact E|]. destruct G as [k G]. now rewrite firstn_nil in G.
  - exact E.
Qed.

(** From the descriptor hand-off to the end of the handshake nothing is
    written, however the run ends. *)
Lemma handshake_end_sends w :
  sends fst
    (sshMuxPassFileDescriptors ;;
     s <- onSession get ;;
     (if negb (String.eqb (term s) EmptyString) then makeRawTerm else ret tt) ;;
     closeRemote lmuxStdin rmuxStdin ;;
     closeRemote lmuxStdout rmuxStdout ;;
     closeRemote lmuxStderr rmuxStderr) w [] (fun _ => True).
Proof.
  change (@nil (list byte))
    with ([] ++ [] ++ [] ++ [] ++ [] ++ @nil (list byte)).
  eapply sends_bind; [apply sshMuxPassFileDescriptors_sends|].
  cbv beta. intros _ w5 _ _ _.
  eapply (sends_bind fst _ _ w5 [] _ (fun _ => True)).
  { unfold sends. apply wp_onSession, wp_get.
    split; [apply grows_refl | exact I]. }
  cbv beta. intros s5 w6 _ _ _.
  eapply sends_bind.
  { apply (sends_quiet _ w6).
    destruct (negb _); [apply quiet_makeRawTerm | apply quiet_ret]. }
  cbv beta. intros _ w7 _ _ _.
  eapply sends_bind; [apply sends_quiet, quiet_closeRemote|].
  cbv beta. intros _ w8 _ _ _.
  eapply sends_bind; [apply sends_quiet, quiet_closeRemote|].
  cbv beta. intros _ w9 _ _ _.
  eapply sends_mono; [apply sends_quiet, quiet_closeRemote|]. auto.
Qed.

Lemma handshake_end_quiet w :
  wp (sshMuxPassFileDescriptors ;;
      s <- onSession get ;;
      (if negb (String.eqb (term s) EmptyString) then makeRawTerm else ret tt) ;;
      closeRemote lmuxStdin rmuxStdin ;;
      closeRemote lmuxStdout rmuxStdout ;;
      closeRemote lmuxStderr rmuxStderr) w
     (fun _ w' => grows [] (fst w) (fst w'))
     (fun _ w' => grows [] (fst w) (fst w'))
     (fun w' => grows [] (fst w) (fst w')).
Proof.
  eapply wp_mono; [apply (handshake_end_sends w) | | |]; cbv beta.
  - now intros _ w' [G _].
  - intros _ w' [k G]. now rewrite firstn_nil in G.
  - intros w' [k G]. now rewrite firstn_nil in G.
Qed.

(** The handshake once the hello has come in on a healthy connection:
    the hello reply is written and the alive check is about to run with
    request id 0. *)
Lemma handshake_after_hello cmd s o hello rest
    (Qret : unit -> Session * OS -> Prop) Qerr Qblock :
  healthy s (frame hello ++ rest) ->
  carries hello [muxMsgHello; muxVersion] ->
  (forall s1,
     healthy s1 rest ->
     grows [frame (uint32s [muxMsgHello; muxVersion])] s s1 ->
     ctrlReqid s1 = 0 ->
     wp (onSession sshMuxAliveCheck ;;
         onSession (sshMuxNewSession cmd) ;;
         sshMuxPassFileDescriptors ;;
         s <- onSession get ;;
         (if negb (String.eqb (term s) EmptyString) then makeRawTerm else ret tt) ;;
         closeRemote lmuxStdin rmuxStdin ;;
         closeRemote lmuxStdout rmuxStdout ;;
         closeRemote lmuxStderr rmuxStderr) (s1, o) Qret Qerr Qblock) ->
  wp (requestMuxSession cmd) (s, o) Qret Qerr Qblock.
Proof.
  intros Hh Hp Hk. unfold requestMuxSession.
  apply wp_bind, wp_onSession, wp_modify. cbn [fst snd].
  assert (H0 : healthy (set_ctrlReqid 0 s) (frame hello ++ rest)).
  { destruct Hh as (c & Hc & Hcl & Hw & Hin). exists c. auto. }
  apply wp_bind, wp_onSession. cbn [fst snd].
  eapply wp_mono;
    [apply (sshMuxHello_sent _ hello rest H0 Hp) | | now intros | now intros].
  intros _ s1 (H1 & G1 & R1). cbv beta.
  apply Hk; [exact H1 | | exact R1].
  destruct G1 as [Gw Gt]. split; [exact Gw | exact Gt].
Qed.

(** The same, once the alive reply to request 0 has also come in: the
    alive check is written and the session request is about to be sent
    with request id 1. *)
Lemma handshake_after_alive cmd s o hello alive rest pid
    (Qret : unit -> Session * OS -> Prop) Qerr Qblock :
  healthy s (frame hello ++ frame alive ++ rest) ->
  carries hello [muxMsgHello; muxVersion] ->
  carries alive [muxIsAlive; 0; pid] ->
  (forall s3,
     healthy s3 rest ->
     grows (handshake_requests (term s) cmd) s s3 ->
     ctrlReqid s3 = 1 ->
     wp (sshMuxPassFileDescriptors ;;
         s <- onSession get ;;
         (if negb (String.eqb (term s) EmptyString) then makeRawTerm else ret tt) ;;
         closeRemote lmuxStdin rmuxStdin ;;
         closeRemote lmuxStdout rmuxStdout ;;
         closeRemote lmuxStderr rmuxStderr) (s3, o) Qret Qerr Qblock) ->
  wp (requestMuxSession cmd) (s, o) Qret Qerr Qblock.
Proof.
  intros Hh Hp Ha Hk.
  apply (handshake_after_hello cmd s o hello _ _ _ _ Hh Hp).
  intros s1 H1 G1 R1.
  apply wp_bind, wp_onSession. cbn [fst snd].
  eapply wp_mono;
    [apply (sshMuxAliveCheck_replied s1 alive rest muxIsAlive 0 pid H1 Ha)
    | | | now intros].
  2:{ intros e s2 (_ & _ & [Hne|Hne]); exfalso; [now apply Hne | lia]. }
  intros _ s2 (_ & _ & H2 & G2 & R2). cbv beta.
  apply wp_bind, wp_onSession. cbn [fst snd].
  eapply wp_mono;
    [apply (sshMuxNewSession_sent cmd s2 rest H2) | | now intros | now intros].
  intros _ s3 (H3 & G3 & R3). cbv beta.
  apply Hk; [exact H3 | | lia].
  rewrite R1 in G2. change (uint32 0) with 0 in G2.
  rewrite (newSessionMsg_request_id s2 cmd 1) in G3; [|lia|lia].
  replace (term s2) with (term s) in G3
    by (destruct G1 as [_ T1]; destruct G2 as [_ T2]; congruence).
  apply (grows_trans _ _ _ _ _ G1) in G2.
  apply (grows_trans _ _ _ _ _ G2) in G3. exact G3.
Qed.

End HandshakeWrites.

(** C5: within one handshake the request ids start at 0 and go up by one
    per request.  Whatever the master answers, the packets written are, in
    order, the hello reply, the alive check with request id 0 and the
    session request with request id 1 (all three when the handshake
    succeeds, which leaves the counter at 2).  When the alive reply or the
    session-opened reply echoes another request id than the one just sent,
    the handshake returns an error: it neither succeeds nor hangs.

    On a connection that is open and on which writes succeed the requests
    are sent indeed.  Once the hello of the master has come in, the hello
    reply and the alive check with request id 0 are written, however the
    handshake ends; once the alive reply to request 0 has come in too, the
    session request with request id 1 is written as well, however the
    handshake ends.  An alive reply with another request id than 0 ends
    the handshake right after the alive check, with the out-of-sequence
    error when its type is the alive type and the expected-alive error
    otherwise; when [os.Pipe] succeeds, a session-opened reply with
    another request id than 1 ends it after all three requests, with the
    out-of-sequence error when its type is the session-opened type and
    the expected-session-opened error otherwise. *)
Theorem handshake_request_ids cmd s o :
  (exists k,
     writes_of (fst (final (requestMuxSession cmd (s, o)))) =
     writes_of s ++ firstn k (handshake_requests (term s) cmd)) /\
  (forall w',
     requestMuxSession cmd (s, o) = Ret tt w' ->
     writes_of (fst w') = writes_of s ++ handshake_requests (term s) cmd /\
     ctrlReqid (fst w') = 2) /\
  (forall hello reply rest t rid pid,
     reading s (frame hello ++ frame reply ++ rest) ->
     carries hello [muxMsgHello; muxVersion] ->
     carries reply [t; rid; pid] ->
     rid <> 0 ->
     exists e w',
       requestMuxSession cmd (s, o) = Err e w' /\
       (e = ErrWriteCtrl \/ e = ErrExpectedAlive t \/ e = ErrOutOfSequence t)) /\
  (forall hello alive reply rest pid t rid sid,
     reading s (frame hello ++ frame alive ++ frame reply ++ rest) ->
     carries hello [muxMsgHello; muxVersion] ->
     carries alive [muxIsAlive; 0; pid] ->
     carries reply [t; rid; sid] ->
     rid <> 1 ->
     exists e w',
       requestMuxSession cmd (s, o) = Err e w' /\
       (e = ErrWriteCtrl \/ e = ErrPipe \/
        e = ErrExpectedSessionOpened t \/ e = ErrOutOfSequence t)) /\
  (forall hello rest,
     healthy s (frame hello ++ rest) ->
     carries hello [muxMsgHello; muxVersion] ->
     exists k,
       (2 <= k)%nat /\
       writes_of (fst (final (requestMuxSession cmd (s, o)))) =
       writes_of s ++ firstn k (handshake_requests (term s) cmd)) /\
  (forall hello alive rest pid,
     healthy s (frame hello ++ frame alive ++ rest) ->
     carries hello [muxMsgHello; muxVersion] ->
     carries alive [muxIsAlive; 0; pid] ->
     writes_of (fst (final (requestMuxSession cmd (s, o)))) =
     writes_of s ++ handshake_requests (term s) cmd) /\
  (forall hello reply rest t rid pid,
     healthy s (frame hello ++ frame reply ++ rest) ->
     carries hello [muxMsgHello; muxVersion] ->
     carries reply [t; rid; pid] ->
     rid <> 0 ->
     exists w',
       requestMuxSession cmd (s, o) =
         Err (if t =? muxIsAlive then ErrOutOfSequence t
              else ErrExpectedAlive t) w' /\
       writes_of (fst w') =
         writes_of s ++ [frame (uint32s [muxMsgHello; muxVersion]);
                         frame (uint32s [muxAliveCheck; 0])]) /\
  (forall hello alive reply rest pid t rid sid,
     healthy s (frame hello ++ frame alive ++ frame reply ++ rest) ->
     carries hello [muxMsgHello; muxVersion] ->
     carries alive [muxIsAlive; 0; pid] ->
     carries reply [t; rid; sid] ->
     pipe_errs o = [] ->
     rid <> 1 ->
     exists w',
       requestMuxSession cmd (s, o) =
         Err (if t =? muxSessionOpened then ErrOutOfSequence t
              else ErrExpectedSessionOpened t) w' /\
       writes_of (fst w') = writes_of s ++ handshake_requests (term s) cmd).
Proof.
  pose proof (requestMuxSession_sends cmd (s, o)) as Hsends.
  unfold sends, wp in Hsends. cbn [fst] in Hsends.
  split; [|split; [|split; [|split; [|split; [|split; [|split]]]]]].
  - destruct (requestMuxSession cmd (s, o)) as [a w'|e w'|w']; cbn [final].
    + destruct Hsends as [[G _] _].
      exists 3%nat. exact G.
    + destruct Hsends as [k [G _]]. now exists k.
    + destruct Hsends as [k [G _]]. now exists k.
  - intros w' E. rewrite E in Hsends. destruct Hsends as [[G _] R]. auto.
  - intros hello reply rest t rid pid Hr Hh Hp Hne.
    assert (H : wp (requestMuxSession cmd) (s, o)
                  (fun _ _ => False)
                  (fun e _ => e = ErrWriteCtrl \/ e = ErrExpectedAlive t \/
                              e = ErrOutOfSequence t)
                  (fun _ => False)).
    { unfold requestMuxSession.
      apply wp_bind, wp_onSession, wp_modify. cbn [fst snd].
      assert (Hr0 : reading (set_ctrlReqid 0 s) (frame hello ++ frame reply ++ rest)).
      { destruct Hr as (c & Hc & Hcl & Hin). exists c. auto. }
      apply wp_bind, wp_onSession. cbn [fst snd].
      eapply wp_mono; [apply (sshMuxHello_reading _ hello _ Hr0 Hh) | | auto | auto].
      intros _ s1 [R1 S1]. cbv beta.
      apply same_but_conn_fields in S1 as (Q1 & _ & _). cbn in Q1.
      apply wp_bind, wp_onSession. cbn [fst snd].
      eapply wp_mono;
        [apply (sshMuxAliveCheck_reading s1 reply rest t rid pid R1 Hp) | | | auto].
      + intros _ s2 (_ & Hrid & _). congruence.
      + intros e s2 [->|[[_ ->]|[_ ->]]]; auto. }
    unfold wp in H.
    destruct (requestMuxSession cmd (s, o)) as [a w'|e w'|w'];
      [contradiction | eauto | contradiction].
  - intros hello alive reply rest pid t rid sid Hr Hh Ha Hp Hne.
    assert (H : wp (requestMuxSession cmd) (s, o)
                  (fun _ _ => False)
                  (fun e _ => e = ErrWriteCtrl \/ e = ErrPipe \/
                              e = ErrExpectedSessionOpened t \/
                              e = ErrOutOfSequence t)
                  (fun _ => False)).
    { unfold requestMuxSession.
      apply wp_bind, wp_onSession, wp_modify. cbn [fst snd].
      assert (Hr0 : reading (set_ctrlReqid 0 s)
                      (frame hello ++ frame alive ++ frame reply ++ rest)).
      { destruct Hr as (c & Hc & Hcl & Hin). exists c. auto. }
      apply wp_bind, wp_onSession. cbn [fst snd].
      eapply wp_mono; [apply (sshMuxHello_reading _ hello _ Hr0 Hh) | | auto | auto].
      intros _ s1 [R1 S1]. cbv beta.
      apply same_but_conn_fields in S1 as (Q1 & _ & _). cbn in Q1.
      apply wp_bind, wp_onSession. cbn [fst snd].
      eapply wp_mono;
        [apply (sshMuxAliveCheck_reading s1 alive _ _ _ _ R1 Ha) | | | auto].
      2:{ intros e s2 [->|[[Hc _]|[Hc _]]]; auto; congruence. }
      intros _ s2 (_ & _ & R2 & Q2 & _). cbv beta.
      apply wp_bind, wp_onSession. cbn [fst snd].
      eapply wp_mono;
        [apply (sshMuxNewSession_reading cmd s2 _ R2) | | auto | auto].
      intros _ s3 [R3 S3]. cbv beta.
      apply same_but_conn_fields in S3 as (Q3 & _ & _).
      apply wp_bind.
      eapply wp_mono;
        [apply (sshMuxPassFileDescriptors_reading (s3, o) reply rest t rid sid R3 Hp)
        | | | auto].
      + intros _ w4 [_ Hrid]. cbn [fst] in Hrid. lia.
      + intros e w4 [->|[[_ ->]|[_ ->]]]; auto. }
    unfold wp in H.
    destruct (requestMuxSession cmd (s, o)) as [a w'|e w'|w'];
      [contradiction | eauto | contradiction].
  - intros hello rest Hh Hp.
    set (P := fun w' : Session * OS =>
                exists k, (2 <= k)%nat /\
                  writes_of (fst w') =
                  writes_of s ++ firstn k (handshake_requests (term s) cmd)).
    assert (H : wp (requestMuxSession cmd) (s, o)
                  (fun _ w' => P w') (fun _ w' => P w') P).
    { apply (handshake_after_hello cmd s o hello rest _ _ _ Hh Hp).
      intros s1 H1 [W1 T1] R1.
      apply wp_bind, wp_onSession. cbn [fst snd].
      eapply wp_mono; [apply (sshMuxAliveCheck_sent s1 rest H1) | | |];
        cbv beta; rewrite R1; change (uint32 0) with 0.
      2,3: intros; match goal with
                   | G : grows _ _ _ |- _ => destruct G as [W2 T2]
                   end;
           exists 2%nat; split; [lia|]; cbn [fst firstn handshake_requests];
           rewrite W2, W1, <- app_assoc; reflexivity.
      intros _ s2 [[W2 T2] R2].
      match goal with
      | |- wp ?m ?w _ _ _ =>
          assert (Hs : sends fst m w
                        ([frame (Marshal.muxNewSessionMsg
                                   (newSessionMsg s2 cmd))] ++ [])
                        (fun _ => True))
      end.
      { eapply sends_bind; [apply sends_onSession, sshMuxNewSession_sends|].
        intros. apply handshake_end_sends. }
      rewrite (newSessionMsg_request_id s2 cmd 1) in Hs; [|lia|lia].
      replace (term s2) with (term s) in Hs by congruence.
      unfold sends in Hs. cbn [fst] in Hs.
      eapply wp_mono; [exact Hs | | |]; cbv beta.
      - intros _ w' [[W3 T3] _]. exists 3%nat. split; [lia|].
        cbn [firstn handshake_requests].
        rewrite W3, W2, W1, <- !app_assoc. reflexivity.
      - intros _ w' [j [W3 T3]]. exists (S (S j)). split; [lia|].
        cbn [firstn handshake_requests].
        rewrite W3, W2, W1, <- !app_assoc. cbn [app].
        destruct j; reflexivity.
      - intros w' [j [W3 T3]]. exists (S (S j)). split; [lia|].
        cbn [firstn handshake_requests].
        rewrite W3, W2, W1, <- !app_assoc. cbn [app].
        destruct j; reflexivity. }
    unfold wp in H.
    destruct (requestMuxSession cmd (s, o)) as [a w'|e w'|w']; exact H.
  - intros hello alive rest pid Hh Hp Ha.
    set (P := fun w' : Session * OS =>
                writes_of (fst w') =
                writes_of s ++ handshake_requests (term s) cmd).
    assert (H : wp (requestMuxSession cmd) (s, o)
                  (fun _ w' => P w') (fun _ w' => P w') P).
    { apply (handshake_after_alive cmd s o hello alive rest pid _ _ _ Hh Hp Ha).
      intros s3 H3 [W3 T3] R3.
      eapply wp_mono; [apply (handshake_end_quiet (s3, o)) | | |];
        cbv beta; cbn [fst]; intros; unfold P;
        match goal with
        | G : grows _ _ _ |- _ => destruct G as [W4 T4]
        end;
        rewrite W4, W3, app_nil_r; reflexivity. }
    unfold wp in H.
    destruct (requestMuxSession cmd (s, o)) as [a w'|e w'|w']; exact H.
  - intros hello reply rest t rid pid Hh Hp Hr Hne.
    assert (H : wp (requestMuxSession cmd) (s, o)
                  (fun _ _ => False)
                  (fun e w' =>
                     e = (if t =? muxIsAlive then ErrOutOfSequence t
                          else ErrExpectedAlive t) /\
                     writes_of (fst w') =
                       writes_of s ++ [frame (uint32s [muxMsgHello; muxVersion]);
                                       frame (uint32s [muxAliveCheck; 0])])
                  (fun _ => False)).
    { apply (handshake_after_hello cmd s o hello _ _ _ _ Hh Hp).
      intros s1 H1 [W1 T1] R1.
      apply wp_bind, wp_onSession. cbn [fst snd].
      eapply wp_mono;
        [apply (sshMuxAliveCheck_replied s1 reply rest t rid pid H1 Hr)
        | | | now intros]; cbv beta.
      - intros _ s2 (_ & Hrid & _). congruence.
      - intros e s2 (-> & [W2 T2] & _). split; [reflexivity|].
        rewrite R1 in W2. change (uint32 0) with 0 in W2.
        rewrite W2, W1, <- app_assoc. reflexivity. }
    unfold wp in H.
    destruct (requestMuxSession cmd (s, o)) as [a w'|e w'|w'];
      [contradiction | | contradiction].
    destruct H as [-> W]. now exists w'.
  - intros hello alive reply rest pid t rid sid Hh Hp Ha Hr Hpipe Hne.
    assert (H : wp (requestMuxSession cmd) (s, o)
                  (fun _ _ => False)
                  (fun e w' =>
                     e = (if t =? muxSessionOpened then ErrOutOfSequence t
                          else ErrExpectedSessionOpened t) /\
                     writes_of (fst w') =
                       writes_of s ++ handshake_requests (term s) cmd)
                  (fun _ => False)).
    { apply (handshake_after_alive cmd s o hello alive _ pid _ _ _ Hh Hp Ha).
      intros s3 H3 [W3 T3] R3.
      apply wp_bind.
      eapply wp_mono;
        [apply (sshMuxPassFileDescriptors_replied s3 o reply rest t rid sid
                  H3 Hr Hpipe)
        | | | now intros]; cbv beta.
      - intros _ w4 [_ Hrid]. lia.
      - intros e w4 (-> & [W4 T4]). split; [reflexivity|].
        rewrite W4, W3, app_nil_r. reflexivity. }
    unfold wp in H.
    destruct (requestMuxSession cmd (s, o)) as [a w'|e w'|w'];
      [contradiction | | contradiction].
    destruct H as [-> W]. now exists w'.
Qed.

Lemma handshake_request_ids_witness :
  (exists w',
     requestMuxSession "ls"
       (attached (masterSends (frame (uint32s [muxMsgHello; muxVersion]) ++
                               frame (uint32s [muxIsAlive; 5; 4242]) ++ [])
                              Silent) 0,
        process0 (masterSends [] Eof)) =
       Err (ErrOutOfSequence muxIsAlive) w' /\
     writes_of (fst w') =
       [frame (uint32s [muxMsgHello; muxVersion]);
        frame (uint32s [muxAliveCheck; 0])]) /\
  (exists w',
     requestMuxSession "ls"
       (attached (masterSends (frame (uint32s [muxMsgHello; muxVersion]) ++
                               frame (uint32s [muxIsAlive; 0; 4242]) ++
                               frame (uint32s [muxSessionOpened; 7; 9]) ++ [])
                              Silent) 0,
        process0 (masterSends [] Eof)) =
       Err (ErrOutOfSequence muxSessionOpened) w' /\
     writes_of (fst w') = handshake_requests EmptyString "ls") /\
  writes_of
    (fst (final
       (requestMuxSession "ls"
          (attached (masterSends (frame (uint32s [muxMsgHello; muxVersion]) ++
                                  frame (uint32s [muxIsAlive; 0; 4242]) ++ [])
                                 Silent) 0,
           process0 (masterSends [] Eof))))) =
    handshake_requests EmptyString "ls".
Proof.
  assert (C2 : carries (uint32s [muxMsgHello; muxVersion])
                 [muxMsgHello; muxVersion]).
  { split; [reflexivity|].
    split; [repeat (apply Forall_cons; [in_range|]); apply Forall_nil|].
    exists []. reflexivity. }
  assert (C3 : forall t rid v,
             0 <= t < 2 ^ 32 -> 0 <= rid < 2 ^ 32 -> 0 <= v < 2 ^ 32 ->
             carries (uint32s [t; rid; v]) [t; rid; v]).
  { intros t rid v Ht Hrid Hv. split; [reflexivity|].
    split; [repeat (apply Forall_cons; [assumption|]); apply Forall_nil|].
    exists []. reflexivity. }
  split; [|split].
  - refine (proj1 (proj2 (proj2 (proj2 (proj2 (proj2 (proj2
      (handshake_request_ids "ls"
         (attached (masterSends (frame (uint32s [muxMsgHello; muxVersion]) ++
                                 frame (uint32s [muxIsAlive; 5; 4242]) ++ [])
                                Silent) 0)
         (process0 (masterSends [] Eof)))))))))
      (uint32s [muxMsgHello; muxVersion]) (uint32s [muxIsAlive; 5; 4242]) []
      muxIsAlive 5 4242 _ C2 (C3 _ _ _ _ _ _) _).
    + eexists. split; [reflexivity|]. split; [reflexivity|].
      split; reflexivity.
    + in_range.
    + in_range.
    + in_range.
    + discriminate.
  - refine (proj2 (proj2 (proj2 (proj2 (proj2 (proj2 (proj2
      (handshake_request_ids "ls"
         (attached (masterSends (frame (uint32s [muxMsgHello; muxVersion]) ++
                                 frame (uint32s [muxIsAlive; 0; 4242]) ++
                                 frame (uint32s [muxSessionOpened; 7; 9]) ++ [])
                                Silent) 0)
         (process0 (masterSends [] Eof)))))))))
      (uint32s [muxMsgHello; muxVersion]) (uint32s [muxIsAlive; 0; 4242])
      (uint32s [muxSessionOpened; 7; 9]) [] 4242
      muxSessionOpened 7 9 _ C2 (C3 _ _ _ _ _ _) (C3 _ _ _ _ _ _) eq_refl _).
    + eexists. split; [reflexivity|]. split; [reflexivity|].
      split; reflexivity.
    + in_range.
    + in_range.
    + in_range.
    + in_range.
    + in_range.
    + in_range.
    + discriminate.
  - refine (proj1 (proj2 (proj2 (proj2 (proj2 (proj2
      (handshake_request_ids "ls"
         (attached (masterSends (frame (uint32s [muxMsgHello; muxVersion]) ++
                                 frame (uint32s [muxIsAlive; 0; 4242]) ++ [])
                                Silent) 0)
         (process0 (masterSends [] Eof))))))))
      (uint32s [muxMsgHello; muxVersion]) (uint32s [muxIsAlive; 0; 4242]) []
      4242 _ C2 (C3 _ _ _ _ _ _)).
    + eexists. split; [reflexivity|]. split; [reflexivity|].
      split; reflexivity.
    + in_range.
    + in_range.
    + in_range.
Defined.

(** X21: the handshake with a master that answers.  When the master has
    sent its hello, the alive reply to request 0 and the session-opened
    reply to request 1 announcing the session id, every write succeeds,
    [os.Pipe] succeeds, and no terminal is requested or the terminal is
    already in the state [MakeRaw] leaves, then the handshake returns nil:
    the session id is recorded, the request counter is at 2, what the
    master sent after the three replies is still unread, and the three
    remote descriptors were passed in the order stdin, stdout, stderr. *)
Theorem handshake_succeeds cmd s o hello alive opened rest pid sid :
  healthy s (frame hello ++ frame alive ++ frame opened ++ rest) ->
  carries hello [muxMsgHello; muxVersion] ->
  carries alive [muxIsAlive; 0; pid] ->
  carries opened [muxSessionOpened; 1; sid] ->
  pipe_errs o = [] ->
  (term s = EmptyString \/
   exists st, tty_makeraw o = Some st /\ tty_state o = Some st) ->
  exists w',
    requestMuxSession cmd (s, o) = Ret tt w' /\
    ctrlSessid (fst w') = sid /\ ctrlReqid (fst w') = 2 /\
    healthy (fst w') rest /\
    fds_of (fst w') =
      fds_of s ++ [rmuxStdin (fst w'); rmuxStdout (fst w'); rmuxStderr (fst w')].
Proof.
  intros Hh Hhello Halive Hopened Hpipe Htty.
  destruct (handshake_opens cmd s o hello alive opened rest pid sid
              Hh Hhello Halive Hopened Hpipe)
    as (s7 & o7 & E & I7 & Q7 & H7 & M7 & F7 & T7 & R7 & _).
  rewrite E.
  assert (Hraw : exists o8,
            (if negb (String.eqb (term s7) EmptyString)
             then makeRawTerm else ret tt) (s7, o7) = Ret tt (s7, o8)).
  { destruct Htty as [Ht | (st & Hr & Hs)].
    - replace (term s7) with EmptyString by congruence. now exists o7.
    - destruct (negb _); [|now exists o7].
      unfold makeRawTerm. cbn [snd]. rewrite R7, T7, Hr, Hs, Z.eqb_refl.
      now exists o7. }
  destruct Hraw as (o8 & E8).
  unfold bind at 1. rewrite E8.
  destruct (closeRemote_ok lmuxStdin rmuxStdin s7 o8) as (o9 & E9).
  unfold bind at 1. rewrite E9.
  destruct (closeRemote_ok lmuxStdout rmuxStdout s7 o9) as (o10 & E10).
  unfold bind at 1. rewrite E10.
  destruct (closeRemote_ok lmuxStderr rmuxStderr s7 o10) as (o11 & E11).
  rewrite E11.
  exists (s7, o11). split; [reflexivity|]. cbn [fst].
  repeat split; assumption.
Qed.

Lemma handshake_succeeds_witness :
  exists w',
    requestMuxSession "ls"
      (attached (masterSends (master_script 7) Silent) 0,
       process0 (masterSends [] Eof)) = Ret tt w' /\
    ctrlSessid (fst w') = 7 /\ ctrlReqid (fst w') = 2 /\
    healthy (fst w') [] /\
    fds_of (fst w') =
      [] ++ [rmuxStdin (fst w'); rmuxStdout (fst w'); rmuxStderr (fst w')].
Proof.
  refine (handshake_succeeds "ls"
    (attached (masterSends (master_script 7) Silent) 0)
    (process0 (masterSends [] Eof))
    (uint32s [muxMsgHello; muxVersion]) (uint32s [muxIsAlive; 0; 4242])
    (uint32s [muxSessionOpened; 1; 7]) [] 4242 7 _ _ _ _ eq_refl
    (or_introl eq_refl)).
  - eexists. split; [reflexivity|]. split; [reflexivity|].
    split; [reflexivity|]. unfold master_script. cbn [incoming masterSends].
    now rewrite app_nil_r.
  - split; [reflexivity|].
    split; [repeat (apply Forall_cons; [in_range|]); apply Forall_nil|].
    exists []. reflexivity.
  - split; [reflexivity|].
    split; [repeat (apply Forall_cons; [in_range|]); apply Forall_nil|].
    exists []. reflexivity.
  - split; [reflexivity|].
    split; [repeat (apply Forall_cons; [in_range|]); apply Forall_nil|].
    exists []. reflexivity.
Defined.

(** X22: a terminal that cannot be set up.  With a terminal type
    requested and a master that answers, the terminal is put in raw mode
    only after the master has opened the session.  When [MakeRaw] fails,
    when it succeeds although [GetState] had failed (whose error is not
    looked at, so that the nil state is dereferenced), or when the two
    states differ, the handshake ends with the corresponding error: the
    session id is already recorded, the descriptors are already passed,
    and the remote ends are left open. *)
Theorem handshake_terminal_failure cmd s o hello alive opened rest pid sid :
  healthy s (frame hello ++ frame alive ++ frame opened ++ rest) ->
  carries hello [muxMsgHello; muxVersion] ->
  carries alive [muxIsAlive; 0; pid] ->
  carries opened [muxSessionOpened; 1; sid] ->
  pipe_errs o = [] ->
  term s <> EmptyString ->
  (forall st, tty_makeraw o = Some st -> tty_state o <> Some st) ->
  exists w',
    requestMuxSession cmd (s, o) =
      Err (match tty_makeraw o, tty_state o with
           | None, _ => ErrMakeRaw
           | Some _, None => PanicNilDeref
           | Some _, Some _ => ErrMakeRawState
           end) w' /\
    ctrlSessid (fst w') = sid /\
    fds_of (fst w') =
      fds_of s ++ [rmuxStdin (fst w'); rmuxStdout (fst w'); rmuxStderr (fst w')] /\
    closed_files (snd w') = closed_files o.
Proof.
  intros Hh Hhello Halive Hopened Hpipe Hterm Htty.
  destruct (handshake_opens cmd s o hello alive opened rest pid sid
              Hh Hhello Halive Hopened Hpipe)
    as (s7 & o7 & E & I7 & Q7 & H7 & M7 & F7 & T7 & R7 & X7).
  rewrite E. exists (s7, o7). cbn [fst snd].
  split; [|repeat split; assumption].
  unfold bind at 1.
  destruct (String.eqb_spec (term s7) EmptyString) as [Ht|Ht]; [congruence|].
  cbn [negb]. unfold makeRawTerm. cbn [snd]. rewrite R7, T7.
  destruct (tty_makeraw o) as [raw|] eqn:Hr; [|reflexivity].
  destruct (tty_state o) as [st|] eqn:Hs; [|reflexivity].
  destruct (Z.eqb_spec st raw) as [->|Hne]; [|reflexivity].
  now destruct (Htty raw eq_refl).
Qed.

Lemma handshake_terminal_failure_witness :
  exists w',
    requestMuxSession "ls"
      (set_term "xterm" (attached (masterSends (master_script 7) Silent) 0),
       process0 (masterSends [] Eof)) = Err ErrMakeRaw w' /\
    ctrlSessid (fst w') = 7 /\
    fds_of (fst w') =
      [] ++ [rmuxStdin (fst w'); rmuxStdout (fst w'); rmuxStderr (fst w')] /\
    closed_files (snd w') = [].
Proof.
  refine (handshake_terminal_failure "ls"
    (set_term "xterm" (attached (masterSends (master_script 7) Silent) 0))
    (process0 (masterSends [] Eof))
    (uint32s [muxMsgHello; muxVersion]) (uint32s [muxIsAlive; 0; 4242])
    (uint32s [muxSessionOpened; 1; 7]) [] 4242 7 _ _ _ _ eq_refl _ _).
  - eexists. split; [reflexivity|]. split; [reflexivity|].
    split; [reflexivity|]. unfold master_script. cbn [incoming masterSends].
    now rewrite app_nil_r.
  - split; [reflexivity|].
    split; [repeat (apply Forall_cons; [in_range|]); apply Forall_nil|].
    exists []. reflexivity.
  - split; [reflexivity|].
    split; [repeat (apply Forall_cons; [in_range|]); apply Forall_nil|].
    exists []. reflexivity.
  - split; [reflexivity|].
    split; [repeat (apply Forall_cons; [in_range|]); apply Forall_nil|].
    exists []. reflexivity.
  - discriminate.
  - intros st H. discriminate H.
Defined.

(* ===================================================================== *)
(** * Further properties: pipes and descriptors *)
(* ===================================================================== *)

Section Pipes.

Lemma os_Pipe_closed_files o : closed_files (snd (os_Pipe o)) = closed_files o.
Proof. unfold os_Pipe. destruct (pipe_errs o) as [|[|] rest]; reflexivity. Qed.

Lemma closeRemote_closes l r w w' :
  closeRemote l r w = Ret tt w' ->
  fst w' = fst w /\
  closed_files (snd w') =
    match l (fst w), r (fst w) with
    | Some _, Some f => f :: closed_files (snd w)
    | _, _ => closed_files (snd w)
    end.
Proof.
  destruct w as [s o]. unfold closeRemote. cbn [fst snd].
  destruct (l s); [destruct (r s)|]; intros H; injection H as <-; auto.
Qed.

Lemma StdinPipe_ok w f w1 :
  StdinPipe w = (f, None, w1) ->
  f = lmuxStdin (fst w1) /\ stdinpipe (fst w1) = true /\
  Stdin (fst w1) = NoStream /\ copyFuncs (fst w1) = copyFuncs (fst w).
Proof.
  destruct w as [s o]. unfold StdinPipe.
  destruct (Stdin s) eqn:Hs; try discriminate.
  destruct (started s); [discriminate|].
  destruct (os_Pipe o) as [[[r wr]|] o']; intros H; injection H as <- <-;
    cbn; auto.
Qed.

Lemma StdoutPipe_ok w f w1 :
  StdoutPipe w = (f, None, w1) ->
  f = lmuxStdout (fst w1) /\ stdoutpipe (fst w1) = true /\
  Stdout (fst w1) = NoStream /\ copyFuncs (fst w1) = copyFuncs (fst w).
Proof.
  destruct w as [s o]. unfold StdoutPipe.
  destruct (Stdout s) eqn:Hs; try discriminate.
  destruct (started s); [discriminate|].
  destruct (os_Pipe o) as [[[r wr]|] o']; intros H; injection H as <- <-;
    cbn; auto.
Qed.

Lemma StderrPipe_ok w f w1 :
  StderrPipe w = (f, None, w1) ->
  f = lmuxStderr (fst w1) /\ stderrpipe (fst w1) = true /\
  Stderr (fst w1) = NoStream /\ copyFuncs (fst w1) = copyFuncs (fst w).
Proof.
  destruct w as [s o]. unfold StderrPipe.
  destruct (Stderr s) eqn:Hs; try discriminate.
  destruct (started s); [discriminate|].
  destruct (os_Pipe o) as [[[r wr]|] o']; intros H; injection H as <- <-;
    cbn; auto.
Qed.

End Pipes.

(** X23: a stream for which the caller took a pipe gets no copy task.
    When a pipe accessor has returned without error and [Start] or [Shell]
    then succeeds, the file handed to the caller is the local end kept in
    the session, and among the copy tasks [start] appends there is none
    for that stream; for stdin no feeder goroutine is started either. *)
Theorem piped_stream_has_no_copy_task cmd w f w1 w' :
  Start cmd w1 = Ret tt w' \/ (Shell w1 = Ret tt w' /\ cmd = EmptyString) ->
  copyFuncs (fst w') = copyFuncs (fst w1) ++ copyTasksFor (fst w') /\
  (StdinPipe w = (f, None, w1) ->
   f = lmuxStdin (fst w1) /\ feeder (fst w') = [] /\
   forall src, ~ In (CopyStdin src) (copyTasksFor (fst w'))) /\
  (StdoutPipe w = (f, None, w1) ->
   f = lmuxStdout (fst w1) /\ ~ In CopyStdout (copyTasksFor (fst w'))) /\
  (StderrPipe w = (f, None, w1) ->
   f = lmuxStderr (fst w1) /\ ~ In CopyStderr (copyTasksFor (fst w'))).
Proof.
  intros H.
  apply starting_facts in H as (_ & _ & Hfl & Hcf & _).
  apply flags_of_inv in Hfl as (Fi & Fo & Fe).
  split; [exact Hcf|].
  split; [|split]; intros HP.
  - apply StdinPipe_ok in HP as (-> & Hp & _). rewrite Hp in Fi.
    cbn in Fi. split; [reflexivity|].
    unfold feeder, copyTasksFor. rewrite Fi.
    split; [reflexivity|].
    intros src Hin. cbn [app] in Hin.
    destruct (stdoutpipe (fst w')), (stderrpipe (fst w')); cbn in Hin;
      intuition discriminate.
  - apply StdoutPipe_ok in HP as (-> & Hp & _). rewrite Hp in Fo.
    cbn in Fo. split; [reflexivity|].
    unfold copyTasksFor. rewrite Fo. intros Hin.
    destruct (stdinpipe (fst w')), (stderrpipe (fst w')); cbn in Hin;
      intuition discriminate.
  - apply StderrPipe_ok in HP as (-> & Hp & _). rewrite Hp in Fe.
    cbn in Fe. split; [reflexivity|].
    unfold copyTasksFor. rewrite Fe. intros Hin.
    destruct (stdinpipe (fst w')), (stdoutpipe (fst w')); cbn in Hin;
      intuition discriminate.
Qed.

Lemma piped_stream_has_no_copy_task_witness :
  exists w1 w',
    StdoutPipe (NewSession "ctl",
                process0 (masterSends (master_script 7) Silent)) =
      (Some 3%nat, None, w1) /\
    Start "ls" w1 = Ret tt w' /\
    copyFuncs (fst w') = [CopyStdin EmptyBuffer; CopyStderr] /\
    Some 3%nat = lmuxStdout (fst w1) /\
    ~ In CopyStdout (copyTasksFor (fst w')).
Proof.
  eexists. eexists.
  split; [vm_compute; reflexivity|].
  split; [vm_compute; reflexivity|].
  match goal with
  | |- copyFuncs (fst ?w') = _ /\ Some _ = lmuxStdout (fst ?w1) /\ _ =>
      assert (E : Start "ls" w1 = Ret tt w') by (vm_compute; reflexivity);
      destruct (piped_stream_has_no_copy_task "ls"
                  (NewSession "ctl",
                   process0 (masterSends (master_script 7) Silent))
                  (Some 3%nat) w1 w' (or_introl E)) as (H1 & _ & H2 & _);
      destruct (H2 eq_refl) as [H3 H4]
  end.
  split; [exact H1|]. split; [exact H3 | exact H4].
Defined.

(** X24: the remote ends are closed locally after the hand-off.  When the
    handshake returns nil, it has closed, for each stream of which the
    session keeps a local pipe end, the remote end it passed to the
    master (stdin first, then stdout, then stderr); a stream without a
    local end, such as a caller's [*os.File], is not closed; nothing else
    is closed. *)
Theorem handshake_closes_remote_ends cmd w w' :
  requestMuxSession cmd w = Ret tt w' ->
  closed_files (snd w') =
    (match lmuxStderr (fst w'), rmuxStderr (fst w') with
     | Some _, Some f => [f] | _, _ => [] end) ++
    (match lmuxStdout (fst w'), rmuxStdout (fst w') with
     | Some _, Some f => [f] | _, _ => [] end) ++
    (match lmuxStdin (fst w'), rmuxStdin (fst w') with
     | Some _, Some f => [f] | _, _ => [] end) ++
    closed_files (snd w).
Proof.
  unfold requestMuxSession. intros H.
  apply ret_bind_inv in H as ([] & w0 & E0 & H).
  apply ret_bind_inv in H as ([] & w1 & E1 & H).
  apply ret_bind_inv in H as ([] & w2 & E2 & H).
  apply ret_bind_inv in H as ([] & w3 & E3 & H).
  apply ret_bind_inv in H as ([] & w7 & E7 & H).
  apply ret_bind_inv in H as (s8 & w8 & E8 & H).
  apply ret_bind_inv in H as ([] & w9 & E9 & H).
  apply ret_bind_inv in H as ([] & w10 & E10 & H).
  apply ret_bind_inv in H as ([] & w11 & E11 & H).
  assert (K7 : closed_files (snd w7) = closed_files (snd w)).
  { assert (K : forall m : M (Session * OS) unit,
               keeps (fun w => closed_files (snd w)) m -> forall a b,
               m a = Ret tt b -> closed_files (snd b) = closed_files (snd a)).
    { intros m Km a b E. specialize (Km a). now rewrite E in Km. }
    assert (K4 : keeps (fun w => closed_files (snd w)) sshMuxPassFileDescriptors)
      by (apply keeps_sshMuxPassFileDescriptors; intros; try reflexivity;
          apply os_Pipe_closed_files).
    assert (K3 : keeps (fun w => closed_files (snd w))
                   (onSession (sshMuxNewSession cmd)))
      by (apply keeps_conn_only;
          [reflexivity | apply sshMuxNewSession_conn_only]).
    assert (K2 : keeps (fun w => closed_files (snd w))
                   (onSession sshMuxAliveCheck))
      by (apply keeps_sshMuxAliveCheck; reflexivity).
    assert (K1 : keeps (fun w => closed_files (snd w)) (onSession sshMuxHello))
      by (apply keeps_conn_only; [reflexivity | apply sshMuxHello_conn_only]).
    rewrite (K _ K4 _ _ E7), (K _ K3 _ _ E3), (K _ K2 _ _ E2), (K _ K1 _ _ E1).
    cbn in E0. injection E0 as <-. reflexivity. }
  assert (K8 : w8 = w7) by (destruct w7; cbn in E8; now injection E8).
  subst w8.
  assert (K9 : w9 = w7).
  { destruct (negb _); [|cbn in E9; now injection E9].
    unfold makeRawTerm in E9.
    destruct (tty_makeraw (snd w7)); [|discriminate].
    destruct (tty_state (snd w7)); [|discriminate].
    destruct (negb _); [discriminate|]. now injection E9. }
  subst w9.
  apply closeRemote_closes in E10 as [S10 C10].
  apply closeRemote_closes in E11 as [S11 C11].
  apply closeRemote_closes in H as [S12 C12].
  rewrite C12, S12, S11, S10, C11, S10, C10, K7.
  destruct (lmuxStderr (fst w7)), (rmuxStderr (fst w7)),
           (lmuxStdout (fst w7)), (rmuxStdout (fst w7)),
           (lmuxStdin (fst w7)), (rmuxStdin (fst w7)); reflexivity.
Qed.

Lemma handshake_closes_remote_ends_witness :
  exists w',
    requestMuxSession "ls"
      (set_Stdin (OsFile 0%nat)
         (attached (masterSends (master_script 7) Silent) 0),
       process0 (masterSends [] Eof)) = Ret tt w' /\
    rmuxStdin (fst w') = Some 0%nat /\
    closed_files (snd w') = [6%nat; 4%nat].
Proof.
  eexists. split; [vm_compute; reflexivity|].
  split; [reflexivity|].
  match goal with
  | |- closed_files (snd ?w') = _ =>
      refine (handshake_closes_remote_ends "ls"
                (set_Stdin (OsFile 0%nat)
                   (attached (masterSends (master_script 7) Silent) 0),
                 process0 (masterSends [] Eof)) w' _);
        vm_compute; reflexivity
  end.
Defined.

(** X25: a reply that is too short.  When the packet read holds fewer
    than [count] integers, [recvInts] consumes it and fails with the
    buffer-too-short error; so a greeting of fewer than 8 bytes makes the
    hello step fail with that error, not with the incompatible-hello
    error, and nothing is written. *)
Theorem recvInts_short_packet s c p rest count :
  ctrlconn s = Some c -> closed c = false ->
  incoming c = frame p ++ rest -> len p < 2 ^ 32 ->
  len p < 4 * count ->
  recvInts count s =
    Err ErrBufferTooShort (set_ctrlconn (Some (set_incoming rest c)) s) /\
  (count = 2 ->
   sshMuxHello s =
     Err ErrBufferTooShort (set_ctrlconn (Some (set_incoming rest c)) s)).
Proof.
  intros Hc Hcl Hin Hlen Hshort.
  assert (E : recvInts count s =
              Err ErrBufferTooShort (set_ctrlconn (Some (set_incoming rest c)) s)).
  { unfold recvInts, bind.
    rewrite (frame_read s c p rest Hc Hcl Hlen Hin).
    rewrite popInts_short; [reflexivity|].
    pose proof (len_nonneg p). rewrite Z2Nat.id by lia. exact Hshort. }
  split; [exact E|].
  intros ->. unfold sshMuxHello, bind. now rewrite E.
Qed.

Lemma recvInts_short_packet_witness :
  sshMuxHello (attached (masterSends (frame (uint32s [muxMsgHello])) Silent) 0) =
  Err ErrBufferTooShort (attached (masterSends [] Silent) 0).
Proof.
  refine (proj2 (recvInts_short_packet
    (attached (masterSends (frame (uint32s [muxMsgHello])) Silent) 0)
    (masterSends (frame (uint32s [muxMsgHello])) Silent)
    (uint32s [muxMsgHello]) [] 2 eq_refl eq_refl _ _ _) eq_refl).
  - vm_compute. reflexivity.
  - reflexivity.
  - reflexivity.
Defined.
